(** * CallFlow backend: the webhook handlers of [index.js]

    A shallow embedding of the three webhook handlers of the CallFlow
    backend ([/incoming-call], [/process-speech], [/call-ended]) together
    with the Redis key helpers, the tenant configuration resolver and the
    speech-synthesis helper they use.

    Conventions of the embedding.
    - A JavaScript string is a [string]: a sequence of code units below 256.
    - [undefined] / [null] are [None]; a template literal renders them with
      [show] as the text "undefined".
    - Redis is one key space [gmap string RedisValue]; a key holds either a
      string value (the JSON text of a document, kept in parsed form, with
      the [EX] argument it was written with) or a hash of integer counters.
      Expiry itself is the store's business: a handler only ever sees the
      key space as it is when the request arrives.
    - An [async] handler is a computation in the monad [M]: it threads the
      [World] (Redis, the audio directory, the log of provider calls) and
      either settles with a response or rejects with an error.  Nothing in
      [index.js] catches a rejection.
    - Every reading of the clock while a request is served is a separate
      value ([clock o i] is the i-th reading, in milliseconds); the answers
      of the providers are functions of what is sent to them, [None] when
      the call fails.
    - A numeric environment variable is the number it reads as, [None] when
      it is not set.
    - The rate limiter and the static audio route stand in front of the
      handlers and are not part of the embedding.
    - Whether a file can be written at a path is an answer of the file
      system: [fs.writeFileSync] throws when it cannot. *)

From Stdlib Require Import Ascii String QArith.
From stdpp Require Import gmap strings list fin_maps pretty.

Local Open Scope string_scope.
Local Open Scope Z_scope.

(** ** JavaScript strings *)

Module Js.

(** Template-literal rendering of a possibly undefined string. *)
Definition show (o : option string) : string :=
  match o with
  | Some s => s
  | None => "undefined"
  end.

(** [a || b] on a possibly undefined string: the empty string is falsy. *)
Definition or_else (o : option string) (d : string) : string :=
  match o with
  | Some "" | None => d
  | Some s => s
  end.

(** Truthiness of a value that is null or a string. *)
Definition truthy (o : option string) : bool :=
  match o with
  | Some "" | None => false
  | Some _ => true
  end.

Definition lower_char (c : ascii) : ascii :=
  let n := N_of_ascii c in
  if ((65 <=? n) && (n <=? 90))%N then ascii_of_N (n + 32)
  else if ((192 <=? n) && (n <=? 222) && negb (n =? 215))%N
       then ascii_of_N (n + 32)
       else c.

(** [String.prototype.toLowerCase]. *)
Fixpoint toLowerCase (s : string) : string :=
  match s with
  | EmptyString => EmptyString
  | String c r => String (lower_char c) (toLowerCase r)
  end.

Fixpoint startsWith (s k : string) : bool :=
  match k, s with
  | EmptyString, _ => true
  | String _ _, EmptyString => false
  | String a k', String b s' => if ascii_dec a b then startsWith s' k' else false
  end.

(** [String.prototype.includes]: [k] occurs in [s] as a substring. *)
Fixpoint includes (s k : string) : bool :=
  startsWith s k ||
  match s with
  | EmptyString => false
  | String _ s' => includes s' k
  end.

(** White space and line terminators among the code units below 256. *)
Definition is_space (c : ascii) : bool :=
  let n := N_of_ascii c in
  ((9 <=? n) && (n <=? 13) || (n =? 32) || (n =? 160))%N.

Fixpoint trimStart (s : string) : string :=
  match s with
  | String c r => if is_space c then trimStart r else s
  | EmptyString => EmptyString
  end.

Fixpoint trimEnd (s : string) : string :=
  match s with
  | EmptyString => EmptyString
  | String c r =>
      match trimEnd r with
      | EmptyString => if is_space c then EmptyString else String c EmptyString
      | r' => String c r'
      end
  end.

(** [String.prototype.trim]. *)
Definition trim (s : string) : string := trimEnd (trimStart s).

(** [path.basename] of a path that does not end in a slash. *)
Fixpoint basename (p : string) : string :=
  match p with
  | EmptyString => EmptyString
  | String c r =>
      if includes r "/" then basename r
      else if ascii_dec c "/"%char then r else p
  end.

(** Decimal digits of [n], padded with zeros on the left to [w] places. *)
Fixpoint zeros (w : nat) : string :=
  match w with
  | O => ""
  | S w' => "0" +:+ zeros w'
  end.

Definition pad (w : nat) (n : Z) : string :=
  let d := pretty (Z.to_N n) in
  zeros (w - String.length d) +:+ d.

(** Civil date (year, month, day) of a day number counted from
    1970-01-01, proleptic Gregorian calendar. *)
Definition civil (days : Z) : Z * Z * Z :=
  let z := days + 719468 in
  let era := z / 146097 in
  let doe := z - era * 146097 in
  let yoe := (doe - doe / 1460 + doe / 36524 - doe / 146096) / 365 in
  let doy := doe - (365 * yoe + yoe / 4 - yoe / 100) in
  let mp := (5 * doy + 2) / 153 in
  let d := doy - (153 * mp + 2) / 5 + 1 in
  let m := if mp <? 10 then mp + 3 else mp - 9 in
  let y := yoe + era * 400 + (if m <=? 2 then 1 else 0) in
  (y, m, d).

Definition year_text (y : Z) : string :=
  if (0 <=? y) && (y <=? 9999) then pad 4 y
  else if y <? 0 then "-" +:+ pad 6 (- y)
  else "+" +:+ pad 6 y.

(** [new Date(ms).toISOString()]. *)
Definition toISOString (ms : Z) : string :=
  let '(y, m, d) := civil (ms / 86400000) in
  let t := ms mod 86400000 in
  year_text y +:+ "-" +:+ pad 2 m +:+ "-" +:+ pad 2 d +:+ "T" +:+
  pad 2 (t / 3600000) +:+ ":" +:+ pad 2 (t / 60000 mod 60) +:+ ":" +:+
  pad 2 (t / 1000 mod 60) +:+ "." +:+ pad 3 (t mod 1000) +:+ "Z".

(** [s.slice(0, n)]. *)
Fixpoint slice0 (n : nat) (s : string) : string :=
  match n, s with
  | S n', String c r => String c (slice0 n' r)
  | _, _ => EmptyString
  end.

(** [a > b] on numbers, here exact rationals. *)
Definition gt (a b : Q) : bool :=
  match (a ?= b)%Q with
  | Gt => true
  | _ => false
  end.

End Js.

(** ** Data model *)

Inductive Role := system | user | assistant.

Record Message := { role : Role; content : string }.

(** The session object of a call.  [durationSec] and [endedAt] are the two
    properties that [/call-ended] adds to the copy it archives; the object
    built by [/incoming-call] does not have them. *)
Record Session := {
  callSid : option string;
  tenantId : option string;
  from : option string;
  intent : option string;
  startTime : Z;
  resolvedBy : string;
  messages : list Message;
  durationSec : option Z;
  endedAt : option string;
}.

Record Tenant := {
  businessName : option string;
  businessHours : option string;
  humanAgent : option string;
  aiStyle : option string;
  enableHumanTransfer : bool;
}.

(** What [JSON.parse] yields for the text held by a string key: a session
    object, or a tenant configuration.  A tenant configuration that went
    through [/call-ended] (possible only when a configuration key and a
    session key coincide) carries the [endedAt] stamp it was archived
    with. *)
Inductive Doc :=
| DSession (s : Session)
| DTenant (t : Tenant) (archived : option string).

(** A Redis value: a string (with the [EX] seconds it was set with, if
    any) or a hash of counters. *)
Inductive RedisValue :=
| RString (d : Doc) (ex : option Z)
| RHash (h : gmap string Z).

(** Calls issued to the hosted providers. *)
Inductive Call :=
| ChatIntent (utterance : string)
| ChatReply (history : list Message)
| Speech (text : string).

Record World := {
  redis : gmap string RedisValue;
  audio : gmap string string;
  calls : list Call;
}.

Inductive Error := WRONGTYPE | TypeError | ProviderError | FsError.

(** [process.env], numeric variables already read as numbers. *)
Record ProcessEnv := {
  MAX_CALL_TURNS : option Z;
  MAX_CALL_DURATION_SEC : option Z;
  HUMAN_AGENT_NUMBER : option string;
}.

(** The body and the connection data of a webhook request. *)
Record Request := {
  CallSid : option string;
  To : option string;
  From : option string;
  SpeechResult : option string;
  protocol : string;
  host : option string;
}.

(** What a [fetch] resolves with: whether the status is a success
    ([response.ok]) and the bytes of the body. *)
Record Fetched := { ok : bool; body : string }.

(** What the outside answers while one request is served: the successive
    readings of the clock (milliseconds); the results of the language
    model ([None]: the client throws); what the request to the speech
    endpoint resolves with ([None]: the [fetch], or the reading of the
    body, rejects); and whether the file system takes a file at a path. *)
Record Oracle := {
  clock : nat -> Z;
  chat_intent : string -> option string;
  chat_reply : list Message -> option string;
  tts : string -> option Fetched;
  fs_accepts : string -> bool;
}.

Inductive Verb :=
| Play (url : string)
| Gather (input action method timeout : string)
| Say (text : string)
| Dial (number : string).

Inductive Response :=
| sendStatus (code : Z)
| twiml (verbs : list Verb).

(** ** The handler monad *)

Inductive Outcome (A : Type) :=
| Done (a : A)
| Rejected (e : Error).
Arguments Done {A} a.
Arguments Rejected {A} e.

Definition M (A : Type) : Type := World -> Outcome A * World.

Definition ret {A} (a : A) : M A := fun w => (Done a, w).

Definition throw {A} (e : Error) : M A := fun w => (Rejected e, w).

Definition bind {A B} (m : M A) (k : A -> M B) : M B :=
  fun w =>
    match m w with
    | (Done a, w') => k a w'
    | (Rejected e, w') => (Rejected e, w')
    end.

Notation "'let*' x ':=' c1 'in' c2" := (bind c1 (fun x => c2))
  (at level 10, x name, c1 at level 100, c2 at level 200).

(** ** Redis commands *)

Definition with_redis (f : gmap string RedisValue -> gmap string RedisValue)
    (w : World) : World :=
  {| redis := f (redis w); audio := audio w; calls := calls w |}.

Definition redis_get (k : string) : M (option Doc) :=
  fun w =>
    match redis w !! k with
    | None => (Done None, w)
    | Some (RString d _) => (Done (Some d), w)
    | Some (RHash _) => (Rejected WRONGTYPE, w)
    end.

Definition redis_set (k : string) (d : Doc) (ex : option Z) : M unit :=
  fun w => (Done tt, with_redis <[k := RString d ex]> w).

Definition redis_del (k : string) : M unit :=
  fun w => (Done tt, with_redis (delete k) w).

Definition hincr (f : string) (n : Z) (h : gmap string Z) : gmap string Z :=
  <[f := default 0 (h !! f) + n]> h.

Definition redis_hincrby (k f : string) (n : Z) : M unit :=
  fun w =>
    match redis w !! k with
    | None => (Done tt, with_redis <[k := RHash (hincr f n ∅)]> w)
    | Some (RHash h) => (Done tt, with_redis <[k := RHash (hincr f n h)]> w)
    | Some (RString _ _) => (Rejected WRONGTYPE, w)
    end.

(** Reading a counter, for the statements below (0 when never written). *)
Definition counter (w : World) (k f : string) : Z :=
  match redis w !! k with
  | Some (RHash h) => default 0 (h !! f)
  | _ => 0
  end.

(** ** Provider calls and the audio directory *)

Definition log_call (c : Call) (w : World) : World :=
  {| redis := redis w; audio := audio w; calls := calls w ++ [c] |}.

Definition call_provider {A} (c : Call) (r : option A) : M A :=
  fun w =>
    match r with
    | Some s => (Done s, log_call c w)
    | None => (Rejected ProviderError, log_call c w)
    end.

Definition with_audio (f : gmap string string -> gmap string string)
    (w : World) : World :=
  {| redis := redis w; audio := f (audio w); calls := calls w |}.

(** ** Redis key helpers (multi-tenant) *)

Definition tenantKey (tid : option string) : string :=
  "tenant:" +:+ Js.show tid +:+ ":config".

Definition sessionKey (tid sid : option string) : string :=
  "tenant:" +:+ Js.show tid +:+ ":call:session:" +:+ Js.show sid.

Definition logKey (tid sid : option string) : string :=
  "tenant:" +:+ Js.show tid +:+ ":call:log:" +:+ Js.show sid.

(** [now] is the reading of the clock taken by [new Date()]. *)
Definition analyticsKey (tid : option string) (now : Z) : string :=
  "tenant:" +:+ Js.show tid +:+ ":analytics:daily:" +:+
  Js.slice0 10 (Js.toISOString now).

Definition AUDIO_DIR : string := "./audio".

(** [fs.writeFileSync]: throws when the file system does not take the
    file. *)
Definition writeFileSync (o : Oracle) (filePath buffer : string) : M unit :=
  fun w =>
    if fs_accepts o filePath then (Done tt, with_audio <[filePath := buffer]> w)
    else (Rejected FsError, w).

Definition nl : string := String (ascii_of_nat 10) EmptyString.

(** [Number(v || d)] for a numeric environment variable. *)
Definition number_or (v : option Z) (d : Z) : Z := default d v.

(** Field updates of the session object. *)
Definition set_resolvedBy (r : string) (s : Session) : Session :=
  {| callSid := callSid s; tenantId := tenantId s; from := from s;
     intent := intent s; startTime := startTime s; resolvedBy := r;
     messages := messages s; durationSec := durationSec s; endedAt := endedAt s |}.

Definition set_intent (i : option string) (s : Session) : Session :=
  {| callSid := callSid s; tenantId := tenantId s; from := from s;
     intent := i; startTime := startTime s; resolvedBy := resolvedBy s;
     messages := messages s; durationSec := durationSec s; endedAt := endedAt s |}.

Definition push (m : Message) (s : Session) : Session :=
  {| callSid := callSid s; tenantId := tenantId s; from := from s;
     intent := intent s; startTime := startTime s; resolvedBy := resolvedBy s;
     messages := messages s ++ [m]; durationSec := durationSec s;
     endedAt := endedAt s |}.

(** [{...session, durationSec, endedAt}] *)
Definition archive (d : Z) (e : string) (s : Session) : Session :=
  {| callSid := callSid s; tenantId := tenantId s; from := from s;
     intent := intent s; startTime := startTime s; resolvedBy := resolvedBy s;
     messages := messages s; durationSec := Some d; endedAt := Some e |}.

Definition keywords : list string := ["human"; "agent"; "person"; "operator"].

Definition max_length_text : string :=
  "This call has reached its maximum length. Thank you.".
Definition timed_out_text : string := "This call has timed out. Thank you.".
Definition hold_text : string := "Please hold while I connect you.".

Section Handlers.

Variable env : ProcessEnv.

(** *** Helpers *)

Definition default_tenant : Tenant :=
  {| businessName := Some "CallFlow Client";
     businessHours := Some "10 AM to 6 PM";
     humanAgent := HUMAN_AGENT_NUMBER env;
     aiStyle := Some "polite and professional";
     enableHumanTransfer := true |}.

(** The object parsed from a configuration key, read as a tenant
    configuration: a session object has none of its properties. *)
Definition as_tenant (d : Doc) : Tenant :=
  match d with
  | DTenant t _ => t
  | DSession _ =>
      {| businessName := None; businessHours := None; humanAgent := None;
         aiStyle := None; enableHumanTransfer := false |}
  end.

Definition getTenantConfig (tid : option string) : M Tenant :=
  let* data := redis_get (tenantKey tid) in
  ret (match data with
       | Some d => as_tenant d
       | None => default_tenant
       end).

Definition generateSpeech (o : Oracle) (text filePath : string) : M unit :=
  let* response := call_provider (Speech text) (tts o text) in
  let buffer := body response in
  writeFileSync o filePath buffer.

Definition play_then_gather (rq : Request) (audioFile : string) : Response :=
  twiml [Play (protocol rq +:+ "://" +:+ Js.show (host rq) +:+ "/audio/" +:+
               Js.basename audioFile);
         Gather "speech" "/process-speech" "POST" "5"].

(** *** Incoming call *)

Definition system_prompt (tenant : Tenant) : string :=
  "You are an AI receptionist for " +:+ Js.show (businessName tenant) +:+ "." +:+ nl +:+
  "Style: " +:+ Js.show (aiStyle tenant) +:+ "." +:+ nl +:+
  "Business hours: " +:+ Js.show (businessHours tenant) +:+ ".".

Definition welcome_text (tenant : Tenant) : string :=
  "Hello. You have reached " +:+ Js.show (businessName tenant) +:+
  ". How can I help you today?".

Definition new_session (rq : Request) (now : Z) (tenant : Tenant) : Session :=
  {| callSid := CallSid rq;
     tenantId := To rq;
     from := From rq;
     intent := None;
     startTime := now;
     resolvedBy := "AI";
     messages := [ {| role := system; content := system_prompt tenant |} ];
     durationSec := None;
     endedAt := None |}.

Definition incoming_call (o : Oracle) (rq : Request) : M Response :=
  let callSid := CallSid rq in
  let tenantId := To rq in
  let* tenant := getTenantConfig tenantId in
  let session := new_session rq (clock o 0) tenant in
  let* _ := redis_set (sessionKey tenantId callSid) (DSession session) (Some 3600) in
  let welcomeText := welcome_text tenant in
  let audioFile := AUDIO_DIR +:+ "/" +:+ Js.show callSid +:+ "-welcome.mp3" in
  let* _ := generateSpeech o welcomeText audioFile in
  ret (play_then_gather rq audioFile).

(** *** Process speech *)

Definition over_turns (session : Session) : bool :=
  Js.gt (Z.of_nat (length (messages session)) # 2)
        (inject_Z (number_or (MAX_CALL_TURNS env) 20)).

Definition over_time (now : Z) (session : Session) : bool :=
  Js.gt ((now - startTime session) # 1000)
        (inject_Z (number_or (MAX_CALL_DURATION_SEC env) 900)).

Definition wants_human (tenant : Tenant) (lower : string) : bool :=
  enableHumanTransfer tenant && existsb (fun k => Js.includes lower k) keywords.

Definition detect_intent (o : Oracle) (userSpeech : string) (session : Session)
    : M Session :=
  if negb (Js.truthy (intent session)) then
    let* intentCheck := call_provider (ChatIntent userSpeech) (chat_intent o userSpeech) in
    ret (set_intent (Some (Js.trim intentCheck)) session)
  else ret session.

Definition process_speech (o : Oracle) (rq : Request) : M Response :=
  let callSid := CallSid rq in
  let tenantId := To rq in
  let userSpeech := Js.or_else (SpeechResult rq) "" in
  let* stored := redis_get (sessionKey tenantId callSid) in
  match stored with
  | None => ret (sendStatus 200)
  | Some (DTenant _ _) => throw TypeError
  | Some (DSession session) =>
      if over_turns session then
        let session := set_resolvedBy "LIMIT" session in
        let* _ := redis_set (sessionKey tenantId callSid) (DSession session) (Some 3600) in
        ret (twiml [Say max_length_text])
      else if over_time (clock o 0) session then
        let session := set_resolvedBy "TIME_LIMIT" session in
        let* _ := redis_set (sessionKey tenantId callSid) (DSession session) (Some 3600) in
        ret (twiml [Say timed_out_text])
      else
        let* tenant := getTenantConfig tenantId in
        let lower := Js.toLowerCase userSpeech in
        let session := push {| role := user; content := userSpeech |} session in
        if wants_human tenant lower then
          let session := set_resolvedBy "HUMAN" session in
          let* _ := redis_set (sessionKey tenantId callSid) (DSession session) (Some 3600) in
          ret (twiml [Play hold_text; Dial (Js.show (humanAgent tenant))])
        else
          let* session := detect_intent o userSpeech session in
          let* reply := call_provider (ChatReply (messages session))
                                      (chat_reply o (messages session)) in
          let session := push {| role := assistant; content := reply |} session in
          let* _ := redis_set (sessionKey tenantId callSid) (DSession session) (Some 3600) in
          let audioFile :=
            AUDIO_DIR +:+ "/" +:+ Js.show callSid +:+ "-" +:+ pretty (clock o 1) +:+
            ".mp3" in
          let* _ := generateSpeech o reply audioFile in
          ret (play_then_gather rq audioFile)
  end.

(** *** Call ended: analytics and logs *)

Definition call_ended (o : Oracle) (rq : Request) : M Response :=
  let callSid := CallSid rq in
  let tenantId := To rq in
  let* stored := redis_get (sessionKey tenantId callSid) in
  match stored with
  | None => ret (sendStatus 200)
  | Some doc =>
      let now := clock o 0 in
      let endedAt := Js.toISOString (clock o 1) in
      let log :=
        match doc with
        | DSession session =>
            DSession (archive ((now - startTime session) / 1000) endedAt session)
        | DTenant t _ => DTenant t (Some endedAt)
        end in
      let outcome :=
        match doc with
        | DSession session => resolvedBy session
        | DTenant _ _ => "undefined"
        end in
      let* _ := redis_set (logKey tenantId callSid) log None in
      let* _ := redis_hincrby (analyticsKey tenantId (clock o 2)) "total_calls" 1 in
      let* _ := redis_hincrby (analyticsKey tenantId (clock o 3)) ("resolved_" +:+ outcome) 1 in
      let* _ := redis_del (sessionKey tenantId callSid) in
      ret (sendStatus 200)
  end.

End Handlers.

(** ** Histories of user/assistant pairs and runs of speech events *)

(** [l] is [n] user/assistant pairs. *)
Fixpoint is_pairs (n : nat) (l : list Message) : bool :=
  match n, l with
  | O, [] => true
  | S n', {| role := user |} :: {| role := assistant |} :: r => is_pairs n' r
  | _, _ => false
  end.

(** The session holds its system turn followed by [n] user/assistant pairs. *)
Definition pairs_recorded (n : nat) (s : Session) : bool :=
  match messages s with
  | {| role := system |} :: r => is_pairs n r
  | _ => false
  end.

(** The stored session of a call, if the session key holds one. *)
Definition stored_session (w : World) (k : string) : option Session :=
  match redis w !! k with
  | Some (RString (DSession s) _) => Some s
  | _ => None
  end.

(** A sequence of speech events served one after the other. *)
Fixpoint run_speech (env : ProcessEnv) (evs : list (Oracle * Request)) (w : World)
    : list (Outcome Response) * World :=
  match evs with
  | [] => ([], w)
  | (o, rq) :: rest =>
      let '(r, w') := process_speech env o rq w in
      let '(rs, w'') := run_speech env rest w' in
      (r :: rs, w'')
  end.

Definition is_chat_intent (c : Call) : bool :=
  match c with
  | ChatIntent _ => true
  | _ => false
  end.

Definition has_dial (r : Outcome Response) : bool :=
  match r with
  | Done (twiml vs) =>
      existsb (fun v => match v with Dial _ => true | _ => false end) vs
  | _ => false
  end.

(** [s'] continues [s]: same start, history extended, and an intent that
    was truthy is kept. *)
Definition extends (s s' : Session) : Prop :=
  startTime s' = startTime s /\
  (Js.truthy (intent s) = true -> intent s' = intent s) /\
  exists l, messages s' = (messages s ++ l)%list.

(** The response ends the conversation: it says a closing line or dials
    out, instead of gathering more speech. *)
Definition terminal (r : Outcome Response) : bool :=
  match r with
  | Done (twiml vs) =>
      existsb (fun v => match v with Say _ | Dial _ => true | _ => false end) vs
  | _ => false
  end.

(** The key holds a string value, so that a hash command on it fails. *)
Definition holds_string (w : World) (k : string) : bool :=
  match redis w !! k with
  | Some (RString _ _) => true
  | _ => false
  end.

(** The key space after a successful [HINCRBY k f n]. *)
Definition bump (k f : string) (n : Z) (m : gmap string RedisValue)
    : gmap string RedisValue :=
  <[k := RHash (hincr f n (match m !! k with
                            | Some (RHash h) => h
                            | _ => ∅
                            end))]> m.

(** The audio file of a reply, named after the call and the clock. *)
Definition reply_file (o : Oracle) (rq : Request) : string :=
  AUDIO_DIR +:+ "/" +:+ Js.show (CallSid rq) +:+ "-" +:+ pretty (clock o 1) +:+ ".mp3".

(** The audio file of the welcome phrase, named after the call. *)
Definition welcome_file (rq : Request) : string :=
  AUDIO_DIR +:+ "/" +:+ Js.show (CallSid rq) +:+ "-welcome.mp3".

(** The request in which each of the two identifiers is the text that a
    template literal renders it as: itself when present, "undefined" when
    missing. *)
Definition rendered (rq : Request) : Request :=
  {| CallSid := Some (Js.show (CallSid rq));
     To := Some (Js.show (To rq));
     From := From rq;
     SpeechResult := SpeechResult rq;
     protocol := protocol rq;
     host := host rq |}.

(** The world once a reply has been generated and saved under [k], speech
    synthesis having been asked for: [w1] is the world in which the reply
    was requested and [s1] the session at that point. *)
Definition after_reply (k : string) (s1 : Session) (reply : string) (w1 : World)
    : World :=
  log_call (Speech reply)
    (with_redis
       <[k := RString (DSession (push {| role := assistant; content := reply |} s1))
                      (Some 3600)]>
       (log_call (ChatReply (messages s1)) w1)).

(** The archived copy of a session and the world after its finalization. *)
Definition archived (o : Oracle) (s : Session) : Session :=
  archive ((clock o 0 - startTime s) / 1000) (Js.toISOString (clock o 1)) s.

Definition finalized (o : Oracle) (rq : Request) (s : Session) (w : World) : World :=
  with_redis (delete (sessionKey (To rq) (CallSid rq)))
    (with_redis (bump (analyticsKey (To rq) (clock o 3)) ("resolved_" +:+ resolvedBy s) 1)
       (with_redis (bump (analyticsKey (To rq) (clock o 2)) "total_calls" 1)
          (with_redis <[logKey (To rq) (CallSid rq) := RString (DSession (archived o s)) None]>
             w))).

(** ** Vocabulary for the further properties *)

(** The text has no colon, as a telephone number or a provider's call
    identifier. *)
Definition colon_free (s : string) : bool := negb (Js.includes s ":").

Definition slash_free (s : string) : bool := negb (Js.includes s "/").

(** Number of system turns of a history. *)
Definition is_system (m : Message) : bool :=
  match role m with
  | system => true
  | _ => false
  end.

Definition system_turns (l : list Message) : nat :=
  length (List.filter is_system l).

(** The paths through [process_speech]: which response and which world a
    speech event ends with, and under which conditions. *)
Inductive speech_path (env : ProcessEnv) (o : Oracle) (rq : Request) (w : World)
    : Outcome Response -> World -> Prop :=
| path_absent :
    redis w !! sessionKey (To rq) (CallSid rq) = None ->
    speech_path env o rq w (Done (sendStatus 200)) w
| path_not_a_session t a ex :
    redis w !! sessionKey (To rq) (CallSid rq) = Some (RString (DTenant t a) ex) ->
    speech_path env o rq w (Rejected TypeError) w
| path_wrongtype h :
    redis w !! sessionKey (To rq) (CallSid rq) = Some (RHash h) ->
    speech_path env o rq w (Rejected WRONGTYPE) w
| path_limit s ex :
    redis w !! sessionKey (To rq) (CallSid rq) = Some (RString (DSession s) ex) ->
    over_turns env s = true ->
    speech_path env o rq w (Done (twiml [Say max_length_text]))
      (with_redis <[sessionKey (To rq) (CallSid rq) :=
                      RString (DSession (set_resolvedBy "LIMIT" s)) (Some 3600)]> w)
| path_time_limit s ex :
    redis w !! sessionKey (To rq) (CallSid rq) = Some (RString (DSession s) ex) ->
    over_turns env s = false ->
    over_time env (clock o 0) s = true ->
    speech_path env o rq w (Done (twiml [Say timed_out_text]))
      (with_redis <[sessionKey (To rq) (CallSid rq) :=
                      RString (DSession (set_resolvedBy "TIME_LIMIT" s)) (Some 3600)]> w)
| path_config_fails s ex e :
    redis w !! sessionKey (To rq) (CallSid rq) = Some (RString (DSession s) ex) ->
    over_turns env s = false ->
    over_time env (clock o 0) s = false ->
    getTenantConfig env (To rq) w = (Rejected e, w) ->
    speech_path env o rq w (Rejected e) w
| path_transfer s ex tenant :
    redis w !! sessionKey (To rq) (CallSid rq) = Some (RString (DSession s) ex) ->
    over_turns env s = false ->
    over_time env (clock o 0) s = false ->
    getTenantConfig env (To rq) w = (Done tenant, w) ->
    wants_human tenant (Js.toLowerCase (Js.or_else (SpeechResult rq) "")) = true ->
    speech_path env o rq w
      (Done (twiml [Play hold_text; Dial (Js.show (humanAgent tenant))]))
      (with_redis
         <[sessionKey (To rq) (CallSid rq) :=
             RString (DSession (set_resolvedBy "HUMAN"
                        (push {| role := user; content := Js.or_else (SpeechResult rq) "" |} s)))
                     (Some 3600)]> w)
| path_intent_fails s ex tenant e w1 :
    redis w !! sessionKey (To rq) (CallSid rq) = Some (RString (DSession s) ex) ->
    over_turns env s = false ->
    over_time env (clock o 0) s = false ->
    getTenantConfig env (To rq) w = (Done tenant, w) ->
    wants_human tenant (Js.toLowerCase (Js.or_else (SpeechResult rq) "")) = false ->
    detect_intent o (Js.or_else (SpeechResult rq) "")
      (push {| role := user; content := Js.or_else (SpeechResult rq) "" |} s) w =
      (Rejected e, w1) ->
    speech_path env o rq w (Rejected e) w1
| path_reply_fails s ex tenant s1 w1 :
    redis w !! sessionKey (To rq) (CallSid rq) = Some (RString (DSession s) ex) ->
    over_turns env s = false ->
    over_time env (clock o 0) s = false ->
    getTenantConfig env (To rq) w = (Done tenant, w) ->
    wants_human tenant (Js.toLowerCase (Js.or_else (SpeechResult rq) "")) = false ->
    detect_intent o (Js.or_else (SpeechResult rq) "")
      (push {| role := user; content := Js.or_else (SpeechResult rq) "" |} s) w =
      (Done s1, w1) ->
    chat_reply o (messages s1) = None ->
    speech_path env o rq w (Rejected ProviderError)
      (log_call (ChatReply (messages s1)) w1)
| path_tts_fails s ex tenant s1 w1 reply :
    redis w !! sessionKey (To rq) (CallSid rq) = Some (RString (DSession s) ex) ->
    over_turns env s = false ->
    over_time env (clock o 0) s = false ->
    getTenantConfig env (To rq) w = (Done tenant, w) ->
    wants_human tenant (Js.toLowerCase (Js.or_else (SpeechResult rq) "")) = false ->
    detect_intent o (Js.or_else (SpeechResult rq) "")
      (push {| role := user; content := Js.or_else (SpeechResult rq) "" |} s) w =
      (Done s1, w1) ->
    chat_reply o (messages s1) = Some reply ->
    tts o reply = None ->
    speech_path env o rq w (Rejected ProviderError)
      (after_reply (sessionKey (To rq) (CallSid rq)) s1 reply w1)
| path_reply s ex tenant s1 w1 reply fetched :
    redis w !! sessionKey (To rq) (CallSid rq) = Some (RString (DSession s) ex) ->
    over_turns env s = false ->
    over_time env (clock o 0) s = false ->
    getTenantConfig env (To rq) w = (Done tenant, w) ->
    wants_human tenant (Js.toLowerCase (Js.or_else (SpeechResult rq) "")) = false ->
    detect_intent o (Js.or_else (SpeechResult rq) "")
      (push {| role := user; content := Js.or_else (SpeechResult rq) "" |} s) w =
      (Done s1, w1) ->
    chat_reply o (messages s1) = Some reply ->
    tts o reply = Some fetched ->
    fs_accepts o (reply_file o rq) = true ->
    speech_path env o rq w (Done (play_then_gather rq (reply_file o rq)))
      (with_audio <[reply_file o rq := body fetched]>
         (after_reply (sessionKey (To rq) (CallSid rq)) s1 reply w1))
| path_write_fails s ex tenant s1 w1 reply fetched :
    redis w !! sessionKey (To rq) (CallSid rq) = Some (RString (DSession s) ex) ->
    over_turns env s = false ->
    over_time env (clock o 0) s = false ->
    getTenantConfig env (To rq) w = (Done tenant, w) ->
    wants_human tenant (Js.toLowerCase (Js.or_else (SpeechResult rq) "")) = false ->
    detect_intent o (Js.or_else (SpeechResult rq) "")
      (push {| role := user; content := Js.or_else (SpeechResult rq) "" |} s) w =
      (Done s1, w1) ->
    chat_reply o (messages s1) = Some reply ->
    tts o reply = Some fetched ->
    fs_accepts o (reply_file o rq) = false ->
    speech_path env o rq w (Rejected FsError)
      (after_reply (sessionKey (To rq) (CallSid rq)) s1 reply w1).

(** ** Concrete calls, used to exercise the handlers *)

Module Scenario.

(** A file system in which the audio directory exists, as the program
    makes it when it starts, and has no subdirectory: it takes exactly the
    files written directly into ./audio. *)
Fixpoint after_prefix (k s : string) : option string :=
  match k with
  | EmptyString => Some s
  | String a k' =>
      match s with
      | String b s' => if ascii_dec a b then after_prefix k' s' else None
      | EmptyString => None
      end
  end.

Definition disk (p : string) : bool :=
  match after_prefix (AUDIO_DIR +:+ "/") p with
  | Some name => negb (Js.includes name "/")
  | None => false
  end.

Definition env : ProcessEnv :=
  {| MAX_CALL_TURNS := None;
     MAX_CALL_DURATION_SEC := None;
     HUMAN_AGENT_NUMBER := Some "+15550100" |}.

Definition empty : World := {| redis := ∅; audio := ∅; calls := [] |}.

(** 2026-11-02T00:00:00.000Z *)
Definition t0 : Z := 1793577600000.

Definition request (speech : option string) : Request :=
  {| CallSid := Some "CA1";
     To := Some "+15550001";
     From := Some "+15559999";
     SpeechResult := speech;
     protocol := "https";
     host := Some "callflow.example" |}.

(** Providers that answer, with the clock at [t]. *)
Definition outside (t : Z) (label : string) : Oracle :=
  {| clock := fun i => t + Z.of_nat i;
     chat_intent := fun _ => Some label;
     chat_reply := fun _ => Some "We open at 10 AM.";
     tts := fun text => Some {| ok := true; body := "mp3 of: " +:+ text |};
     fs_accepts := disk |}.

(** The language model is down. *)
Definition llm_down (t : Z) : Oracle :=
  {| clock := fun i => t + Z.of_nat i;
     chat_intent := fun _ => None;
     chat_reply := fun _ => None;
     tts := fun text => Some {| ok := true; body := "mp3 of: " +:+ text |};
     fs_accepts := disk |}.

(** Speech synthesis is down. *)
Definition tts_down (t : Z) : Oracle :=
  {| clock := fun i => t + Z.of_nat i;
     chat_intent := fun _ => Some "info";
     chat_reply := fun _ => Some "We open at 10 AM.";
     tts := fun _ => None;
     fs_accepts := disk |}.

Definition key : string := sessionKey (Some "+15550001") (Some "CA1").

Definition day : string := analyticsKey (Some "+15550001") t0.

(** The call has just been answered. *)
Definition started : World :=
  snd (incoming_call env (outside t0 "info") (request None) empty).

Definition question : Oracle * Request :=
  (outside (t0 + 5000) " info ", request (Some "When do you open?")).

(** Twenty questions have been asked and answered. *)
Definition after_20_pairs : World :=
  snd (run_speech env (repeat question 20) started).

(** The caller has asked for a human. *)
Definition transferred : World :=
  snd (process_speech env (outside (t0 + 5000) "info")
         (request (Some "I want to talk to a human")) started).

(** An initiation event without [CallSid] and [To]. *)
Definition anonymous : Request :=
  {| CallSid := None; To := None; From := Some "+15559999";
     SpeechResult := None; protocol := "https";
     host := Some "callflow.example" |}.

(** A tenant that has switched human transfer off, and its call. *)
Definition no_transfer : Tenant :=
  {| businessName := Some "Night Clinic";
     businessHours := Some "8 PM to 6 AM";
     humanAgent := Some "+15550199";
     aiStyle := Some "calm";
     enableHumanTransfer := false |}.

Definition configured : World :=
  {| redis := {[ tenantKey (Some "+15550001") := RString (DTenant no_transfer None) None ]};
     audio := ∅;
     calls := [] |}.

Definition started_configured : World :=
  snd (incoming_call env (outside t0 "info") (request None) configured).

Definition session_in (w : World) : Session :=
  default (new_session (request None) 0 (default_tenant env))
          (stored_session w key).

End Scenario.

(** ** More concrete calls *)

Module More.

(** A store in which the tenant's daily analytics key holds a string, so
    that a hash command on it fails. *)
Definition blocked : World :=
  with_redis <[Scenario.day := RString (DTenant Scenario.no_transfer None) None]>
    Scenario.started.

(** The call is hung up one minute and a half after it started. *)
Definition hang_up : Oracle := Scenario.outside (Scenario.t0 + 90500) "info".

(** A process started without [HUMAN_AGENT_NUMBER]. *)
Definition bare_env : ProcessEnv :=
  {| MAX_CALL_TURNS := None; MAX_CALL_DURATION_SEC := None; HUMAN_AGENT_NUMBER := None |}.

(** Speech recognition returned nothing. *)
Definition silence : Request :=
  {| CallSid := Some "CA1"; To := Some "+15550001"; From := Some "+15559999";
     SpeechResult := Some ""; protocol := "https"; host := Some "callflow.example" |}.

(** The speech endpoint answers with an error status and an error body. *)
Definition tts_refuses (t : Z) : Oracle :=
  {| clock := fun i => t + Z.of_nat i;
     chat_intent := fun _ => Some "info";
     chat_reply := fun _ => Some "We open at 10 AM.";
     tts := fun _ => Some {| ok := false; body := "429 quota exceeded" |};
     fs_accepts := Scenario.disk |}.

(** The disk takes no file. *)
Definition disk_full (t : Z) : Oracle :=
  {| clock := fun i => t + Z.of_nat i;
     chat_intent := fun _ => Some "info";
     chat_reply := fun _ => Some "We open at 10 AM.";
     tts := fun text => Some {| ok := true; body := "mp3 of: " +:+ text |};
     fs_accepts := fun _ => false |}.

(** One question has been asked and answered: the intent is set. *)
Definition asked : World :=
  snd (run_speech Scenario.env [Scenario.question] Scenario.started).

(** A call whose identifier has a slash, and no tenant identifier. *)
Definition room7 : Request :=
  {| CallSid := Some "room/7"; To := None; From := Some "+15559999";
     SpeechResult := None; protocol := "https"; host := Some "callflow.example" |}.

End More.

(** ** Basic facts *)

Example toISOString_epoch : Js.toISOString 0 = "1970-01-01T00:00:00.000Z".
Proof. reflexivity. Qed.

Example toISOString_2026 :
  Js.toISOString 1793577599999 = "2026-11-01T23:59:59.999Z".
Proof. vm_compute. reflexivity. Qed.

Example toISOString_leap :
  Js.toISOString 1709210096789 = "2024-02-29T12:34:56.789Z".
Proof. vm_compute. reflexivity. Qed.

Example basename_audio : Js.basename "./audio/CA1-welcome.mp3" = "CA1-welcome.mp3".
Proof. reflexivity. Qed.

Example trim_example : Js.trim (" sales" +:+ String (ascii_of_nat 10) " ") = "sales".
Proof. reflexivity. Qed.

Example includes_example :
  Js.includes (Js.toLowerCase "Talk to a HUMAN please") "human" = true.
Proof. reflexivity. Qed.

Lemma append_cancel_l (a x y : string) : a +:+ x = a +:+ y -> x = y.
Proof.
  induction a as [|c a IH]; cbn; [done|].
  intros H; injection H as H; auto.
Qed.

Ltac key_neq :=
  let H := fresh in
  unfold sessionKey, logKey, analyticsKey, tenantKey; intros H;
  repeat (apply append_cancel_l in H); cbn in H; discriminate H.

Lemma sessionKey_logKey tid sid : sessionKey tid sid <> logKey tid sid.
Proof. key_neq. Qed.

Lemma analyticsKey_sessionKey tid sid t : analyticsKey tid t <> sessionKey tid sid.
Proof. key_neq. Qed.

Lemma analyticsKey_logKey tid sid t : analyticsKey tid t <> logKey tid sid.
Proof. key_neq. Qed.

Lemma sessionKey_undefined :
  sessionKey None None = "tenant:undefined:call:session:undefined".
Proof. reflexivity. Qed.

Lemma gt_half (n : nat) (m : Z) :
  Js.gt (Z.of_nat n # 2) (inject_Z m) = true <-> 2 * m < Z.of_nat n.
Proof.
  unfold Js.gt, Qcompare, inject_Z; cbn [Qnum Qden].
  destruct (Z.compare_spec (Z.of_nat n * 1) (m * 2)); split; (done || lia).
Qed.

Lemma gt_millis (d m : Z) :
  Js.gt (d # 1000) (inject_Z m) = true <-> 1000 * m < d.
Proof.
  unfold Js.gt, Qcompare, inject_Z; cbn [Qnum Qden].
  destruct (Z.compare_spec (d * 1) (m * 1000)); split; (done || lia).
Qed.

Lemma length_is_pairs n l : is_pairs n l = true -> length l = (2 * n)%nat.
Proof.
  revert l; induction n as [|n IH]; intros [|[[] ?] [|[[] ?] l]]; cbn; try done.
  intros H. rewrite (IH _ H). lia.
Qed.

Lemma length_pairs_recorded n s :
  pairs_recorded n s = true -> length (messages s) = S (2 * n).
Proof.
  unfold pairs_recorded. destruct (messages s) as [|[[] ?] l]; try done.
  intros H. cbn. by rewrite (length_is_pairs _ _ H).
Qed.

Lemma redis_get_string w k d ex :
  redis w !! k = Some (RString d ex) -> redis_get k w = (Done (Some d), w).
Proof. unfold redis_get; intros ->; done. Qed.

Lemma redis_get_absent w k :
  redis w !! k = None -> redis_get k w = (Done None, w).
Proof. unfold redis_get; intros ->; done. Qed.

Section Budgets.

Variable env : ProcessEnv.

Lemma over_turns_iff s :
  over_turns env s = true <->
  2 * number_or (MAX_CALL_TURNS env) 20 < Z.of_nat (length (messages s)).
Proof. apply gt_half. Qed.

Lemma over_time_iff now s :
  over_time env now s = true <->
  1000 * number_or (MAX_CALL_DURATION_SEC env) 900 < now - startTime s.
Proof. apply gt_millis. Qed.

Lemma over_turns_set_resolvedBy r s :
  over_turns env (set_resolvedBy r s) = over_turns env s.
Proof. done. Qed.

Lemma over_time_set_resolvedBy r now s :
  over_time env now (set_resolvedBy r s) = over_time env now s.
Proof. done. Qed.

(** The three early exits of [process_speech], as equations. *)

Lemma speech_absent o rq w :
  redis w !! sessionKey (To rq) (CallSid rq) = None ->
  process_speech env o rq w = (Done (sendStatus 200), w).
Proof.
  intros H. unfold process_speech, bind. by rewrite (redis_get_absent _ _ H).
Qed.

Lemma speech_limit o rq w s ex :
  redis w !! sessionKey (To rq) (CallSid rq) = Some (RString (DSession s) ex) ->
  over_turns env s = true ->
  process_speech env o rq w =
    (Done (twiml [Say max_length_text]),
     with_redis <[sessionKey (To rq) (CallSid rq) :=
                    RString (DSession (set_resolvedBy "LIMIT" s)) (Some 3600)]> w).
Proof.
  intros H Ht. unfold process_speech, bind.
  rewrite (redis_get_string _ _ _ _ H), Ht. done.
Qed.

Lemma speech_time_limit o rq w s ex :
  redis w !! sessionKey (To rq) (CallSid rq) = Some (RString (DSession s) ex) ->
  over_turns env s = false ->
  over_time env (clock o 0) s = true ->
  process_speech env o rq w =
    (Done (twiml [Say timed_out_text]),
     with_redis <[sessionKey (To rq) (CallSid rq) :=
                    RString (DSession (set_resolvedBy "TIME_LIMIT" s)) (Some 3600)]> w).
Proof.
  intros H Ht Hd. unfold process_speech, bind.
  rewrite (redis_get_string _ _ _ _ H), Ht, Hd. done.
Qed.

End Budgets.

(** ** One speech event that passes both budget checks *)

Section Detect.

Variables (o : Oracle) (u : string) (s0 : Session) (w : World).

Lemma detect_intent_known :
  Js.truthy (intent s0) = true -> detect_intent o u s0 w = (Done s0, w).
Proof. unfold detect_intent; intros ->; done. Qed.

Lemma detect_intent_new c :
  Js.truthy (intent s0) = false -> chat_intent o u = Some c ->
  detect_intent o u s0 w =
    (Done (set_intent (Some (Js.trim c)) s0), log_call (ChatIntent u) w).
Proof. unfold detect_intent, bind, call_provider; intros -> ->; done. Qed.

Lemma detect_intent_fails :
  Js.truthy (intent s0) = false -> chat_intent o u = None ->
  detect_intent o u s0 w = (Rejected ProviderError, log_call (ChatIntent u) w).
Proof. unfold detect_intent, bind, call_provider; intros -> ->; done. Qed.

(** Whatever the classifier answers, [detect_intent] touches neither the
    store nor the history, logs at most the one classifier call, and
    keeps an intent that is already truthy. *)
Lemma detect_intent_frame r w1 :
  detect_intent o u s0 w = (r, w1) ->
  redis w1 = redis w /\ audio w1 = audio w /\
  (w1 = w \/ (Js.truthy (intent s0) = false /\ w1 = log_call (ChatIntent u) w)) /\
  (forall s1, r = Done s1 ->
     messages s1 = messages s0 /\ startTime s1 = startTime s0 /\
     resolvedBy s1 = resolvedBy s0 /\
     (Js.truthy (intent s0) = true -> s1 = s0 /\ w1 = w) /\
     (intent s1 = intent s0 \/
      exists c, chat_intent o u = Some c /\ intent s1 = Some (Js.trim c))) /\
  (forall e, r = Rejected e -> e = ProviderError /\ chat_intent o u = None).
Proof.
  unfold detect_intent, bind, call_provider.
  destruct (Js.truthy (intent s0)) eqn:Ht;
    [|destruct (chat_intent o u) as [c|]]; intros [= <- <-];
    (split; [done|]); (split; [done|]); (split; [by auto|]);
    (split; [|by intros ? [= <-]]).
  - intros s1 [= <-]. repeat split; auto.
  - intros s1 [= <-]. do 3 (split; [done|]). split; [done|]. right. by exists c.
  - done.
Qed.

End Detect.

Section Turn.

Variables (env : ProcessEnv) (o : Oracle) (rq : Request) (w : World).
Variables (s : Session) (ex : option Z) (tenant : Tenant).

Local Abbreviation key := (sessionKey (To rq) (CallSid rq)).
Local Abbreviation utter := (Js.or_else (SpeechResult rq) "").
Local Abbreviation heard := (push {| role := user; content := utter |} s).

Hypothesis stored : redis w !! key = Some (RString (DSession s) ex).
Hypothesis turns_ok : over_turns env s = false.
Hypothesis time_ok : over_time env (clock o 0) s = false.
Hypothesis config : getTenantConfig env (To rq) w = (Done tenant, w).

Local Ltac past_checks :=
unfold process_speech, bind; cbv zeta;
rewrite (redis_get_string _ _ _ _ stored), turns_ok, time_ok, config.

Lemma speech_transfer :
wants_human tenant (Js.toLowerCase utter) = true ->
process_speech env o rq w =
  (Done (twiml [Play hold_text; Dial (Js.show (humanAgent tenant))]),
   with_redis <[key := RString (DSession (set_resolvedBy "HUMAN" heard)) (Some 3600)]> w).
Proof.
intros Hh. past_checks. rewrite Hh. done.
Qed.

Lemma speech_intent_fails e w1 :
wants_human tenant (Js.toLowerCase utter) = false ->
detect_intent o utter heard w = (Rejected e, w1) ->
process_speech env o rq w = (Rejected e, w1).
Proof.
intros Hh Hd. past_checks. rewrite Hh, Hd. done.
Qed.

Lemma speech_reply_fails s1 w1 :
wants_human tenant (Js.toLowerCase utter) = false ->
detect_intent o utter heard w = (Done s1, w1) ->
chat_reply o (messages s1) = None ->
process_speech env o rq w =
  (Rejected ProviderError, log_call (ChatReply (messages s1)) w1).
Proof.
intros Hh Hd Hr. past_checks. rewrite Hh, Hd.
unfold call_provider. rewrite Hr. done.
Qed.

Lemma speech_tts_fails s1 w1 reply :
wants_human tenant (Js.toLowerCase utter) = false ->
detect_intent o utter heard w = (Done s1, w1) ->
chat_reply o (messages s1) = Some reply ->
tts o reply = None ->
process_speech env o rq w = (Rejected ProviderError, after_reply key s1 reply w1).
Proof.
intros Hh Hd Hr Ht. past_checks. rewrite Hh, Hd.
unfold call_provider at 1. rewrite Hr.
unfold redis_set, generateSpeech, bind, call_provider. rewrite Ht. done.
Qed.

Lemma speech_reply_ok s1 w1 reply fetched :
wants_human tenant (Js.toLowerCase utter) = false ->
detect_intent o utter heard w = (Done s1, w1) ->
chat_reply o (messages s1) = Some reply ->
tts o reply = Some fetched ->
fs_accepts o (reply_file o rq) = true ->
process_speech env o rq w =
  (Done (play_then_gather rq (reply_file o rq)),
   with_audio <[reply_file o rq := body fetched]> (after_reply key s1 reply w1)).
Proof.
intros Hh Hd Hr Ht Hfs. past_checks. rewrite Hh, Hd.
unfold call_provider at 1. rewrite Hr.
unfold redis_set, generateSpeech, bind, call_provider, writeFileSync. rewrite Ht.
cbv zeta. fold (reply_file o rq). rewrite Hfs. done.
Qed.

Lemma speech_write_fails s1 w1 reply fetched :
wants_human tenant (Js.toLowerCase utter) = false ->
detect_intent o utter heard w = (Done s1, w1) ->
chat_reply o (messages s1) = Some reply ->
tts o reply = Some fetched ->
fs_accepts o (reply_file o rq) = false ->
process_speech env o rq w = (Rejected FsError, after_reply key s1 reply w1).
Proof.
intros Hh Hd Hr Ht Hfs. past_checks. rewrite Hh, Hd.
unfold call_provider at 1. rewrite Hr.
unfold redis_set, generateSpeech, bind, call_provider, writeFileSync. rewrite Ht.
cbv zeta. fold (reply_file o rq). rewrite Hfs. done.
Qed.

End Turn.

(** ** What a speech event can do to the store and to the call log *)

Lemma getTenantConfig_frame env tid w r w' :
  getTenantConfig env tid w = (r, w') -> w' = w.
Proof.
  unfold getTenantConfig, bind, redis_get.
  destruct (redis w !! tenantKey tid) as [[d ex|h]|]; by intros [= <- <-].
Qed.

Lemma speech_not_a_session env o rq w t a ex :
  redis w !! sessionKey (To rq) (CallSid rq) = Some (RString (DTenant t a) ex) ->
  process_speech env o rq w = (Rejected TypeError, w).
Proof.
  intros H. unfold process_speech, bind. by rewrite (redis_get_string _ _ _ _ H).
Qed.

Lemma speech_wrongtype env o rq w h :
  redis w !! sessionKey (To rq) (CallSid rq) = Some (RHash h) ->
  process_speech env o rq w = (Rejected WRONGTYPE, w).
Proof.
  intros H. unfold process_speech, bind, redis_get. by rewrite H.
Qed.

Lemma speech_config_fails env o rq w s ex e w0 :
  redis w !! sessionKey (To rq) (CallSid rq) = Some (RString (DSession s) ex) ->
  over_turns env s = false ->
  over_time env (clock o 0) s = false ->
  getTenantConfig env (To rq) w = (Rejected e, w0) ->
  process_speech env o rq w = (Rejected e, w).
Proof.
  intros H Ht Hd Hc. unfold process_speech, bind.
  rewrite (redis_get_string _ _ _ _ H), Ht, Hd, Hc.
  by rewrite (getTenantConfig_frame _ _ _ _ _ Hc).
Qed.

Lemma extends_refl s : extends s s.
Proof. repeat split. by exists []; rewrite app_nil_r. Qed.

Lemma extends_set_resolvedBy r s s' : extends s s' -> extends s (set_resolvedBy r s').
Proof. done. Qed.

Lemma extends_push m s s' : extends s s' -> extends s (push m s').
Proof.
  intros (Hs & Hi & l & Hl). repeat split; [done..|].
  exists (l ++ [m])%list. cbn. by rewrite Hl, app_assoc.
Qed.

Local Ltac exit_by H :=
  rewrite H; unfold after_reply; cbn [fst snd calls redis with_redis log_call with_audio].

Lemma speech_frame env o rq w :
  let r := fst (process_speech env o rq w) in
  let w' := snd (process_speech env o rq w) in
  let key := sessionKey (To rq) (CallSid rq) in
  (redis w' = redis w \/
   exists s ex s',
     redis w !! key = Some (RString (DSession s) ex) /\
     redis w' = <[key := RString (DSession s') (Some 3600)]> (redis w) /\
     extends s s' /\
     (terminal r = false -> resolvedBy s' = resolvedBy s) /\
     (intent s' = intent s \/
      exists c, chat_intent o (Js.or_else (SpeechResult rq) "") = Some c /\
                intent s' = Some (Js.trim c))) /\
  exists l,
    calls w' = (calls w ++ l)%list /\
    (existsb is_chat_intent l = true ->
     exists s ex,
       redis w !! key = Some (RString (DSession s) ex) /\
       Js.truthy (intent s) = false).
Proof.
  cbv zeta. set (key := sessionKey _ _).
  assert (Hnil : forall w0 : World, calls w0 = (calls w0 ++ [])%list)
    by (intros; by rewrite app_nil_r).
  destruct (redis w !! key) as [[[s|t a] ex|h]|] eqn:Hk.
  2: { exit_by (speech_not_a_session env o rq w _ _ _ Hk). split; [by left|].
       exists []; split; [apply Hnil|done]. }
  2: { exit_by (speech_wrongtype env o rq w _ Hk). split; [by left|].
       exists []; split; [apply Hnil|done]. }
  2: { exit_by (speech_absent env o rq w Hk). split; [by left|].
       exists []; split; [apply Hnil|done]. }
  destruct (over_turns env s) eqn:Ht.
  { exit_by (speech_limit env o rq w _ _ Hk Ht). split.
    - right. exists s, ex, (set_resolvedBy "LIMIT" s).
      split; [done|split; [done|split; [|split; [done|by left]]]].
      apply extends_set_resolvedBy, extends_refl.
    - exists []; split; [apply Hnil|done]. }
  destruct (over_time env (clock o 0) s) eqn:Hd.
  { exit_by (speech_time_limit env o rq w _ _ Hk Ht Hd). split.
    - right. exists s, ex, (set_resolvedBy "TIME_LIMIT" s).
      split; [done|split; [done|split; [|split; [done|by left]]]].
      apply extends_set_resolvedBy, extends_refl.
    - exists []; split; [apply Hnil|done]. }
  destruct (getTenantConfig env (To rq) w) as [[tenant|e] w0] eqn:Hc.
  2: { exit_by (speech_config_fails env o rq w _ _ _ _ Hk Ht Hd Hc). split; [by left|].
       exists []; split; [apply Hnil|done]. }
  pose proof (getTenantConfig_frame _ _ _ _ _ Hc) as ->.
  set (utter := Js.or_else (SpeechResult rq) "").
  set (heard := push {| role := user; content := utter |} s).
  assert (Hheard : extends s heard) by apply extends_push, extends_refl.
  destruct (wants_human tenant (Js.toLowerCase utter)) eqn:Hh.
  { exit_by (speech_transfer env o rq w _ _ _ Hk Ht Hd Hc Hh). split.
    - right. exists s, ex, (set_resolvedBy "HUMAN" heard).
      split; [done|split; [done|split; [done|split; [done|by left]]]].
    - exists []; split; [apply Hnil|done]. }
  destruct (detect_intent o utter heard w) as [[s1|e] w1] eqn:Hi.
  2: { exit_by (speech_intent_fails env o rq w _ _ _ Hk Ht Hd Hc _ _ Hh Hi).
       destruct (detect_intent_frame _ _ _ _ _ _ Hi) as (Hr & _ & [->|[Hf ->]] & _).
       - split; [by left|]. exists []; split; [apply Hnil|done].
       - split; [by left|]. exists [ChatIntent utter]. split; [done|].
         intros _. by exists s, ex. }
  destruct (detect_intent_frame _ _ _ _ _ _ Hi) as (Hr & _ & Hw & Hs1 & _).
  destruct (Hs1 _ eq_refl) as (Hm & Hst & Hres & Hsame & Hint).
  assert (Hext : forall reply,
             extends s (push {| role := assistant; content := reply |} s1)).
  { intros reply. apply extends_push. destruct Hheard as (? & Hin & l & Hl).
    repeat split.
    - congruence.
    - intros Htr. destruct (Hsame Htr) as [-> _]. auto.
    - exists l. congruence. }
  assert (Hcalls : exists l0, calls w1 = (calls w ++ l0)%list /\
            (existsb is_chat_intent l0 = true -> Js.truthy (intent s) = false)).
  { destruct Hw as [->|[Hf ->]].
    - exists []; split; [apply Hnil|done].
    - by exists [ChatIntent utter]. }
  destruct Hcalls as (l0 & Hl0 & Hl0').
  destruct (chat_reply o (messages s1)) as [reply|] eqn:Hrep.
  2: { exit_by (speech_reply_fails env o rq w _ _ _ Hk Ht Hd Hc _ _ Hh Hi Hrep).
       split; [by left|]. exists (l0 ++ [ChatReply (messages s1)])%list.
       rewrite Hl0, app_assoc. split; [done|].
       rewrite existsb_app, orb_false_r. intros H. exists s, ex. auto. }
  destruct (tts o reply) as [buffer|] eqn:Htts.
  2: { exit_by (speech_tts_fails env o rq w _ _ _ Hk Ht Hd Hc _ _ _ Hh Hi Hrep Htts).
       split.
       - right. exists s, ex, (push {| role := assistant; content := reply |} s1).
         rewrite Hr.
         split; [done|split; [done|split; [apply Hext|split; [|exact Hint]]]].
         intros _. cbn. by rewrite Hres.
       - exists (l0 ++ [ChatReply (messages s1); Speech reply])%list.
         rewrite Hl0, <- !app_assoc. split; [done|].
         rewrite existsb_app, orb_false_r. intros H. exists s, ex. auto. }
  destruct (fs_accepts o (reply_file o rq)) eqn:Hfs.
  2: { exit_by (speech_write_fails env o rq w _ _ _ Hk Ht Hd Hc _ _ _ _ Hh Hi Hrep Htts Hfs).
       split.
       - right. exists s, ex, (push {| role := assistant; content := reply |} s1).
         rewrite Hr.
         split; [done|split; [done|split; [apply Hext|split; [|exact Hint]]]].
         intros _. cbn. by rewrite Hres.
       - exists (l0 ++ [ChatReply (messages s1); Speech reply])%list.
         rewrite Hl0, <- !app_assoc. split; [done|].
         rewrite existsb_app, orb_false_r. intros H. exists s, ex. auto. }
  exit_by (speech_reply_ok env o rq w _ _ _ Hk Ht Hd Hc _ _ _ _ Hh Hi Hrep Htts Hfs).
  split.
  - right. exists s, ex, (push {| role := assistant; content := reply |} s1).
    rewrite Hr.
         split; [done|split; [done|split; [apply Hext|split; [|exact Hint]]]].
         intros _. cbn. by rewrite Hres.
  - exists (l0 ++ [ChatReply (messages s1); Speech reply])%list.
    rewrite Hl0, <- !app_assoc. split; [done|].
    rewrite existsb_app, orb_false_r. intros H. exists s, ex. auto.
Qed.

(** A speech event that passes the budget and transfer checks, with the
    classifier and the reply generation answering: the session is written
    back with the user turn and the assistant turn, whatever speech
    synthesis does afterwards. *)
Lemma speech_answered env o rq w s ex tenant reply :
  redis w !! sessionKey (To rq) (CallSid rq) = Some (RString (DSession s) ex) ->
  over_turns env s = false ->
  over_time env (clock o 0) s = false ->
  getTenantConfig env (To rq) w = (Done tenant, w) ->
  wants_human tenant (Js.toLowerCase (Js.or_else (SpeechResult rq) "")) = false ->
  Js.truthy (intent s) = true \/ chat_intent o (Js.or_else (SpeechResult rq) "") <> None ->
  chat_reply o (messages s ++
                [ {| role := user; content := Js.or_else (SpeechResult rq) "" |} ])%list =
    Some reply ->
  exists s1 w1 l,
    detect_intent o (Js.or_else (SpeechResult rq) "")
      (push {| role := user; content := Js.or_else (SpeechResult rq) "" |} s) w =
      (Done s1, w1) /\
    redis (snd (process_speech env o rq w)) =
      <[sessionKey (To rq) (CallSid rq) :=
          RString (DSession (push {| role := assistant; content := reply |} s1))
                  (Some 3600)]> (redis w) /\
    calls (snd (process_speech env o rq w)) = (calls w1 ++ l)%list /\
    terminal (fst (process_speech env o rq w)) = false.
Proof.
  intros Hk Ht Hd Hc Hh Hcls Hrep.
  destruct (detect_intent o (Js.or_else (SpeechResult rq) "")
              (push {| role := user; content := Js.or_else (SpeechResult rq) "" |} s) w)
    as [[s1|e] w1] eqn:Hi.
  2: { exfalso. destruct (detect_intent_frame _ _ _ _ _ _ Hi) as (_ & _ & _ & _ & He).
       destruct (He _ eq_refl) as [_ Hnone].
       destruct Hcls as [Htr|Hsome]; [|done].
       revert Hi. unfold detect_intent. cbn [intent push]. by rewrite Htr. }
  destruct (detect_intent_frame _ _ _ _ _ _ Hi) as (Hr & _ & _ & Hs1 & _).
  destruct (Hs1 _ eq_refl) as (Hm & _).
  cbn [messages push] in Hm. rewrite <- Hm in Hrep.
  exists s1, w1, [ChatReply (messages s1); Speech reply]. split; [done|].
  destruct (tts o reply) as [fetched|] eqn:Htts;
    [destruct (fs_accepts o (reply_file o rq)) eqn:Hfs|].
  - rewrite (speech_reply_ok env o rq w s ex tenant Hk Ht Hd Hc _ _ _ _ Hh Hi Hrep Htts Hfs).
    cbn. rewrite Hr, <- app_assoc. done.
  - rewrite (speech_write_fails env o rq w s ex tenant Hk Ht Hd Hc _ _ _ _ Hh Hi Hrep Htts Hfs).
    cbn. rewrite Hr, <- app_assoc. done.
  - rewrite (speech_tts_fails env o rq w s ex tenant Hk Ht Hd Hc _ _ _ Hh Hi Hrep Htts).
    cbn. rewrite Hr, <- app_assoc. done.
Qed.

Lemma if_true (b : bool) (P Q : Prop) : b = true -> (if b then P else Q) -> P.
Proof. by intros ->. Qed.

Lemma if_false (b : bool) (P Q : Prop) : b = false -> (if b then P else Q) -> Q.
Proof. by intros ->. Qed.

(** ** Counters *)

Lemma redis_hincrby_ok k f n w :
  holds_string w k = false ->
  redis_hincrby k f n w = (Done tt, with_redis (bump k f n) w).
Proof.
  unfold holds_string, redis_hincrby, bump, with_redis.
  destruct (redis w !! k) as [[d ex|h]|]; intros H;
    first [discriminate H | reflexivity].
Qed.

Lemma counter_bump k f n w k' f' :
  counter (with_redis (bump k f n) w) k' f' =
  counter w k' f' +
  (if bool_decide (k' = k /\ f' = f) then n else 0).
Proof.
  unfold counter, bump, hincr; cbn [redis with_redis].
  destruct (decide (k' = k)) as [->|Hk].
  - rewrite lookup_insert_eq.
    destruct (decide (f' = f)) as [->|Hf].
    + rewrite lookup_insert_eq, bool_decide_eq_true_2 by done.
      destruct (redis w !! k) as [[d ex|h]|]; cbn; rewrite ?lookup_empty; cbn; lia.
    + rewrite lookup_insert_ne by congruence.
      rewrite bool_decide_eq_false_2 by (intros [_ ?]; congruence).
      destruct (redis w !! k) as [[d ex|h]|]; cbn; rewrite ?lookup_empty; cbn; lia.
  - rewrite lookup_insert_ne by congruence.
    rewrite bool_decide_eq_false_2 by (intros [? _]; congruence). lia.
Qed.

Lemma holds_string_insert_ne k k' v w :
  k' <> k -> holds_string (with_redis <[k := v]> w) k' = holds_string w k'.
Proof. intros H. unfold holds_string; cbn. by rewrite lookup_insert_ne. Qed.

Lemma holds_string_bump k f n w k' :
  holds_string w k' = false -> holds_string (with_redis (bump k f n) w) k' = false.
Proof.
  intros H. unfold holds_string, bump in *; cbn.
  destruct (decide (k = k')) as [->|Hk].
  - by rewrite lookup_insert_eq.
  - by rewrite lookup_insert_ne.
Qed.

Lemma counter_insert_string k d ex w k' f :
  counter (with_redis <[k := RString d ex]> w) k' f =
  if bool_decide (k' = k) then 0 else counter w k' f.
Proof.
  unfold counter; cbn. case_bool_decide as Hk.
  - subst. by rewrite lookup_insert_eq.
  - by rewrite lookup_insert_ne.
Qed.

Lemma counter_delete_string k d ex w k' f :
  redis w !! k = Some (RString d ex) ->
  counter (with_redis (delete k) w) k' f = counter w k' f.
Proof.
  intros H. unfold counter; cbn.
  destruct (decide (k = k')) as [<-|Hk].
  - by rewrite lookup_delete_eq, H.
  - by rewrite lookup_delete_ne.
Qed.

(** ** Finalization *)

Lemma ended_absent o rq w :
  redis w !! sessionKey (To rq) (CallSid rq) = None ->
  call_ended o rq w = (Done (sendStatus 200), w).
Proof.
  intros H. unfold call_ended, bind. by rewrite (redis_get_absent _ _ H).
Qed.

Section Finalize.

Variables (o : Oracle) (rq : Request) (w : World) (s : Session) (ex : option Z).

Local Abbreviation sk := (sessionKey (To rq) (CallSid rq)).
Local Abbreviation lk := (logKey (To rq) (CallSid rq)).
Local Abbreviation k_total := (analyticsKey (To rq) (clock o 2)).
Local Abbreviation k_outcome := (analyticsKey (To rq) (clock o 3)).
Local Abbreviation f_outcome := ("resolved_" +:+ resolvedBy s).

Hypothesis stored : redis w !! sk = Some (RString (DSession s) ex).
Hypothesis total_ok : holds_string w k_total = false.
Hypothesis outcome_ok : holds_string w k_outcome = false.

Lemma ended_session :
call_ended o rq w = (Done (sendStatus 200), finalized o rq s w).
Proof.
unfold call_ended, bind; cbv zeta.
rewrite (redis_get_string _ _ _ _ stored).
unfold redis_set at 1.
rewrite (redis_hincrby_ok k_total).
2: { rewrite holds_string_insert_ne; [done|]. apply analyticsKey_logKey. }
rewrite (redis_hincrby_ok k_outcome).
2: { apply holds_string_bump.
     rewrite holds_string_insert_ne; [done|]. apply analyticsKey_logKey. }
done.
Qed.

Lemma ended_session_gone :
redis (snd (call_ended o rq w)) !! sk = None.
Proof. rewrite ended_session; cbn. apply lookup_delete_eq. Qed.

Lemma ended_logged :
redis (snd (call_ended o rq w)) !! lk = Some (RString (DSession (archived o s)) None).
Proof.
rewrite ended_session; cbn.
rewrite lookup_delete_ne by apply sessionKey_logKey.
unfold bump.
rewrite !lookup_insert_ne by apply analyticsKey_logKey.
apply lookup_insert_eq.
Qed.

(** Every counter after finalization, in terms of its value before. *)
Lemma ended_counters k f :
counter (snd (call_ended o rq w)) k f =
(if bool_decide (k = lk) then 0 else counter w k f) +
(if bool_decide (k = k_total /\ f = "total_calls") then 1 else 0) +
(if bool_decide (k = k_outcome /\ f = f_outcome) then 1 else 0).
Proof.
rewrite ended_session; cbn [snd]. unfold finalized.
rewrite (counter_delete_string sk (DSession s) ex).
2: { unfold bump; cbn.
     rewrite !lookup_insert_ne; [done|..].
     - intros H; symmetry in H; revert H. apply sessionKey_logKey.
     - apply analyticsKey_sessionKey.
     - apply analyticsKey_sessionKey. }
rewrite !counter_bump, counter_insert_string. done.
Qed.

End Finalize.

(** ** Runs of speech events *)

Lemma extends_trans s1 s2 s3 : extends s1 s2 -> extends s2 s3 -> extends s1 s3.
Proof.
  intros (Ht1 & Hi1 & l1 & Hl1) (Ht2 & Hi2 & l2 & Hl2). split; [congruence|]. split.
  - intros H. rewrite Hi2, Hi1; [done..|]. by rewrite Hi1.
  - exists (l1 ++ l2)%list. by rewrite Hl2, Hl1, app_assoc.
Qed.

Lemma speech_keeps_session env o rq w k s ex :
  redis w !! k = Some (RString (DSession s) ex) ->
  exists s' ex',
    redis (snd (process_speech env o rq w)) !! k = Some (RString (DSession s') ex') /\
    extends s s' /\
    (terminal (fst (process_speech env o rq w)) = false -> resolvedBy s' = resolvedBy s).
Proof.
  intros Hk.
  destruct (speech_frame env o rq w) as [[Hsame|(s0 & ex0 & s' & H0 & Hw & He & Hr & _)] _].
  - exists s, ex. rewrite Hsame. split; [done|]. split; [apply extends_refl|done].
  - destruct (decide (k = sessionKey (To rq) (CallSid rq))) as [->|Hne].
    + exists s', (Some 3600). rewrite Hw, lookup_insert_eq.
      rewrite Hk in H0. injection H0 as <- <-. done.
    + exists s, ex. rewrite Hw, lookup_insert_ne by done.
      split; [done|]. split; [apply extends_refl|done].
Qed.

Lemma run_speech_cons env o rq evs w :
  run_speech env ((o, rq) :: evs) w =
  (fst (process_speech env o rq w) ::
     fst (run_speech env evs (snd (process_speech env o rq w))),
   snd (run_speech env evs (snd (process_speech env o rq w)))).
Proof.
  cbn. destruct (process_speech env o rq w) as [r w1]. cbn.
  by destruct (run_speech env evs w1).
Qed.

Lemma run_keeps_session env evs w k s ex :
  redis w !! k = Some (RString (DSession s) ex) ->
  exists s' ex',
    redis (snd (run_speech env evs w)) !! k = Some (RString (DSession s') ex') /\
    extends s s' /\
    (forallb (fun r => negb (terminal r)) (fst (run_speech env evs w)) = true ->
     resolvedBy s' = resolvedBy s).
Proof.
  revert w s ex. induction evs as [|[o rq] evs IH]; intros w s ex Hk.
  - exists s, ex. cbn. split; [done|]. split; [apply extends_refl|done].
  - rewrite run_speech_cons. cbn [fst snd forallb].
    destruct (speech_keeps_session env o rq w k s ex Hk) as (s1 & ex1 & H1 & He1 & Hr1).
    destruct (IH _ _ _ H1) as (s2 & ex2 & H2 & He2 & Hr2).
    exists s2, ex2. split; [done|]. split; [by eapply extends_trans|].
    intros [Ha Hb]%andb_true_iff. rewrite Hr2, Hr1; [done| |done].
    by destruct (terminal _).
Qed.

(** ** Unknown or expired session *)

(** C8: a speech or termination event whose (tenant, call) has no stored
    session is acknowledged with status 200 and leaves the whole world (the
    store with its sessions, logs and counters, the audio directory, the
    provider calls) exactly as it was. *)
Theorem unknown_session_is_noop env o rq w :
  redis w !! sessionKey (To rq) (CallSid rq) = None ->
  process_speech env o rq w = (Done (sendStatus 200), w) /\
  call_ended o rq w = (Done (sendStatus 200), w).
Proof.
  intros H. split; [by apply speech_absent|by apply ended_absent].
Qed.

Lemma unknown_session_is_noop_witness :
  redis Scenario.empty !! sessionKey (To (Scenario.request None))
                                      (CallSid (Scenario.request None)) = None /\
  process_speech Scenario.env (Scenario.outside 0 "info") (Scenario.request None)
    Scenario.empty = (Done (sendStatus 200), Scenario.empty) /\
  call_ended (Scenario.outside 0 "info") (Scenario.request None) Scenario.empty =
    (Done (sendStatus 200), Scenario.empty).
Proof.
  split; [reflexivity|].
  apply (unknown_session_is_noop Scenario.env (Scenario.outside 0 "info")
           (Scenario.request None) Scenario.empty).
  reflexivity.
Defined.

(** ** Turn budget *)

(** C3: with MAX_CALL_TURNS = 20 (set, or left to its default), a speech
    event that finds the system turn and 20 user/assistant pairs recorded is
    answered with the closing "maximum length" line; the session is written
    back with [resolvedBy = "LIMIT"] and its history untouched, and no
    provider is called, whatever the providers would have answered. *)
Theorem turn_budget_enforced env o rq w s ex :
  number_or (MAX_CALL_TURNS env) 20 = 20 ->
  redis w !! sessionKey (To rq) (CallSid rq) = Some (RString (DSession s) ex) ->
  pairs_recorded 20 s = true ->
  exists s',
    process_speech env o rq w =
      (Done (twiml [Say max_length_text]),
       with_redis <[sessionKey (To rq) (CallSid rq) :=
                      RString (DSession s') (Some 3600)]> w) /\
    resolvedBy s' = "LIMIT" /\
    messages s' = messages s /\
    calls (snd (process_speech env o rq w)) = calls w.
Proof.
  intros Hmax Hk Hp. exists (set_resolvedBy "LIMIT" s).
  assert (Ht : over_turns env s = true).
  { apply over_turns_iff. rewrite Hmax, (length_pairs_recorded _ _ Hp). lia. }
  rewrite (speech_limit env o rq w s ex Hk Ht). done.
Qed.

Lemma turn_budget_enforced_witness :
  exists s',
    process_speech Scenario.env (Scenario.llm_down (Scenario.t0 + 200000))
      (Scenario.request (Some "One more question")) Scenario.after_20_pairs =
      (Done (twiml [Say max_length_text]),
       with_redis <[Scenario.key := RString (DSession s') (Some 3600)]>
         Scenario.after_20_pairs) /\
    resolvedBy s' = "LIMIT" /\
    messages s' = messages (Scenario.session_in Scenario.after_20_pairs) /\
    calls (snd (process_speech Scenario.env (Scenario.llm_down (Scenario.t0 + 200000))
                  (Scenario.request (Some "One more question"))
                  Scenario.after_20_pairs)) =
    calls Scenario.after_20_pairs.
Proof.
  apply (turn_budget_enforced Scenario.env (Scenario.llm_down (Scenario.t0 + 200000))
           (Scenario.request (Some "One more question")) Scenario.after_20_pairs
           (Scenario.session_in Scenario.after_20_pairs) (Some 3600)).
  - reflexivity.
  - vm_compute. reflexivity.
  - vm_compute. reflexivity.
Defined.

(** ** Time budget *)

(** C4, as the code has it: with MAX_CALL_DURATION_SEC = 900 (set, or left
    to its default), a speech event that passes the turn-budget check and
    arrives strictly more than 900 seconds after [startTime] is answered
    with the closing "timed out" line; the session is written back with
    [resolvedBy = "TIME_LIMIT"] and its history untouched, and no provider
    is called. *)
Theorem time_budget_enforced env o rq w s ex :
  number_or (MAX_CALL_DURATION_SEC env) 900 = 900 ->
  redis w !! sessionKey (To rq) (CallSid rq) = Some (RString (DSession s) ex) ->
  over_turns env s = false ->
  900 * 1000 < clock o 0 - startTime s ->
  exists s',
    process_speech env o rq w =
      (Done (twiml [Say timed_out_text]),
       with_redis <[sessionKey (To rq) (CallSid rq) :=
                      RString (DSession s') (Some 3600)]> w) /\
    resolvedBy s' = "TIME_LIMIT" /\
    messages s' = messages s /\
    calls (snd (process_speech env o rq w)) = calls w.
Proof.
  intros Hmax Hk Ht Hlate. exists (set_resolvedBy "TIME_LIMIT" s).
  assert (Hd : over_time env (clock o 0) s = true).
  { apply over_time_iff. rewrite Hmax. lia. }
  rewrite (speech_time_limit env o rq w s ex Hk Ht Hd). done.
Qed.

Lemma time_budget_enforced_witness :
  exists s',
    process_speech Scenario.env (Scenario.outside (Scenario.t0 + 901000) "info")
      (Scenario.request (Some "Are you still there?")) Scenario.started =
      (Done (twiml [Say timed_out_text]),
       with_redis <[Scenario.key := RString (DSession s') (Some 3600)]>
         Scenario.started) /\
    resolvedBy s' = "TIME_LIMIT" /\
    messages s' = messages (Scenario.session_in Scenario.started) /\
    calls (snd (process_speech Scenario.env
                  (Scenario.outside (Scenario.t0 + 901000) "info")
                  (Scenario.request (Some "Are you still there?"))
                  Scenario.started)) =
    calls Scenario.started.
Proof.
  apply (time_budget_enforced Scenario.env
           (Scenario.outside (Scenario.t0 + 901000) "info")
           (Scenario.request (Some "Are you still there?")) Scenario.started
           (Scenario.session_in Scenario.started) (Some 3600)).
  - reflexivity.
  - vm_compute. reflexivity.
  - vm_compute. reflexivity.
  - vm_compute. reflexivity.
Defined.

(** C4 as stated fails when the turn budget is exhausted as well: 901
    seconds after the start of a call with 20 recorded pairs, the event is
    answered with the "maximum length" line and [resolvedBy] becomes
    "LIMIT", not "TIME_LIMIT". *)
Lemma time_budget_counterexample :
  let o := Scenario.outside (Scenario.t0 + 901000) "info" in
  let rq := Scenario.request (Some "Are you still there?") in
  let s := Scenario.session_in Scenario.after_20_pairs in
  redis Scenario.after_20_pairs !! Scenario.key = Some (RString (DSession s) (Some 3600)) /\
  900 * 1000 < clock o 0 - startTime s /\
  fst (process_speech Scenario.env o rq Scenario.after_20_pairs) =
    Done (twiml [Say max_length_text]) /\
  resolvedBy (Scenario.session_in
                (snd (process_speech Scenario.env o rq Scenario.after_20_pairs))) =
    "LIMIT" /\
  resolvedBy (Scenario.session_in
                (snd (process_speech Scenario.env o rq Scenario.after_20_pairs))) <>
    "TIME_LIMIT".
Proof. vm_compute. repeat split; congruence. Qed.

(** ** Human transfer *)

(** C5: a speech event that passes both budget checks and whose lowercased
    utterance contains one of "human", "agent", "person", "operator":
    - with the tenant's flag enabled, sets [resolvedBy = "HUMAN"] on the
      session (to which the user turn has been appended), writes it back
      and answers with a dial to the tenant's human agent; no provider is
      called, so neither classification nor reply generation has run;
    - with the flag disabled, never answers with a dial and leaves
      [resolvedBy] as it was. *)
Theorem human_transfer_short_circuits env o rq w s ex tenant :
  redis w !! sessionKey (To rq) (CallSid rq) = Some (RString (DSession s) ex) ->
  over_turns env s = false ->
  over_time env (clock o 0) s = false ->
  getTenantConfig env (To rq) w = (Done tenant, w) ->
  existsb (fun k => Js.includes (Js.toLowerCase (Js.or_else (SpeechResult rq) "")) k)
          ["human"; "agent"; "person"; "operator"] = true ->
  let key := sessionKey (To rq) (CallSid rq) in
  let heard := push {| role := user; content := Js.or_else (SpeechResult rq) "" |} s in
  if enableHumanTransfer tenant then
    process_speech env o rq w =
      (Done (twiml [Play hold_text; Dial (Js.show (humanAgent tenant))]),
       with_redis <[key := RString (DSession (set_resolvedBy "HUMAN" heard)) (Some 3600)]> w)
    /\ resolvedBy (set_resolvedBy "HUMAN" heard) = "HUMAN"
    /\ calls (snd (process_speech env o rq w)) = calls w
  else
    has_dial (fst (process_speech env o rq w)) = false /\
    exists s' ex',
      redis (snd (process_speech env o rq w)) !! key = Some (RString (DSession s') ex') /\
      resolvedBy s' = resolvedBy s.
Proof.
  intros Hk Ht Hd Hc Hkw key heard.
  set (utter := Js.or_else (SpeechResult rq) "") in *.
  destruct (enableHumanTransfer tenant) eqn:Hflag.
  - assert (Hh : wants_human tenant (Js.toLowerCase utter) = true).
    { unfold wants_human. by rewrite Hflag. }
    rewrite (speech_transfer env o rq w s ex tenant Hk Ht Hd Hc Hh). done.
  - assert (Hh : wants_human tenant (Js.toLowerCase utter) = false).
    { unfold wants_human. by rewrite Hflag. }
    destruct (detect_intent o utter heard w) as [[s1|e] w1] eqn:Hi.
    2: { rewrite (speech_intent_fails env o rq w s ex tenant Hk Ht Hd Hc _ _ Hh Hi).
         destruct (detect_intent_frame _ _ _ _ _ _ Hi) as (Hr & _).
         split; [done|]. exists s, ex. cbn. by rewrite Hr. }
    destruct (detect_intent_frame _ _ _ _ _ _ Hi) as (Hr & _ & _ & Hs1 & _).
    destruct (Hs1 _ eq_refl) as (_ & _ & Hres & _ & _).
    destruct (chat_reply o (messages s1)) as [reply|] eqn:Hrep.
    2: { rewrite (speech_reply_fails env o rq w s ex tenant Hk Ht Hd Hc _ _ Hh Hi Hrep).
         split; [done|]. exists s, ex. cbn. by rewrite Hr. }
    destruct (tts o reply) as [buffer|] eqn:Htts;
      [destruct (fs_accepts o (reply_file o rq)) eqn:Hfs|].
    + rewrite (speech_reply_ok env o rq w s ex tenant Hk Ht Hd Hc _ _ _ _ Hh Hi Hrep Htts Hfs).
      split; [done|].
      exists (push {| role := assistant; content := reply |} s1), (Some 3600).
      cbn. by rewrite lookup_insert_eq, Hres.
    + rewrite (speech_write_fails env o rq w s ex tenant Hk Ht Hd Hc _ _ _ _ Hh Hi Hrep Htts Hfs).
      split; [done|].
      exists (push {| role := assistant; content := reply |} s1), (Some 3600).
      cbn. by rewrite lookup_insert_eq, Hres.
    + rewrite (speech_tts_fails env o rq w s ex tenant Hk Ht Hd Hc _ _ _ Hh Hi Hrep Htts).
      split; [done|].
      exists (push {| role := assistant; content := reply |} s1), (Some 3600).
      cbn. by rewrite lookup_insert_eq, Hres.
Qed.

Lemma human_transfer_short_circuits_witness :
  let o := Scenario.outside (Scenario.t0 + 5000) "info" in
  let rq := Scenario.request (Some "Get me an OPERATOR") in
  (process_speech Scenario.env o rq Scenario.started =
     (Done (twiml [Play hold_text; Dial "+15550100"]),
      with_redis
        <[Scenario.key :=
            RString (DSession (set_resolvedBy "HUMAN"
                       (push {| role := user; content := "Get me an OPERATOR" |}
                          (Scenario.session_in Scenario.started)))) (Some 3600)]>
        Scenario.started) /\
   calls (snd (process_speech Scenario.env o rq Scenario.started)) =
   calls Scenario.started) /\
  has_dial (fst (process_speech Scenario.env o rq Scenario.started_configured)) = false.
Proof.
  intros o rq. split.
  - pose proof (human_transfer_short_circuits Scenario.env o rq Scenario.started
                  (Scenario.session_in Scenario.started) (Some 3600)
                  (default_tenant Scenario.env)) as H.
    destruct H as (H1 & _ & H2); [vm_compute; reflexivity ..|].
    split; [exact H1|exact H2].
  - pose proof (human_transfer_short_circuits Scenario.env o rq Scenario.started_configured
                  (Scenario.session_in Scenario.started_configured) (Some 3600)
                  Scenario.no_transfer) as H.
    destruct H as (H1 & _); [vm_compute; reflexivity ..|].
    exact H1.
Defined.

(** ** What [resolvedBy] does and does not close *)

Lemma set_resolvedBy_id s : set_resolvedBy (resolvedBy s) s = s.
Proof. by destruct s. Qed.

Lemma with_redis_insert_id w k v :
  redis w !! k = Some v -> with_redis <[k := v]> w = w.
Proof. destruct w as [m a c]; cbn. intros H. unfold with_redis; cbn. by rewrite insert_id. Qed.

(** A session that a budget has closed answers every later speech event of
    its call with the same closing line, and the world stays as it is. *)
Lemma run_after_limit env k s evs w :
  redis w !! k = Some (RString (DSession s) (Some 3600)) ->
  resolvedBy s = "LIMIT" ->
  over_turns env s = true ->
  Forall (fun ev : Oracle * Request => sessionKey (To ev.2) (CallSid ev.2) = k) evs ->
  run_speech env evs w = (repeat (Done (twiml [Say max_length_text])) (length evs), w).
Proof.
  intros Hk Hres Ht. induction 1 as [|[o rq] evs Hkey _ IH]; [done|].
  cbn in Hkey. subst k. cbn [run_speech].
  rewrite (speech_limit env o rq w s _ Hk Ht), <- Hres, set_resolvedBy_id.
  rewrite (with_redis_insert_id _ _ _ Hk), IH. done.
Qed.

Lemma run_after_time_limit env k s t evs w :
  redis w !! k = Some (RString (DSession s) (Some 3600)) ->
  resolvedBy s = "TIME_LIMIT" ->
  over_turns env s = false ->
  over_time env t s = true ->
  Forall (fun ev : Oracle * Request =>
            sessionKey (To ev.2) (CallSid ev.2) = k /\ t <= clock ev.1 0) evs ->
  run_speech env evs w = (repeat (Done (twiml [Say timed_out_text])) (length evs), w).
Proof.
  intros Hk Hres Ht Hd. induction 1 as [|[o rq] evs [Hkey Hclock] _ IH]; [done|].
  cbn in Hkey, Hclock. subst k. cbn [run_speech].
  assert (Hd' : over_time env (clock o 0) s = true).
  { apply over_time_iff. apply over_time_iff in Hd. lia. }
  rewrite (speech_time_limit env o rq w s _ Hk Ht Hd'), <- Hres, set_resolvedBy_id.
  rewrite (with_redis_insert_id _ _ _ Hk), IH. done.
Qed.

(** C2, as the code has it.  What closes a session to further turns is a
    budget, not the value of [resolvedBy].  For a stored session, whatever
    its [resolvedBy]:
    - a speech event over the turn budget or the time budget gets a closing
      response, sets [resolvedBy] to "LIMIT" or "TIME_LIMIT" and appends no
      turn; every later speech event of that call, served with a clock that
      has not gone back, gets the same closing response and leaves the
      world exactly as it was;
    - a speech event within both budgets, the tenant configuration being
      readable, is served as for an open session: a transfer request dials
      the agent, sets [resolvedBy] to "HUMAN" and appends the user turn;
      any other utterance, when the language model answers, appends the
      user turn and the assistant turn, keeps [resolvedBy] as it was and
      gets no closing response. *)
Theorem only_a_budget_closes env o rq w s ex evs :
  redis w !! sessionKey (To rq) (CallSid rq) = Some (RString (DSession s) ex) ->
  Forall (fun ev : Oracle * Request =>
            sessionKey (To ev.2) (CallSid ev.2) = sessionKey (To rq) (CallSid rq) /\
            clock o 0 <= clock ev.1 0) evs ->
  let key := sessionKey (To rq) (CallSid rq) in
  let utter := Js.or_else (SpeechResult rq) "" in
  let said := {| role := user; content := utter |} in
  let r := fst (process_speech env o rq w) in
  let w1 := snd (process_speech env o rq w) in
  if over_turns env s || over_time env (clock o 0) s then
    terminal r = true /\
    (exists s1,
       redis w1 !! key = Some (RString (DSession s1) (Some 3600)) /\
       (resolvedBy s1 = "LIMIT" \/ resolvedBy s1 = "TIME_LIMIT") /\
       messages s1 = messages s) /\
    run_speech env evs w1 = (repeat r (length evs), w1)
  else
    forall tenant,
      getTenantConfig env (To rq) w = (Done tenant, w) ->
      if wants_human tenant (Js.toLowerCase utter) then
        has_dial r = true /\
        redis w1 !! key =
          Some (RString (DSession (set_resolvedBy "HUMAN" (push said s))) (Some 3600))
      else
        forall reply,
          Js.truthy (intent s) = true \/ chat_intent o utter <> None ->
          chat_reply o (messages s ++ [said])%list = Some reply ->
          terminal r = false /\
          exists s1,
            redis w1 !! key = Some (RString (DSession s1) (Some 3600)) /\
            messages s1 =
              (messages s ++ [said; {| role := assistant; content := reply |}])%list /\
            resolvedBy s1 = resolvedBy s.
Proof.
  intros Hk Hevs key utter said r w1. subst key utter said r w1.
  destruct (over_turns env s) eqn:Ht; [|destruct (over_time env (clock o 0) s) eqn:Hd].
  - rewrite (speech_limit env o rq w s ex Hk Ht). cbn [fst snd orb].
    split; [done|]. split.
    + exists (set_resolvedBy "LIMIT" s). cbn. rewrite lookup_insert_eq. auto.
    + apply (run_after_limit env (sessionKey (To rq) (CallSid rq))
               (set_resolvedBy "LIMIT" s)); [|done|done|].
      * cbn. apply lookup_insert_eq.
      * eapply Forall_impl; [exact Hevs|]. by intros ev [? _].
  - rewrite (speech_time_limit env o rq w s ex Hk Ht Hd). cbn [fst snd orb].
    split; [done|]. split.
    + exists (set_resolvedBy "TIME_LIMIT" s). cbn. rewrite lookup_insert_eq. auto.
    + apply (run_after_time_limit env (sessionKey (To rq) (CallSid rq))
               (set_resolvedBy "TIME_LIMIT" s) (clock o 0));
        [|done|done|done|done].
      cbn. apply lookup_insert_eq.
  - cbn [orb]. intros tenant Hc.
    destruct (wants_human tenant (Js.toLowerCase (Js.or_else (SpeechResult rq) ""))) eqn:Hh.
    + rewrite (speech_transfer env o rq w s ex tenant Hk Ht Hd Hc Hh). cbn [fst snd].
      split; [done|]. cbn. apply lookup_insert_eq.
    + intros reply Hcls Hrep.
      destruct (speech_answered env o rq w s ex tenant reply Hk Ht Hd Hc Hh Hcls Hrep)
        as (s1 & w0 & l & Hi & Hr & _ & Hterm).
      split; [exact Hterm|].
      destruct (detect_intent_frame _ _ _ _ _ _ Hi) as (_ & _ & _ & Hs1 & _).
      destruct (Hs1 _ eq_refl) as (Hm & _ & Hres & _).
      exists (push {| role := assistant; content := reply |} s1).
      rewrite Hr, lookup_insert_eq. split; [done|]. cbn.
      rewrite Hm, Hres. cbn. by rewrite <- app_assoc.
Qed.

Lemma only_a_budget_closes_witness :
  let late := Scenario.outside (Scenario.t0 + 901000) "info" in
  let still := Scenario.request (Some "Are you still there?") in
  let w1 := snd (process_speech Scenario.env late still Scenario.started) in
  let soon := Scenario.outside (Scenario.t0 + 9000) "info" in
  let hello := Scenario.request (Some "Hello?") in
  let w2 := snd (process_speech Scenario.env soon hello Scenario.transferred) in
  (terminal (fst (process_speech Scenario.env late still Scenario.started)) = true /\
   run_speech Scenario.env
     [(Scenario.outside (Scenario.t0 + 905000) "info", Scenario.request (Some "Hello?"));
      (Scenario.outside (Scenario.t0 + 909000) "info", Scenario.request (Some "human"))]
     w1 =
   (repeat (fst (process_speech Scenario.env late still Scenario.started)) 2, w1)) /\
  resolvedBy (Scenario.session_in Scenario.transferred) = "HUMAN" /\
  terminal (fst (process_speech Scenario.env soon hello Scenario.transferred)) = false /\
  exists s1,
    redis w2 !! Scenario.key = Some (RString (DSession s1) (Some 3600)) /\
    messages s1 =
      (messages (Scenario.session_in Scenario.transferred) ++
       [ {| role := user; content := "Hello?" |};
         {| role := assistant; content := "We open at 10 AM." |} ])%list /\
    resolvedBy s1 = "HUMAN".
Proof.
  intros late still w1 soon hello w2. split; [|split; [reflexivity|]].
  - pose proof (only_a_budget_closes Scenario.env late still Scenario.started
                  (Scenario.session_in Scenario.started) (Some 3600)
                  [(Scenario.outside (Scenario.t0 + 905000) "info",
                    Scenario.request (Some "Hello?"));
                   (Scenario.outside (Scenario.t0 + 909000) "info",
                    Scenario.request (Some "human"))]) as H.
    cbv zeta in H. eapply if_true in H.
    + destruct H as (H1 & _ & H2). split; [exact H1|exact H2].
    + vm_compute. reflexivity.
    + vm_compute. reflexivity.
    + repeat constructor; vm_compute; congruence.
  - pose proof (only_a_budget_closes Scenario.env soon hello Scenario.transferred
                  (Scenario.session_in Scenario.transferred) (Some 3600) []) as H.
    cbv zeta in H. eapply if_false in H.
    + specialize (H (default_tenant Scenario.env)).
      eapply if_false in H.
      * apply (H "We open at 10 AM.").
        -- right. vm_compute. congruence.
        -- vm_compute. reflexivity.
      * vm_compute. reflexivity.
      * vm_compute. reflexivity.
    + vm_compute. reflexivity.
    + vm_compute. reflexivity.
    + constructor.
Defined.

(** C2 as stated fails: after a speech event has set [resolvedBy] to
    "HUMAN", the next speech event appends a user turn and an assistant
    turn, and a later one assigns a second terminal value. *)
Lemma closed_session_counterexample :
  let w1 := Scenario.transferred in
  let w2 := snd (process_speech Scenario.env (Scenario.outside (Scenario.t0 + 9000) "info")
                   (Scenario.request (Some "Hello?")) w1) in
  let w3 := snd (process_speech Scenario.env (Scenario.outside (Scenario.t0 + 901000) "info")
                   (Scenario.request (Some "Hello?")) w2) in
  resolvedBy (Scenario.session_in Scenario.started) = "AI" /\
  resolvedBy (Scenario.session_in w1) = "HUMAN" /\
  messages (Scenario.session_in w2) =
    (messages (Scenario.session_in w1) ++
     [ {| role := user; content := "Hello?" |};
       {| role := assistant; content := "We open at 10 AM." |} ])%list /\
  resolvedBy (Scenario.session_in w2) = "HUMAN" /\
  resolvedBy (Scenario.session_in w3) = "TIME_LIMIT".
Proof. vm_compute. repeat split. Qed.

(** ** Intent classification *)

(** C6, as the code has it.  The test is [!session.intent], so the
    classifier runs when the stored intent is null or the empty string.
    For a stored session [s] of a call:
    - after any sequence of speech events the session is still stored, and
      an intent that was a non-empty string is the same as before;
    - one speech event of that call, when the intent was a non-empty
      string, logs no classifier call and keeps the intent; otherwise the
      intent it leaves is the old one or the trimmed answer of the
      classifier to the utterance;
    - one speech event of that call that reaches the classification step
      (both budgets passed, tenant configuration readable, no transfer)
      with an intent that is null or empty does call the classifier, first
      and with the utterance: when the classifier fails the handler rejects
      there, and when it answers and the reply is generated, the intent
      stored is the trimmed answer. *)
Theorem intent_set_once env evs o rq w s ex :
  redis w !! sessionKey (To rq) (CallSid rq) = Some (RString (DSession s) ex) ->
  let key := sessionKey (To rq) (CallSid rq) in
  let utter := Js.or_else (SpeechResult rq) "" in
  (exists s' ex',
     redis (snd (run_speech env evs w)) !! key = Some (RString (DSession s') ex') /\
     if Js.truthy (intent s) then intent s' = intent s else True) /\
  (exists s' ex' l,
     redis (snd (process_speech env o rq w)) !! key = Some (RString (DSession s') ex') /\
     calls (snd (process_speech env o rq w)) = (calls w ++ l)%list /\
     if Js.truthy (intent s) then
       intent s' = intent s /\ existsb is_chat_intent l = false
     else
       intent s' = intent s \/
       exists c, chat_intent o utter = Some c /\ intent s' = Some (Js.trim c)) /\
  (forall tenant,
     over_turns env s = false ->
     over_time env (clock o 0) s = false ->
     getTenantConfig env (To rq) w = (Done tenant, w) ->
     wants_human tenant (Js.toLowerCase utter) = false ->
     Js.truthy (intent s) = false ->
     match chat_intent o utter with
     | None =>
         process_speech env o rq w = (Rejected ProviderError, log_call (ChatIntent utter) w)
     | Some c =>
         (exists l,
            calls (snd (process_speech env o rq w)) = (calls w ++ ChatIntent utter :: l)%list) /\
         (forall reply,
            chat_reply o (messages s ++ [ {| role := user; content := utter |} ])%list =
              Some reply ->
            exists s',
              redis (snd (process_speech env o rq w)) !! key =
                Some (RString (DSession s') (Some 3600)) /\
              intent s' = Some (Js.trim c))
     end).
Proof.
  intros Hk key utter. subst key utter. split; [|split].
  - destruct (run_keeps_session env evs w _ s ex Hk) as (s' & ex' & H1 & (_ & Hi & _) & _).
    exists s', ex'. split; [done|]. destruct (Js.truthy (intent s)); auto.
  - destruct (speech_frame env o rq w)
      as [[Hsame|(s0 & ex0 & s' & H0 & Hw & (_ & Hi & _) & _ & Hint)] (l & Hl & Hq)].
    + exists s, ex, l. rewrite Hsame. split; [done|]. split; [done|].
      destruct (Js.truthy (intent s)) eqn:Htr; [|by left].
      split; [done|]. destruct (existsb is_chat_intent l); [|done].
      destruct (Hq eq_refl) as (s0 & ex0 & H0 & Hf). congruence.
    + rewrite Hk in H0. injection H0 as <- <-.
      exists s', (Some 3600), l. rewrite Hw, lookup_insert_eq.
      split; [done|]. split; [done|].
      destruct (Js.truthy (intent s)) eqn:Htr; [|done].
      split; [auto|]. destruct (existsb is_chat_intent l); [|done].
      destruct (Hq eq_refl) as (s0 & ex0 & H0 & Hf). congruence.
  - intros tenant Ht Hd Hc Hh Htr.
    destruct (chat_intent o (Js.or_else (SpeechResult rq) "")) as [c|] eqn:Hcls.
    + pose proof (detect_intent_new o (Js.or_else (SpeechResult rq) "")
                    (push {| role := user; content := Js.or_else (SpeechResult rq) "" |} s)
                    w c Htr Hcls) as Hi.
      split.
      * destruct (chat_reply o (messages s ++
                    [ {| role := user; content := Js.or_else (SpeechResult rq) "" |} ])%list)
          as [reply|] eqn:Hrep.
        -- destruct (speech_answered env o rq w s ex tenant reply Hk Ht Hd Hc Hh)
             as (s1 & w1 & l & Hi' & _ & Hcalls & _);
             [right; congruence|exact Hrep|].
           rewrite Hi in Hi'. injection Hi' as <- <-.
           exists l. rewrite Hcalls. cbn. by rewrite <- app_assoc.
        -- rewrite (speech_reply_fails env o rq w s ex tenant Hk Ht Hd Hc _ _ Hh Hi Hrep).
           eexists. cbn. rewrite <- app_assoc. reflexivity.
      * intros reply Hrep.
        destruct (speech_answered env o rq w s ex tenant reply Hk Ht Hd Hc Hh)
          as (s1 & w1 & l & Hi' & Hr & _);
          [right; congruence|exact Hrep|].
        rewrite Hi in Hi'. injection Hi' as <- <-.
        eexists. rewrite Hr, lookup_insert_eq. split; [reflexivity|done].
    + apply (speech_intent_fails env o rq w s ex tenant Hk Ht Hd Hc _ _ Hh).
      by apply detect_intent_fails.
Qed.

Lemma intent_set_once_witness :
  let o := Scenario.outside (Scenario.t0 + 9000) "support" in
  let rq := Scenario.request (Some "And on Sundays?") in
  let first := Scenario.outside (Scenario.t0 + 5000) " info " in
  let opening := Scenario.request (Some "When do you open?") in
  (intent (Scenario.session_in More.asked) = Some "info" /\
   terminal (fst (process_speech Scenario.env o rq More.asked)) = false /\
   (exists s' ex',
      redis (snd (run_speech Scenario.env [(o, rq); (o, rq)] More.asked)) !! Scenario.key =
        Some (RString (DSession s') ex') /\
      intent s' = Some "info") /\
   (exists s' ex' l,
      redis (snd (process_speech Scenario.env o rq More.asked)) !! Scenario.key =
        Some (RString (DSession s') ex') /\
      calls (snd (process_speech Scenario.env o rq More.asked)) =
        (calls More.asked ++ l)%list /\
      intent s' = Some "info" /\ existsb is_chat_intent l = false)) /\
  (intent (Scenario.session_in Scenario.started) = None /\
   (exists l,
      calls (snd (process_speech Scenario.env first opening Scenario.started)) =
        (calls Scenario.started ++ ChatIntent "When do you open?" :: l)%list) /\
   (exists s',
      redis (snd (process_speech Scenario.env first opening Scenario.started))
        !! Scenario.key = Some (RString (DSession s') (Some 3600)) /\
      intent s' = Some "info")).
Proof.
  intros o rq first opening. split.
  - split; [vm_compute; reflexivity|]. split; [vm_compute; reflexivity|].
    pose proof (intent_set_once Scenario.env [(o, rq); (o, rq)] o rq More.asked
                  (Scenario.session_in More.asked) (Some 3600)) as H.
    destruct H as (H1 & H2 & _); [vm_compute; reflexivity|].
    split; [exact H1|exact H2].
  - split; [vm_compute; reflexivity|].
    pose proof (intent_set_once Scenario.env [] first opening Scenario.started
                  (Scenario.session_in Scenario.started) (Some 3600)) as H.
    destruct H as (_ & _ & H); [vm_compute; reflexivity|].
    specialize (H (default_tenant Scenario.env)).
    destruct H as [H1 H2]; [vm_compute; reflexivity ..|].
    split; [exact H1|]. apply (H2 "We open at 10 AM."). vm_compute. reflexivity.
Defined.

(** The first question of a call: the classifier answers " info " and the
    stored intent is "info". *)
Example intent_is_trimmed :
  intent (Scenario.session_in Scenario.started) = None /\
  intent (Scenario.session_in
            (snd (run_speech Scenario.env [Scenario.question] Scenario.started))) =
  Some "info".
Proof. vm_compute. done. Qed.

(** C6 as stated fails when the classifier answers with white space only:
    the stored intent is then the empty string, which is not null, and the
    next speech event calls the classifier again and replaces it. *)
Lemma intent_counterexample :
  let rq := Scenario.request (Some "Hmm") in
  let w1 := snd (process_speech Scenario.env (Scenario.outside (Scenario.t0 + 5000) "  ")
                   rq Scenario.started) in
  let w2 := snd (process_speech Scenario.env (Scenario.outside (Scenario.t0 + 9000) "sales")
                   rq w1) in
  intent (Scenario.session_in w1) = Some "" /\
  intent (Scenario.session_in w1) <> None /\
  intent (Scenario.session_in w2) = Some "sales" /\
  calls w2 = (calls w1 ++
              [ChatIntent "Hmm"; ChatReply (removelast (messages (Scenario.session_in w2)));
               Speech "We open at 10 AM."])%list.
Proof. vm_compute. repeat split; congruence. Qed.

(** ** Provider failures *)

(** C7, as the code has it.  Nothing catches a failure: when the language
    model fails, when the request to the speech endpoint rejects, or when
    the audio file cannot be written, during a speech event that has passed
    the budget and transfer checks, the handler rejects and sends no
    response of its own.
    - If the classifier or the reply generation fails, the store is exactly
      as it was before the event, so the session is still there for a
      retry.
    - Once the reply is generated, the session is written back with the
      user turn and the assistant turn of this event, before speech
      synthesis: it stays so when the speech request rejects or the file
      write throws, and no audio file is written then.
    - What the speech request resolves with is written as the audio file
      and played, whatever its status: a failure that the endpoint reports
      by status only is not noticed. *)
Theorem provider_failure_rejects env o rq w s ex tenant :
  redis w !! sessionKey (To rq) (CallSid rq) = Some (RString (DSession s) ex) ->
  over_turns env s = false ->
  over_time env (clock o 0) s = false ->
  getTenantConfig env (To rq) w = (Done tenant, w) ->
  wants_human tenant (Js.toLowerCase (Js.or_else (SpeechResult rq) "")) = false ->
  let key := sessionKey (To rq) (CallSid rq) in
  let utter := Js.or_else (SpeechResult rq) "" in
  let heard := push {| role := user; content := utter |} s in
  let result := process_speech env o rq w in
  match detect_intent o utter heard w with
  | (Rejected _, _) =>
      fst result = Rejected ProviderError /\ redis (snd result) = redis w /\
      audio (snd result) = audio w
  | (Done s1, _) =>
      match chat_reply o (messages s1) with
      | None =>
          fst result = Rejected ProviderError /\ redis (snd result) = redis w /\
          audio (snd result) = audio w
      | Some reply =>
          let answered := push {| role := assistant; content := reply |} s1 in
          redis (snd result) = <[key := RString (DSession answered) (Some 3600)]> (redis w) /\
          messages answered =
            (messages s ++ [ {| role := user; content := utter |};
                             {| role := assistant; content := reply |} ])%list /\
          match tts o reply with
          | None => fst result = Rejected ProviderError /\ audio (snd result) = audio w
          | Some fetched =>
              if fs_accepts o (reply_file o rq) then
                fst result = Done (play_then_gather rq (reply_file o rq)) /\
                audio (snd result) = <[reply_file o rq := body fetched]> (audio w)
              else
                fst result = Rejected FsError /\ audio (snd result) = audio w
          end
      end
  end.
Proof.
  intros Hk Ht Hd Hc Hh key utter heard result. subst result.
  destruct (detect_intent o utter heard w) as [[s1|e] w1] eqn:Hi.
  2: { rewrite (speech_intent_fails env o rq w s ex tenant Hk Ht Hd Hc _ _ Hh Hi).
       destruct (detect_intent_frame _ _ _ _ _ _ Hi) as (Hr & Ha & _ & _ & He).
       destruct (He _ eq_refl) as [-> _]. done. }
  destruct (detect_intent_frame _ _ _ _ _ _ Hi) as (Hr & Ha & _ & Hs1 & _).
  destruct (Hs1 _ eq_refl) as (Hm & _).
  destruct (chat_reply o (messages s1)) as [reply|] eqn:Hrep.
  2: { rewrite (speech_reply_fails env o rq w s ex tenant Hk Ht Hd Hc _ _ Hh Hi Hrep).
       done. }
  destruct (tts o reply) as [fetched|] eqn:Htts;
    [destruct (fs_accepts o (reply_file o rq)) eqn:Hfs|].
  - rewrite (speech_reply_ok env o rq w s ex tenant Hk Ht Hd Hc _ _ _ _ Hh Hi Hrep Htts Hfs).
    cbn. rewrite Hr, Ha, Hm. cbn. rewrite <- app_assoc. done.
  - rewrite (speech_write_fails env o rq w s ex tenant Hk Ht Hd Hc _ _ _ _ Hh Hi Hrep Htts Hfs).
    cbn. rewrite Hr, Ha, Hm. cbn. rewrite <- app_assoc. done.
  - rewrite (speech_tts_fails env o rq w s ex tenant Hk Ht Hd Hc _ _ _ Hh Hi Hrep Htts).
    cbn. rewrite Hr, Ha, Hm. cbn. rewrite <- app_assoc. done.
Qed.

Lemma provider_failure_rejects_witness :
  let rq := Scenario.request (Some "When do you open?") in
  let w := Scenario.started in
  (fst (process_speech Scenario.env (Scenario.llm_down (Scenario.t0 + 5000)) rq w) =
     Rejected ProviderError /\
   redis (snd (process_speech Scenario.env (Scenario.llm_down (Scenario.t0 + 5000)) rq w)) =
     redis w) /\
  (fst (process_speech Scenario.env (Scenario.tts_down (Scenario.t0 + 5000)) rq w) =
     Rejected ProviderError /\
   audio (snd (process_speech Scenario.env (Scenario.tts_down (Scenario.t0 + 5000)) rq w)) =
     audio w) /\
  (fst (process_speech Scenario.env (More.tts_refuses (Scenario.t0 + 5000)) rq w) =
     Done (play_then_gather rq "./audio/CA1-1793577605001.mp3") /\
   audio (snd (process_speech Scenario.env (More.tts_refuses (Scenario.t0 + 5000)) rq w))
     !! "./audio/CA1-1793577605001.mp3" = Some "429 quota exceeded") /\
  (fst (process_speech Scenario.env (More.disk_full (Scenario.t0 + 5000)) rq w) =
     Rejected FsError /\
   audio (snd (process_speech Scenario.env (More.disk_full (Scenario.t0 + 5000)) rq w)) =
     audio w).
Proof.
  intros rq w. split; [|split; [|split]].
  - pose proof (provider_failure_rejects Scenario.env (Scenario.llm_down (Scenario.t0 + 5000))
                  rq w (Scenario.session_in w) (Some 3600) (default_tenant Scenario.env)) as H.
    destruct H as (H1 & H2 & _); [vm_compute; reflexivity ..|].
    split; [exact H1|exact H2].
  - pose proof (provider_failure_rejects Scenario.env
                  (Scenario.tts_down (Scenario.t0 + 5000)) rq w
                  (Scenario.session_in w) (Some 3600) (default_tenant Scenario.env)) as H.
    destruct H as (_ & _ & H); [vm_compute; reflexivity ..|].
    exact H.
  - pose proof (provider_failure_rejects Scenario.env
                  (More.tts_refuses (Scenario.t0 + 5000)) rq w
                  (Scenario.session_in w) (Some 3600) (default_tenant Scenario.env)) as H.
    destruct H as (_ & _ & H1 & H2); [vm_compute; reflexivity ..|].
    split; [exact H1|]. rewrite H2. vm_compute. reflexivity.
  - pose proof (provider_failure_rejects Scenario.env
                  (More.disk_full (Scenario.t0 + 5000)) rq w
                  (Scenario.session_in w) (Some 3600) (default_tenant Scenario.env)) as H.
    destruct H as (_ & _ & H); [vm_compute; reflexivity ..|].
    exact H.
Defined.

(** C7 as stated fails: with the speech endpoint unreachable the handler
    rejects, no response of any kind is produced, and the stored session
    has the user turn and the assistant turn of the failed event appended;
    with the language model down the handler rejects as well. *)
Lemma provider_failure_counterexample :
  let rq := Scenario.request (Some "When do you open?") in
  let w := Scenario.started in
  let tts_failed := process_speech Scenario.env (Scenario.tts_down (Scenario.t0 + 5000)) rq w in
  let llm_failed := process_speech Scenario.env (Scenario.llm_down (Scenario.t0 + 5000)) rq w in
  fst tts_failed = Rejected ProviderError /\
  messages (Scenario.session_in (snd tts_failed)) =
    (messages (Scenario.session_in w) ++
     [ {| role := user; content := "When do you open?" |};
       {| role := assistant; content := "We open at 10 AM." |} ])%list /\
  fst llm_failed = Rejected ProviderError.
Proof. vm_compute. repeat split. Qed.

(** ** Call initiation *)

Lemma getTenantConfig_default env tid w :
  redis w !! tenantKey tid = None ->
  getTenantConfig env tid w = (Done (default_tenant env), w).
Proof.
  intros H. unfold getTenantConfig, bind. by rewrite (redis_get_absent _ _ H).
Qed.

Lemma incoming_stored env o rq w tenant :
  getTenantConfig env (To rq) w = (Done tenant, w) ->
  redis (snd (incoming_call env o rq w)) =
    <[sessionKey (To rq) (CallSid rq) :=
        RString (DSession (new_session rq (clock o 0) tenant)) (Some 3600)]> (redis w) /\
  fst (incoming_call env o rq w) =
    match tts o (welcome_text tenant) with
    | Some _ =>
        if fs_accepts o (welcome_file rq) then Done (play_then_gather rq (welcome_file rq))
        else Rejected FsError
    | None => Rejected ProviderError
    end.
Proof.
  intros Hc. unfold incoming_call, bind. rewrite Hc.
  unfold redis_set, generateSpeech, bind, call_provider, writeFileSync.
  cbv zeta. fold (welcome_file rq).
  destruct (tts o (welcome_text tenant)); [|done].
  by destruct (fs_accepts o (welcome_file rq)).
Qed.

(** C1, as the code has it.  The session created by an initiation event is
    stored under the call's key with a time-to-live of 3600 seconds; its
    [resolvedBy] is "AI" (the code has no UNSET value), its intent is null,
    its [startTime] is the time of creation and its history is the single
    system turn built from the tenant's business name, style and hours.
    Consequently, when the speech events that follow produce no closing
    response, finalizing the call adds one to the daily [resolved_AI]
    counter, and [resolved_UNSET] is not touched. *)
Theorem session_creation env o rq w tenant evs o' :
  getTenantConfig env (To rq) w = (Done tenant, w) ->
  let key := sessionKey (To rq) (CallSid rq) in
  let w1 := snd (incoming_call env o rq w) in
  let w2 := snd (run_speech env evs w1) in
  let daily := analyticsKey (To rq) (clock o' 3) in
  forallb (fun r => negb (terminal r)) (fst (run_speech env evs w1)) = true ->
  holds_string w2 (analyticsKey (To rq) (clock o' 2)) = false ->
  holds_string w2 daily = false ->
  (exists s,
     redis w1 !! key = Some (RString (DSession s) (Some 3600)) /\
     resolvedBy s = "AI" /\
     intent s = None /\
     startTime s = clock o 0 /\
     messages s = [ {| role := system; content := system_prompt tenant |} ]) /\
  let w3 := snd (call_ended o' rq w2) in
  counter w3 daily "resolved_AI" = counter w2 daily "resolved_AI" + 1 /\
  counter w3 daily "resolved_UNSET" = counter w2 daily "resolved_UNSET".
Proof.
  intros Hc key w1 w2 daily Hrun Htot Hout.
  destruct (incoming_stored env o rq w tenant Hc) as [Hw1 _].
  assert (H1 : redis w1 !! key =
               Some (RString (DSession (new_session rq (clock o 0) tenant)) (Some 3600))).
  { unfold w1. rewrite Hw1. apply lookup_insert_eq. }
  split; [by eexists|].
  destruct (run_keeps_session env evs w1 key _ _ H1) as (s2 & ex2 & H2 & _ & Hres).
  specialize (Hres Hrun). cbn in Hres.
  cbv zeta. fold w2.
  rewrite !(ended_counters o' rq w2 s2 ex2 H2 Htot Hout), Hres.
  rewrite !bool_decide_eq_false_2 by apply analyticsKey_logKey.
  rewrite !(bool_decide_eq_false_2 (_ /\ _ = "total_calls")) by (by intros [_ ?]).
  rewrite bool_decide_eq_true_2 by done.
  rewrite bool_decide_eq_false_2 by (by intros [_ ?]).
  lia.
Qed.

Lemma session_creation_witness :
  let o := Scenario.outside Scenario.t0 "info" in
  let rq := Scenario.request None in
  let w1 := snd (incoming_call Scenario.env o rq Scenario.empty) in
  let w2 := snd (run_speech Scenario.env [Scenario.question; Scenario.question] w1) in
  let w3 := snd (call_ended (Scenario.outside (Scenario.t0 + 60000) "info") rq w2) in
  (exists s,
     redis w1 !! Scenario.key = Some (RString (DSession s) (Some 3600)) /\
     resolvedBy s = "AI" /\
     intent s = None /\
     startTime s = Scenario.t0 /\
     messages s =
       [ {| role := system; content := system_prompt (default_tenant Scenario.env) |} ]) /\
  counter w3 Scenario.day "resolved_AI" = counter w2 Scenario.day "resolved_AI" + 1 /\
  counter w3 Scenario.day "resolved_UNSET" = counter w2 Scenario.day "resolved_UNSET".
Proof.
  intros o rq w1 w2 w3.
  apply (session_creation Scenario.env o rq Scenario.empty (default_tenant Scenario.env)
           [Scenario.question; Scenario.question]
           (Scenario.outside (Scenario.t0 + 60000) "info"));
    vm_compute; reflexivity.
Defined.

(** C1 as stated fails: the session created by an initiation event has
    [resolvedBy = "AI"], not UNSET, and finalizing the call right away
    counts it under [resolved_AI]; no [resolved_UNSET] counter appears. *)
Lemma session_creation_counterexample :
  let rq := Scenario.request None in
  let ended := snd (call_ended (Scenario.outside (Scenario.t0 + 60000) "info") rq
                      Scenario.started) in
  resolvedBy (Scenario.session_in Scenario.started) = "AI" /\
  resolvedBy (Scenario.session_in Scenario.started) <> "UNSET" /\
  redis ended !! Scenario.day =
    Some (RHash {[ "total_calls" := 1; "resolved_AI" := 1 ]}) /\
  counter ended Scenario.day "resolved_UNSET" = 0.
Proof.
  vm_compute. repeat split; congruence.
Qed.

(** ** Idempotent finalization *)

(** C9: for a call with a stored session, running the call-ended handler
    twice in a row (the analytics keys being usable as hashes) adds exactly
    one to the daily [total_calls] counter and exactly one to the daily
    [resolved_<resolvedBy>] counter: the first run archives the session,
    counts it and deletes it, the second run finds no session, answers 200
    and leaves the world as the first run left it.  No other counter
    changes, except those of a hash that the archive key would overwrite. *)
Theorem finalize_is_idempotent o1 o2 rq1 rq2 w s ex :
  To rq2 = To rq1 ->
  CallSid rq2 = CallSid rq1 ->
  redis w !! sessionKey (To rq1) (CallSid rq1) = Some (RString (DSession s) ex) ->
  holds_string w (analyticsKey (To rq1) (clock o1 2)) = false ->
  holds_string w (analyticsKey (To rq1) (clock o1 3)) = false ->
  let k_total := analyticsKey (To rq1) (clock o1 2) in
  let k_outcome := analyticsKey (To rq1) (clock o1 3) in
  let f_outcome := "resolved_" +:+ resolvedBy s in
  let w1 := snd (call_ended o1 rq1 w) in
  let w2 := snd (call_ended o2 rq2 w1) in
  fst (call_ended o1 rq1 w) = Done (sendStatus 200) /\
  redis w1 !! sessionKey (To rq1) (CallSid rq1) = None /\
  call_ended o2 rq2 w1 = (Done (sendStatus 200), w1) /\
  counter w2 k_total "total_calls" = counter w k_total "total_calls" + 1 /\
  counter w2 k_outcome f_outcome = counter w k_outcome f_outcome + 1 /\
  forall k f,
    k <> logKey (To rq1) (CallSid rq1) ->
    (k, f) <> (k_total, "total_calls") ->
    (k, f) <> (k_outcome, f_outcome) ->
    counter w2 k f = counter w k f.
Proof.
  intros HTo HSid Hk Htot Hout k_total k_outcome f_outcome w1 w2.
  assert (Hgone : redis w1 !! sessionKey (To rq1) (CallSid rq1) = None)
    by apply (ended_session_gone o1 rq1 w s ex Hk Htot Hout).
  assert (Hsecond : call_ended o2 rq2 w1 = (Done (sendStatus 200), w1)).
  { apply ended_absent. by rewrite HTo, HSid. }
  assert (Hw2 : w2 = w1) by (unfold w2; by rewrite Hsecond).
  split; [by rewrite (ended_session o1 rq1 w s ex Hk Htot Hout)|].
  split; [done|]. split; [done|].
  rewrite Hw2. unfold w1.
  split; [|split].
  - rewrite (ended_counters o1 rq1 w s ex Hk Htot Hout).
    rewrite bool_decide_eq_false_2 by apply analyticsKey_logKey.
    rewrite bool_decide_eq_true_2 by done.
    rewrite bool_decide_eq_false_2; [lia|].
    intros [_ H]. discriminate H.
  - rewrite (ended_counters o1 rq1 w s ex Hk Htot Hout).
    rewrite bool_decide_eq_false_2 by apply analyticsKey_logKey.
    rewrite (bool_decide_eq_false_2 (_ /\ _ = "total_calls")).
    2: { intros [_ H]. discriminate H. }
    rewrite bool_decide_eq_true_2 by done. lia.
  - intros k f Hlog H1 H2.
    rewrite (ended_counters o1 rq1 w s ex Hk Htot Hout).
    rewrite !bool_decide_eq_false_2; [lia|..].
    + intros [-> ->]. by apply H2.
    + intros [-> ->]. by apply H1.
    + done.
Qed.

Lemma finalize_is_idempotent_witness :
  let o1 := Scenario.outside (Scenario.t0 + 60000) "info" in
  let o2 := Scenario.outside (Scenario.t0 + 61000) "info" in
  let rq := Scenario.request None in
  let w1 := snd (call_ended o1 rq Scenario.transferred) in
  let w2 := snd (call_ended o2 rq w1) in
  call_ended o2 rq w1 = (Done (sendStatus 200), w1) /\
  counter Scenario.transferred Scenario.day "total_calls" = 0 /\
  counter w2 Scenario.day "total_calls" = 1 /\
  counter w2 Scenario.day "resolved_HUMAN" = 1.
Proof.
  intros o1 o2 rq w1 w2.
  pose proof (finalize_is_idempotent o1 o2 rq rq Scenario.transferred
                (Scenario.session_in Scenario.transferred) (Some 3600)) as H.
  destruct H as (_ & _ & H2 & H3 & H4 & _).
  - reflexivity.
  - reflexivity.
  - vm_compute. reflexivity.
  - vm_compute. reflexivity.
  - vm_compute. reflexivity.
  - split; [exact H2|]. split; [vm_compute; reflexivity|].
    split; [exact H3|exact H4].
Defined.

(** ** Events without identifiers *)

Lemma includes_app_r a s k : Js.includes s k = true -> Js.includes (a +:+ s) k = true.
Proof.
  intros H. induction a as [|c a IH]; [done|].
  change (Js.includes (String c a +:+ s) k)
    with (Js.startsWith (String c (a +:+ s)) k || Js.includes (a +:+ s) k).
  rewrite IH. apply orb_true_r.
Qed.

(** C10, as the code has it.  No handler validates its payload: a missing
    [CallSid] or [To] is rendered as the text "undefined" in the keys and
    in the file names, and the event is served like any other.  An
    initiation event without one of them (the tenant configuration being
    readable) stores a session record under the key so built, its [callSid]
    and [tenantId] being what the payload had; it is answered with the
    welcome audio when the speech request resolves and the audio file can be
    written, and rejects otherwise, the record staying.  A speech event or a
    termination event is served exactly as the same event carrying the
    rendered text for each identifier. *)
Theorem missing_identifier_is_served env o rq w tenant :
  CallSid rq = None \/ To rq = None ->
  getTenantConfig env (To rq) w = (Done tenant, w) ->
  let key := "tenant:" +:+ Js.show (To rq) +:+ ":call:session:" +:+ Js.show (CallSid rq) in
  (exists s,
     redis (snd (incoming_call env o rq w)) !! key =
       Some (RString (DSession s) (Some 3600)) /\
     callSid s = CallSid rq /\ tenantId s = To rq) /\
  Js.includes key "undefined" = true /\
  fst (incoming_call env o rq w) =
    match tts o (welcome_text tenant) with
    | Some _ =>
        if fs_accepts o (welcome_file rq) then Done (play_then_gather rq (welcome_file rq))
        else Rejected FsError
    | None => Rejected ProviderError
    end /\
  (forall o' w', process_speech env o' rq w' = process_speech env o' (rendered rq) w') /\
  (forall o' w', call_ended o' rq w' = call_ended o' (rendered rq) w').
Proof.
  intros Hmiss Hc key.
  destruct (incoming_stored env o rq w tenant Hc) as [Hw1 Hr].
  split; [|split; [|split; [exact Hr|split; reflexivity]]].
  - exists (new_session rq (clock o 0) tenant).
    rewrite Hw1. split; [apply lookup_insert_eq|done].
  - unfold key. destruct Hmiss as [-> | ->]; [|reflexivity].
    apply (includes_app_r "tenant:"), includes_app_r, (includes_app_r ":call:session:").
    reflexivity.
Qed.

Lemma missing_identifier_is_served_witness :
  let o := Scenario.outside Scenario.t0 "info" in
  ((exists s,
      redis (snd (incoming_call Scenario.env o Scenario.anonymous Scenario.empty))
        !! "tenant:undefined:call:session:undefined" =
        Some (RString (DSession s) (Some 3600)) /\
      callSid s = None /\ tenantId s = None) /\
   fst (incoming_call Scenario.env o Scenario.anonymous Scenario.empty) =
     Done (twiml [Play "https://callflow.example/audio/undefined-welcome.mp3";
                  Gather "speech" "/process-speech" "POST" "5"])) /\
  ((exists s,
      redis (snd (incoming_call Scenario.env o More.room7 Scenario.empty))
        !! "tenant:undefined:call:session:room/7" =
        Some (RString (DSession s) (Some 3600)) /\
      callSid s = Some "room/7" /\ tenantId s = None) /\
   fst (incoming_call Scenario.env o More.room7 Scenario.empty) = Rejected FsError) /\
  call_ended o Scenario.anonymous
    (snd (incoming_call Scenario.env o Scenario.anonymous Scenario.empty)) =
  call_ended o
    {| CallSid := Some "undefined"; To := Some "undefined"; From := From Scenario.anonymous;
       SpeechResult := None; protocol := "https"; host := Some "callflow.example" |}
    (snd (incoming_call Scenario.env o Scenario.anonymous Scenario.empty)).
Proof.
  intros o. split; [|split].
  - pose proof (missing_identifier_is_served Scenario.env o Scenario.anonymous
                  Scenario.empty (default_tenant Scenario.env)) as H.
    destruct H as (H1 & _ & H2 & _).
    + left. reflexivity.
    + vm_compute. reflexivity.
    + split; [exact H1|exact H2].
  - pose proof (missing_identifier_is_served Scenario.env o More.room7
                  Scenario.empty (default_tenant Scenario.env)) as H.
    destruct H as (H1 & _ & H2 & _).
    + right. reflexivity.
    + vm_compute. reflexivity.
    + split; [exact H1|exact H2].
  - pose proof (missing_identifier_is_served Scenario.env o Scenario.anonymous
                  Scenario.empty (default_tenant Scenario.env)) as H.
    destruct H as (_ & _ & _ & _ & H).
    + left. reflexivity.
    + vm_compute. reflexivity.
    + apply H.
Defined.

(** C10 as stated fails: an initiation event with neither [CallSid] nor
    [To] is not rejected.  It is answered with the welcome audio, and a
    session record is created under the key built with "undefined". *)
Lemma missing_identifier_counterexample :
  let o := Scenario.outside Scenario.t0 "info" in
  let result := incoming_call Scenario.env o Scenario.anonymous Scenario.empty in
  CallSid Scenario.anonymous = None /\
  To Scenario.anonymous = None /\
  redis Scenario.empty !! "tenant:undefined:call:session:undefined" = None /\
  redis (snd result) !! "tenant:undefined:call:session:undefined" =
    Some (RString
            (DSession (new_session Scenario.anonymous Scenario.t0
                         (default_tenant Scenario.env)))
            (Some 3600)) /\
  fst result <> Done (sendStatus 200) /\
  snd result <> Scenario.empty.
Proof.
  vm_compute. repeat split; congruence.
Qed.

(** * Further properties of the handlers *)

(** ** The paths of a speech event *)

Lemma speech_path_holds env o rq w :
  speech_path env o rq w (fst (process_speech env o rq w)) (snd (process_speech env o rq w)).
Proof.
  destruct (redis w !! sessionKey (To rq) (CallSid rq)) as [[[s|t a] ex|h]|] eqn:Hk.
  2: { rewrite (speech_not_a_session env o rq w _ _ _ Hk). by eapply path_not_a_session. }
  2: { rewrite (speech_wrongtype env o rq w _ Hk). by eapply path_wrongtype. }
  2: { rewrite (speech_absent env o rq w Hk). by apply path_absent. }
  destruct (over_turns env s) eqn:Ht.
  { rewrite (speech_limit env o rq w _ _ Hk Ht). by eapply path_limit. }
  destruct (over_time env (clock o 0) s) eqn:Hd.
  { rewrite (speech_time_limit env o rq w _ _ Hk Ht Hd). by eapply path_time_limit. }
  destruct (getTenantConfig env (To rq) w) as [[tenant|e] w0] eqn:Hc;
    pose proof (getTenantConfig_frame _ _ _ _ _ Hc) as ->.
  2: { rewrite (speech_config_fails env o rq w _ _ _ _ Hk Ht Hd Hc).
       by eapply path_config_fails. }
  destruct (wants_human tenant (Js.toLowerCase (Js.or_else (SpeechResult rq) ""))) eqn:Hh.
  { rewrite (speech_transfer env o rq w _ _ _ Hk Ht Hd Hc Hh). by eapply path_transfer. }
  destruct (detect_intent o (Js.or_else (SpeechResult rq) "")
              (push {| role := user; content := Js.or_else (SpeechResult rq) "" |} s) w)
    as [[s1|e] w1] eqn:Hi.
  2: { rewrite (speech_intent_fails env o rq w _ _ _ Hk Ht Hd Hc _ _ Hh Hi).
       by eapply path_intent_fails. }
  destruct (chat_reply o (messages s1)) as [reply|] eqn:Hrep.
  2: { rewrite (speech_reply_fails env o rq w _ _ _ Hk Ht Hd Hc _ _ Hh Hi Hrep).
       by eapply path_reply_fails. }
  destruct (tts o reply) as [fetched|] eqn:Htts;
    [destruct (fs_accepts o (reply_file o rq)) eqn:Hfs|].
  - rewrite (speech_reply_ok env o rq w _ _ _ Hk Ht Hd Hc _ _ _ _ Hh Hi Hrep Htts Hfs).
    by eapply path_reply.
  - rewrite (speech_write_fails env o rq w _ _ _ Hk Ht Hd Hc _ _ _ _ Hh Hi Hrep Htts Hfs).
    by eapply path_write_fails.
  - rewrite (speech_tts_fails env o rq w _ _ _ Hk Ht Hd Hc _ _ _ Hh Hi Hrep Htts).
    by eapply path_tts_fails.
Qed.

(** ** Keys *)

Lemma length_append (a b : string) :
  String.length (a +:+ b) = (String.length a + String.length b)%nat.
Proof. induction a as [|c a IH]; [done|]. simpl. by f_equal. Qed.

Lemma append_cancel_r (a b x : string) : a +:+ x = b +:+ x -> a = b.
Proof.
  revert b. induction a as [|c a IH]; intros [|d b] H.
  - done.
  - apply (f_equal String.length) in H. rewrite !length_append in H. cbn in H. lia.
  - apply (f_equal String.length) in H. rewrite !length_append in H. cbn in H. lia.
  - cbn in H. injection H as -> H. by rewrite (IH _ H).
Qed.

Lemma startsWith_empty s : Js.startsWith s "" = true.
Proof. by destruct s. Qed.

Lemma includes_cons c s k :
  Js.includes (String c s) k = Js.startsWith (String c s) k || Js.includes s k.
Proof. done. Qed.

Lemma colon_free_cons c s :
  colon_free (String c s) = true -> c <> ":"%char /\ colon_free s = true.
Proof.
  unfold colon_free. rewrite includes_cons. cbn [Js.startsWith].
  destruct (ascii_dec ":" c) as [<-|Hc].
  - by rewrite startsWith_empty.
  - cbn. auto.
Qed.

(** Two texts without colon that are each followed by a colon and agree
    as a whole agree part by part. *)
Lemma split_at_colon (a b x y : string) :
  colon_free a = true -> colon_free b = true ->
  a +:+ String ":" x = b +:+ String ":" y -> a = b /\ x = y.
Proof.
  revert b. induction a as [|c a IH]; intros [|d b] Ha Hb H; cbn in H.
  - by injection H.
  - injection H as <- _. by destruct (colon_free_cons _ _ Hb).
  - injection H as -> _. by destruct (colon_free_cons _ _ Ha).
  - injection H as -> H.
    destruct (colon_free_cons _ _ Ha) as [_ Ha'], (colon_free_cons _ _ Hb) as [_ Hb'].
    by destruct (IH b Ha' Hb' H) as [-> ->].
Qed.

(** X1: the key of a session separates tenants and calls one at a time.
    Two tenants that use the same call identifier share a session key only
    if they are the same tenant, and two calls of one tenant share one only
    if they are the same call; the same holds for the key of the archived
    log.  The identifiers are compared as they are rendered: a missing one
    counts as the text "undefined". *)
Theorem session_keys_separate_ids (t1 t2 c1 c2 : option string) :
  (sessionKey t1 c1 = sessionKey t2 c1 <-> Js.show t1 = Js.show t2) /\
  (sessionKey t1 c1 = sessionKey t1 c2 <-> Js.show c1 = Js.show c2) /\
  (logKey t1 c1 = logKey t2 c1 <-> Js.show t1 = Js.show t2) /\
  (logKey t1 c1 = logKey t1 c2 <-> Js.show c1 = Js.show c2).
Proof.
  unfold sessionKey, logKey.
  repeat split; intros H; try (by rewrite H).
  - apply append_cancel_l in H.
    revert H. generalize (":call:session:" +:+ Js.show c1). intros x H.
    by apply append_cancel_r in H.
  - by do 3 apply append_cancel_l in H.
  - apply append_cancel_l in H.
    revert H. generalize (":call:log:" +:+ Js.show c1). intros x H.
    by apply append_cancel_r in H.
  - by do 3 apply append_cancel_l in H.
Qed.

Local Ltac kinds_differ x y :=
  let H := fresh in
  unfold sessionKey, logKey, tenantKey, analyticsKey; intros H;
  apply append_cancel_l in H;
  apply (split_at_colon _ _ x y) in H; [|done..];
  destruct H as [_ H]; discriminate H.

(** X2: when tenant identifiers have no colon (telephone numbers have
    none), the keys of the store never collide: a session key determines
    both the tenant and the call, and the session keys, the log keys, the
    configuration keys and the daily analytics keys are pairwise distinct,
    whatever the call identifiers are. *)
Theorem keys_of_colon_free_tenants (t1 t2 c1 c2 : option string) (now : Z) :
  colon_free (Js.show t1) = true ->
  colon_free (Js.show t2) = true ->
  (sessionKey t1 c1 = sessionKey t2 c2 -> Js.show t1 = Js.show t2 /\ Js.show c1 = Js.show c2) /\
  (logKey t1 c1 = logKey t2 c2 -> Js.show t1 = Js.show t2 /\ Js.show c1 = Js.show c2) /\
  sessionKey t1 c1 <> logKey t2 c2 /\
  sessionKey t1 c1 <> tenantKey t2 /\
  sessionKey t1 c1 <> analyticsKey t2 now /\
  logKey t1 c1 <> tenantKey t2 /\
  logKey t1 c1 <> analyticsKey t2 now /\
  tenantKey t1 <> analyticsKey t2 now.
Proof.
  intros H1 H2.
  set (day := Js.slice0 10 (Js.toISOString now)).
  split; [|split; [|repeat split]].
  - unfold sessionKey. intros H. apply append_cancel_l in H.
    apply (split_at_colon _ _ ("call:session:" +:+ Js.show c1)
             ("call:session:" +:+ Js.show c2)) in H; [|done..].
    destruct H as [-> H]. split; [done|]. by apply append_cancel_l in H.
  - unfold logKey. intros H. apply append_cancel_l in H.
    apply (split_at_colon _ _ ("call:log:" +:+ Js.show c1)
             ("call:log:" +:+ Js.show c2)) in H; [|done..].
    destruct H as [-> H]. split; [done|]. by apply append_cancel_l in H.
  - kinds_differ ("call:session:" +:+ Js.show c1) ("call:log:" +:+ Js.show c2).
  - kinds_differ ("call:session:" +:+ Js.show c1) "config".
  - kinds_differ ("call:session:" +:+ Js.show c1) ("analytics:daily:" +:+ day).
  - kinds_differ ("call:log:" +:+ Js.show c1) "config".
  - kinds_differ ("call:log:" +:+ Js.show c1) ("analytics:daily:" +:+ day).
  - kinds_differ "config" ("analytics:daily:" +:+ day).
Qed.

Lemma keys_of_colon_free_tenants_witness :
  let t1 := Some "+15550001" in
  let t2 := Some "+15550002" in
  sessionKey t1 (Some "CA1") <> tenantKey t2 /\
  sessionKey t1 (Some "CA1") <> analyticsKey t2 Scenario.t0.
Proof.
  intros t1 t2.
  pose proof (keys_of_colon_free_tenants t1 t2 (Some "CA1") (Some "CA1") Scenario.t0) as H.
  destruct H as (_ & _ & _ & H1 & H2 & _); [reflexivity..|].
  split; [exact H1|exact H2].
Defined.

(** Without that assumption keys do collide: the session of call
    ["b:call:session:c"] of tenant ["a"] is the session of call ["c"] of
    tenant ["a:call:session:b"]. *)
Example colliding_session_keys :
  sessionKey (Some "a") (Some "b:call:session:c") =
  sessionKey (Some "a:call:session:b") (Some "c").
Proof. reflexivity. Qed.

(** ** What one speech event does to a stored session *)

Lemma detect_intent_shape o u s0 w s1 w1 :
  detect_intent o u s0 w = (Done s1, w1) ->
  redis w1 = redis w /\ audio w1 = audio w /\
  (s1 = s0 \/ exists c, chat_intent o u = Some c /\ s1 = set_intent (Some (Js.trim c)) s0).
Proof.
  unfold detect_intent, bind, call_provider.
  destruct (Js.truthy (intent s0)); [|destruct (chat_intent o u) as [c|]];
    intros [= <- <-]; (split; [done|]); (split; [done|]).
  - by left.
  - right. by exists c.
Qed.

Lemma detect_intent_rejects o u s0 w e w1 :
  detect_intent o u s0 w = (Rejected e, w1) ->
  redis w1 = redis w /\ audio w1 = audio w.
Proof.
  unfold detect_intent, bind, call_provider.
  destruct (Js.truthy (intent s0)); [|destruct (chat_intent o u) as [c|]];
    by intros [= <- <-].
Qed.

(** Same call, same start: what no speech event changes in a session. *)
Local Abbreviation same_call s s' :=
  (startTime s' = startTime s /\ callSid s' = callSid s /\
   tenantId s' = tenantId s /\ from s' = from s).

(** The session stored under any key [k] is still stored after a speech
    event; its history has grown by nothing, by a user turn, or by a user
    turn and an assistant turn, and by nothing when the turn budget is
    exhausted. *)
Lemma speech_step env o rq w k s ex :
  redis w !! k = Some (RString (DSession s) ex) ->
  exists s' ex' l,
    redis (snd (process_speech env o rq w)) !! k = Some (RString (DSession s') ex') /\
    messages s' = (messages s ++ l)%list /\
    same_call s s' /\
    (l = [] \/
     l = [ {| role := user; content := Js.or_else (SpeechResult rq) "" |} ] \/
     exists reply,
       l = [ {| role := user; content := Js.or_else (SpeechResult rq) "" |};
             {| role := assistant; content := reply |} ]) /\
    (over_turns env s = true -> l = []).
Proof.
  intros Hk.
  assert (Hstay : forall w', redis w' = redis w ->
            exists s' ex' l,
              redis w' !! k = Some (RString (DSession s') ex') /\
              messages s' = (messages s ++ l)%list /\ same_call s s' /\
              (l = [] \/
               l = [ {| role := user; content := Js.or_else (SpeechResult rq) "" |} ] \/
               exists reply,
                 l = [ {| role := user; content := Js.or_else (SpeechResult rq) "" |};
                       {| role := assistant; content := reply |} ]) /\
              (over_turns env s = true -> l = [])).
  { intros w' Hw'. exists s, ex, []. rewrite Hw', app_nil_r. by auto 10. }
  assert (Hother : forall w' v, k <> sessionKey (To rq) (CallSid rq) ->
            redis w' = <[sessionKey (To rq) (CallSid rq) := v]> (redis w) ->
            redis w' !! k = redis w !! k).
  { intros w' v Hne ->. by rewrite lookup_insert_ne. }
  pose proof (speech_path_holds env o rq w) as P.
  destruct (process_speech env o rq w) as [r w']. cbn [fst snd] in *.
  destruct P as [H0|t a ex0 H0|h H0|s0 ex0 H0 Ht|s0 ex0 H0 Ht Hd|s0 ex0 e H0 Ht Hd Hc
                |s0 ex0 tenant H0 Ht Hd Hc Hh|s0 ex0 tenant e w1 H0 Ht Hd Hc Hh Hi
                |s0 ex0 tenant s1 w1 H0 Ht Hd Hc Hh Hi Hrep
                |s0 ex0 tenant s1 w1 reply H0 Ht Hd Hc Hh Hi Hrep Htts
                |s0 ex0 tenant s1 w1 reply fetched H0 Ht Hd Hc Hh Hi Hrep Htts Hfs
                |s0 ex0 tenant s1 w1 reply fetched H0 Ht Hd Hc Hh Hi Hrep Htts Hfs];
    try (by apply Hstay).
  - (* turn budget *)
    destruct (decide (k = sessionKey (To rq) (CallSid rq))) as [->|Hne].
    + rewrite Hk in H0. injection H0 as <- <-.
      exists (set_resolvedBy "LIMIT" s), (Some 3600), []. cbn.
      rewrite lookup_insert_eq, app_nil_r. by auto 10.
    + exists s, ex, []. cbn. rewrite lookup_insert_ne, app_nil_r by done. by auto 10.
  - (* time budget *)
    destruct (decide (k = sessionKey (To rq) (CallSid rq))) as [->|Hne].
    + rewrite Hk in H0. injection H0 as <- <-.
      exists (set_resolvedBy "TIME_LIMIT" s), (Some 3600), []. cbn.
      rewrite lookup_insert_eq, app_nil_r. by auto 10.
    + exists s, ex, []. cbn. rewrite lookup_insert_ne, app_nil_r by done. by auto 10.
  - (* transfer *)
    destruct (decide (k = sessionKey (To rq) (CallSid rq))) as [->|Hne].
    + rewrite Hk in H0. injection H0 as <- <-.
      eexists _, (Some 3600), _. cbn. rewrite lookup_insert_eq.
      split; [done|]. split; [done|]. split; [done|]. split; [by auto|].
      intros Ht'. congruence.
    + exists s, ex, []. cbn. rewrite lookup_insert_ne, app_nil_r by done. by auto 10.
  - (* classifier fails *)
    apply Hstay. by destruct (detect_intent_rejects _ _ _ _ _ _ Hi).
  - (* reply fails *)
    apply Hstay. cbn. by destruct (detect_intent_shape _ _ _ _ _ _ Hi).
  - (* synthesis fails *)
    destruct (detect_intent_shape _ _ _ _ _ _ Hi) as (Hr & _ & Hs1).
    destruct (decide (k = sessionKey (To rq) (CallSid rq))) as [->|Hne].
    + rewrite Hk in H0. injection H0 as <- <-.
      eexists _, (Some 3600), _. cbn. rewrite Hr, lookup_insert_eq.
      split; [done|].
      destruct Hs1 as [->|(c & _ & ->)]; cbn; rewrite <- app_assoc;
        (split; [done|]); (split; [done|]); (split; [by eauto|]);
        intros Ht'; congruence.
    + exists s, ex, []. cbn. rewrite Hr, lookup_insert_ne, app_nil_r by done. by auto 10.
  - (* reply played *)
    destruct (detect_intent_shape _ _ _ _ _ _ Hi) as (Hr & _ & Hs1).
    destruct (decide (k = sessionKey (To rq) (CallSid rq))) as [->|Hne].
    + rewrite Hk in H0. injection H0 as <- <-.
      eexists _, (Some 3600), _. cbn. rewrite Hr, lookup_insert_eq.
      split; [done|].
      destruct Hs1 as [->|(c & _ & ->)]; cbn; rewrite <- app_assoc;
        (split; [done|]); (split; [done|]); (split; [by eauto|]);
        intros Ht'; congruence.
    + exists s, ex, []. cbn. rewrite Hr, lookup_insert_ne, app_nil_r by done. by auto 10.
  - (* the file cannot be written *)
    destruct (detect_intent_shape _ _ _ _ _ _ Hi) as (Hr & _ & Hs1).
    destruct (decide (k = sessionKey (To rq) (CallSid rq))) as [->|Hne].
    + rewrite Hk in H0. injection H0 as <- <-.
      eexists _, (Some 3600), _. cbn. rewrite Hr, lookup_insert_eq.
      split; [done|].
      destruct Hs1 as [->|(c & _ & ->)]; cbn; rewrite <- app_assoc;
        (split; [done|]); (split; [done|]); (split; [by eauto|]);
        intros Ht'; congruence.
    + exists s, ex, []. cbn. rewrite Hr, lookup_insert_ne, app_nil_r by done. by auto 10.
Qed.

Lemma system_turns_app (l1 l2 : list Message) :
  system_turns (l1 ++ l2) = (system_turns l1 + system_turns l2)%nat.
Proof. unfold system_turns. by rewrite List.filter_app, length_app. Qed.

(** Over a whole run of speech events. *)
Lemma run_steps env evs w k s ex :
  redis w !! k = Some (RString (DSession s) ex) ->
  exists s' ex' l,
    redis (snd (run_speech env evs w)) !! k = Some (RString (DSession s') ex') /\
    messages s' = (messages s ++ l)%list /\
    same_call s s' /\
    system_turns l = 0%nat /\
    (Z.of_nat (length (messages s)) <= 2 * number_or (MAX_CALL_TURNS env) 20 + 2 ->
     Z.of_nat (length (messages s')) <= 2 * number_or (MAX_CALL_TURNS env) 20 + 2).
Proof.
  revert w s ex. induction evs as [|[o rq] evs IH]; intros w s ex Hk.
  - exists s, ex, []. cbn. rewrite app_nil_r. by auto 10.
  - rewrite run_speech_cons. cbn [snd].
    destruct (speech_step env o rq w k s ex Hk)
      as (s1 & ex1 & l1 & H1 & Hm1 & (Ha & Hb & Hc & Hd) & Hl1 & Hfull).
    destruct (IH _ _ _ H1) as (s2 & ex2 & l2 & H2 & Hm2 & (Ha' & Hb' & Hc' & Hd') & Hsys & Hlen).
    exists s2, ex2, (l1 ++ l2)%list.
    split; [done|]. split; [by rewrite Hm2, Hm1, app_assoc|].
    split; [repeat split; congruence|]. split.
    + rewrite system_turns_app, Hsys.
      by destruct Hl1 as [->|[->|[reply ->]]].
    + intros Hbound. apply Hlen. rewrite Hm1, length_app.
      destruct (over_turns env s) eqn:Ht.
      * rewrite (Hfull eq_refl). cbn. lia.
      * assert (Hle : ~ 2 * number_or (MAX_CALL_TURNS env) 20 < Z.of_nat (length (messages s))).
        { intros Hlt. apply over_turns_iff in Hlt. congruence. }
        destruct Hl1 as [->|[->|[reply ->]]]; cbn; lia.
Qed.

(** ** Invariants of a conversation *)

(** X3: speech events never delete or replace a stored session by
    something else, and its history is append-only: after any sequence of
    speech events (of this call or of others) the session is still stored
    under its key, the turns it had are an unchanged prefix of its history,
    the turns added are user and assistant turns only, and its start time,
    call identifier, tenant identifier and caller are unchanged. *)
Theorem history_is_append_only env evs w k s ex :
  redis w !! k = Some (RString (DSession s) ex) ->
  exists s' ex' l,
    redis (snd (run_speech env evs w)) !! k = Some (RString (DSession s') ex') /\
    messages s' = (messages s ++ l)%list /\
    system_turns l = 0%nat /\
    startTime s' = startTime s /\
    callSid s' = callSid s /\
    tenantId s' = tenantId s /\
    from s' = from s.
Proof.
  intros Hk.
  destruct (run_steps env evs w k s ex Hk)
    as (s' & ex' & l & H1 & Hm & (Ha & Hb & Hc & Hd) & Hsys & _).
  exists s', ex', l. by auto 10.
Qed.

Lemma history_is_append_only_witness :
  exists s' ex' l,
    redis (snd (run_speech Scenario.env
                  [Scenario.question;
                   (Scenario.outside (Scenario.t0 + 9000) "info",
                    Scenario.request (Some "operator please"))]
                  Scenario.started)) !! Scenario.key =
      Some (RString (DSession s') ex') /\
    messages s' = (messages (Scenario.session_in Scenario.started) ++ l)%list /\
    system_turns l = 0%nat /\
    startTime s' = startTime (Scenario.session_in Scenario.started) /\
    callSid s' = callSid (Scenario.session_in Scenario.started) /\
    tenantId s' = tenantId (Scenario.session_in Scenario.started) /\
    from s' = from (Scenario.session_in Scenario.started).
Proof.
  apply (history_is_append_only Scenario.env _ Scenario.started Scenario.key
           (Scenario.session_in Scenario.started) (Some 3600)).
  vm_compute. reflexivity.
Defined.

(** X4: from its creation on, a session has exactly one system turn and it
    is the first of its history: the prompt built from the tenant's
    configuration when the call was answered, whatever speech events
    follow. *)
Theorem system_turn_stays_first env o rq w tenant evs :
  getTenantConfig env (To rq) w = (Done tenant, w) ->
  exists s' ex' l,
    redis (snd (run_speech env evs (snd (incoming_call env o rq w))))
      !! sessionKey (To rq) (CallSid rq) = Some (RString (DSession s') ex') /\
    messages s' = {| role := system; content := system_prompt tenant |} :: l /\
    system_turns (messages s') = 1%nat.
Proof.
  intros Hc. destruct (incoming_stored env o rq w tenant Hc) as [Hw1 _].
  assert (H1 : redis (snd (incoming_call env o rq w)) !! sessionKey (To rq) (CallSid rq) =
               Some (RString (DSession (new_session rq (clock o 0) tenant)) (Some 3600))).
  { rewrite Hw1. apply lookup_insert_eq. }
  destruct (run_steps env evs _ _ _ _ H1) as (s' & ex' & l & H2 & Hm & _ & Hsys & _).
  exists s', ex', l. split; [done|]. split; [done|].
  rewrite Hm. change (messages (new_session rq (clock o 0) tenant) ++ l)%list
    with ([ {| role := system; content := system_prompt tenant |} ] ++ l)%list.
  by rewrite system_turns_app, Hsys.
Qed.

Lemma system_turn_stays_first_witness :
  exists s' ex' l,
    redis (snd (run_speech Scenario.env (repeat Scenario.question 3)
                  (snd (incoming_call Scenario.env (Scenario.outside Scenario.t0 "info")
                          (Scenario.request None) Scenario.empty))))
      !! Scenario.key = Some (RString (DSession s') ex') /\
    messages s' =
      {| role := system; content := system_prompt (default_tenant Scenario.env) |} :: l /\
    system_turns (messages s') = 1%nat.
Proof.
  apply (system_turn_stays_first Scenario.env (Scenario.outside Scenario.t0 "info")
           (Scenario.request None) Scenario.empty (default_tenant Scenario.env)
           (repeat Scenario.question 3)).
  vm_compute. reflexivity.
Defined.

(** X5: the turn budget bounds the history.  A session whose history has
    at most 2 * MAX_CALL_TURNS + 2 turns keeps that bound through any
    sequence of speech events: an event is let through only with at most
    2 * MAX_CALL_TURNS turns recorded, and adds at most two.  With the
    default of 20 a session never holds more than 42 turns. *)
Theorem history_is_bounded env evs w k s ex :
  redis w !! k = Some (RString (DSession s) ex) ->
  Z.of_nat (length (messages s)) <= 2 * number_or (MAX_CALL_TURNS env) 20 + 2 ->
  exists s' ex',
    redis (snd (run_speech env evs w)) !! k = Some (RString (DSession s') ex') /\
    Z.of_nat (length (messages s')) <= 2 * number_or (MAX_CALL_TURNS env) 20 + 2.
Proof.
  intros Hk Hlen.
  destruct (run_steps env evs w k s ex Hk) as (s' & ex' & l & H1 & _ & _ & _ & Hb).
  exists s', ex'. auto.
Qed.

Lemma history_is_bounded_witness :
  exists s' ex',
    redis (snd (run_speech Scenario.env (repeat Scenario.question 30) Scenario.started))
      !! Scenario.key = Some (RString (DSession s') ex') /\
    Z.of_nat (length (messages s')) <= 42.
Proof.
  apply (history_is_bounded Scenario.env (repeat Scenario.question 30) Scenario.started
           Scenario.key (Scenario.session_in Scenario.started) (Some 3600)).
  - vm_compute. reflexivity.
  - vm_compute. congruence.
Defined.

(** The bound is reached: a transfer request followed by twenty answered
    questions leaves 42 turns. *)
Example history_bound_is_tight :
  length (messages (Scenario.session_in
            (snd (run_speech Scenario.env (repeat Scenario.question 25)
                    Scenario.transferred)))) = 42%nat.
Proof. vm_compute. reflexivity. Qed.

(** ** Footprints *)

(** X6: a speech event touches at most one key of the store and at most
    one audio file.  Every key other than the session key of its call keeps
    its value; the session key keeps its value or ends up holding a session
    with a time-to-live of 3600 seconds, and is never deleted; an audio
    file is written only when the response plays it. *)
Theorem speech_event_footprint env o rq w :
  let r := fst (process_speech env o rq w) in
  let w' := snd (process_speech env o rq w) in
  let key := sessionKey (To rq) (CallSid rq) in
  (forall k, k <> key -> redis w' !! k = redis w !! k) /\
  (redis w' !! key = redis w !! key \/
   exists s', redis w' !! key = Some (RString (DSession s') (Some 3600))) /\
  (audio w' = audio w \/
   exists buffer,
     audio w' = <[reply_file o rq := buffer]> (audio w) /\
     r = Done (play_then_gather rq (reply_file o rq))).
Proof.
  cbv zeta.
  pose proof (speech_path_holds env o rq w) as P.
  destruct (process_speech env o rq w) as [r w']. cbn [fst snd] in *.
  destruct P as [H0|t a ex0 H0|h H0|s0 ex0 H0 Ht|s0 ex0 H0 Ht Hd|s0 ex0 e H0 Ht Hd Hc
                |s0 ex0 tenant H0 Ht Hd Hc Hh|s0 ex0 tenant e w1 H0 Ht Hd Hc Hh Hi
                |s0 ex0 tenant s1 w1 H0 Ht Hd Hc Hh Hi Hrep
                |s0 ex0 tenant s1 w1 reply H0 Ht Hd Hc Hh Hi Hrep Htts
                |s0 ex0 tenant s1 w1 reply fetched H0 Ht Hd Hc Hh Hi Hrep Htts Hfs
                |s0 ex0 tenant s1 w1 reply fetched H0 Ht Hd Hc Hh Hi Hrep Htts Hfs];
    try (by auto).
  - split; [|split; [|by left]].
    + intros k Hne. cbn. by rewrite lookup_insert_ne.
    + right. eexists. cbn. apply lookup_insert_eq.
  - split; [|split; [|by left]].
    + intros k Hne. cbn. by rewrite lookup_insert_ne.
    + right. eexists. cbn. apply lookup_insert_eq.
  - split; [|split; [|by left]].
    + intros k Hne. cbn. by rewrite lookup_insert_ne.
    + right. eexists. cbn. apply lookup_insert_eq.
  - destruct (detect_intent_rejects _ _ _ _ _ _ Hi) as [Hr Ha].
    rewrite Hr, Ha. auto.
  - destruct (detect_intent_shape _ _ _ _ _ _ Hi) as (Hr & Ha & _).
    cbn. rewrite Hr, Ha. auto.
  - destruct (detect_intent_shape _ _ _ _ _ _ Hi) as (Hr & Ha & _).
    cbn. rewrite Hr, Ha. split; [|split; [|by left]].
    + intros k Hne. by rewrite lookup_insert_ne.
    + right. eexists. apply lookup_insert_eq.
  - destruct (detect_intent_shape _ _ _ _ _ _ Hi) as (Hr & Ha & _).
    cbn. rewrite Hr, Ha. split; [|split].
    + intros k Hne. by rewrite lookup_insert_ne.
    + right. eexists. apply lookup_insert_eq.
    + right. by exists (body fetched).
  - destruct (detect_intent_shape _ _ _ _ _ _ Hi) as (Hr & Ha & _).
    cbn. rewrite Hr, Ha. split; [|split; [|by left]].
    + intros k Hne. by rewrite lookup_insert_ne.
    + right. eexists. apply lookup_insert_eq.
Qed.

(** X7: within its budgets a call is never cut off.  A speech event that
    finds at most 2 * MAX_CALL_TURNS turns recorded and arrives at most
    MAX_CALL_DURATION_SEC seconds after the start (both bounds included)
    is never answered with a closing line, and leaves [resolvedBy] as it
    was unless it is a transfer, which sets "HUMAN". *)
Theorem within_budgets_no_cutoff env o rq w s ex :
  redis w !! sessionKey (To rq) (CallSid rq) = Some (RString (DSession s) ex) ->
  Z.of_nat (length (messages s)) <= 2 * number_or (MAX_CALL_TURNS env) 20 ->
  clock o 0 - startTime s <= 1000 * number_or (MAX_CALL_DURATION_SEC env) 900 ->
  (forall text, fst (process_speech env o rq w) <> Done (twiml [Say text])) /\
  exists s' ex',
    redis (snd (process_speech env o rq w)) !! sessionKey (To rq) (CallSid rq) =
      Some (RString (DSession s') ex') /\
    (resolvedBy s' = resolvedBy s \/
     resolvedBy s' = "HUMAN" /\ has_dial (fst (process_speech env o rq w)) = true).
Proof.
  intros Hk Hlen Hclock.
  assert (Ht' : over_turns env s = false).
  { destruct (over_turns env s) eqn:E; [|done]. apply over_turns_iff in E. lia. }
  assert (Hd' : over_time env (clock o 0) s = false).
  { destruct (over_time env (clock o 0) s) eqn:E; [|done]. apply over_time_iff in E. lia. }
  pose proof (speech_path_holds env o rq w) as P.
  destruct (process_speech env o rq w) as [r w']. cbn [fst snd] in *.
  destruct P as [H0|t a ex0 H0|h H0|s0 ex0 H0 Ht|s0 ex0 H0 Ht Hd|s0 ex0 e H0 Ht Hd Hc
                |s0 ex0 tenant H0 Ht Hd Hc Hh|s0 ex0 tenant e w1 H0 Ht Hd Hc Hh Hi
                |s0 ex0 tenant s1 w1 H0 Ht Hd Hc Hh Hi Hrep
                |s0 ex0 tenant s1 w1 reply H0 Ht Hd Hc Hh Hi Hrep Htts
                |s0 ex0 tenant s1 w1 reply fetched H0 Ht Hd Hc Hh Hi Hrep Htts Hfs
                |s0 ex0 tenant s1 w1 reply fetched H0 Ht Hd Hc Hh Hi Hrep Htts Hfs];
    rewrite Hk in H0; try discriminate H0; injection H0 as <- <-; try congruence.
  - split; [done|]. exists s, ex. auto.
  - split; [done|]. eexists _, _. cbn. rewrite lookup_insert_eq. split; [done|]. by right.
  - split; [done|]. exists s, ex.
    destruct (detect_intent_rejects _ _ _ _ _ _ Hi) as [Hr _]. rewrite Hr. auto.
  - split; [done|]. exists s, ex.
    destruct (detect_intent_shape _ _ _ _ _ _ Hi) as (Hr & _). cbn. rewrite Hr. auto.
  - split; [done|]. destruct (detect_intent_shape _ _ _ _ _ _ Hi) as (Hr & _ & Hs1).
    eexists _, _. cbn. rewrite lookup_insert_eq. split; [done|]. left.
    by destruct Hs1 as [->|(c & _ & ->)].
  - split; [done|]. destruct (detect_intent_shape _ _ _ _ _ _ Hi) as (Hr & _ & Hs1).
    eexists _, _. cbn. rewrite lookup_insert_eq. split; [done|]. left.
    by destruct Hs1 as [->|(c & _ & ->)].
  - split; [done|]. destruct (detect_intent_shape _ _ _ _ _ _ Hi) as (Hr & _ & Hs1).
    eexists _, _. cbn. rewrite lookup_insert_eq. split; [done|]. left.
    by destruct Hs1 as [->|(c & _ & ->)].
Qed.

Lemma within_budgets_no_cutoff_witness :
  let o := Scenario.outside (Scenario.t0 + 900000) "info" in
  let rq := Scenario.request (Some "Are you still there?") in
  clock o 0 - startTime (Scenario.session_in Scenario.started) = 1000 * 900 /\
  forall text, fst (process_speech Scenario.env o rq Scenario.started) <> Done (twiml [Say text]).
Proof.
  intros o rq. split; [reflexivity|].
  pose proof (within_budgets_no_cutoff Scenario.env o rq Scenario.started
                (Scenario.session_in Scenario.started) (Some 3600)) as H.
  destruct H as [H _].
  - vm_compute. reflexivity.
  - vm_compute. congruence.
  - vm_compute. congruence.
  - exact H.
Defined.

(** X8: a termination event touches at most four keys of the store: the
    session key and the log key of its call and the two daily analytics
    keys of its tenant.  Every other key keeps its value, whether the
    handler settles or rejects; no provider is called and no audio file is
    written. *)
Theorem call_ended_footprint o rq w :
  let w' := snd (call_ended o rq w) in
  (forall k,
     k <> sessionKey (To rq) (CallSid rq) ->
     k <> logKey (To rq) (CallSid rq) ->
     k <> analyticsKey (To rq) (clock o 2) ->
     k <> analyticsKey (To rq) (clock o 3) ->
     redis w' !! k = redis w !! k) /\
  audio w' = audio w /\
  calls w' = calls w.
Proof.
  cbv zeta. destruct (call_ended o rq w) as [r w'] eqn:E. cbn [snd]. revert E.
  unfold call_ended, bind, redis_get; cbv zeta.
  destruct (redis w !! sessionKey (To rq) (CallSid rq)) as [[d ex|h]|];
    [|by intros [= <- <-]..].
  unfold redis_set.
  set (w1 := with_redis _ w).
  unfold redis_hincrby at 1.
  destruct (redis w1 !! analyticsKey (To rq) (clock o 2)) as [[d2 ex2|h2]|] eqn:E2.
  - intros [= <- <-]. split; [|done]. intros k _ Hl _ _. cbn. by rewrite lookup_insert_ne.
  - set (w2 := with_redis _ w1). unfold redis_hincrby.
    destruct (redis w2 !! analyticsKey (To rq) (clock o 3)) as [[d3 ex3|h3]|] eqn:E3;
      intros [= <- <-]; (split; [|done]); intros k Hs Hl Ht Ho; cbn;
      by rewrite ?lookup_delete_ne, !lookup_insert_ne.
  - set (w2 := with_redis _ w1). unfold redis_hincrby.
    destruct (redis w2 !! analyticsKey (To rq) (clock o 3)) as [[d3 ex3|h3]|] eqn:E3;
      intros [= <- <-]; (split; [|done]); intros k Hs Hl Ht Ho; cbn;
      by rewrite ?lookup_delete_ne, !lookup_insert_ne.
Qed.

(** ** The archived log *)

(** X9: a successful finalization archives a snapshot of the session under
    the log key, without expiry: the history, intent, outcome, start time
    and identifiers are those of the live session, [endedAt] is the ISO
    time of the clock, and [durationSec] is the number of whole seconds
    between the start of the call and its end.  The live session is gone. *)
Theorem call_log_is_a_snapshot o rq w s ex :
  redis w !! sessionKey (To rq) (CallSid rq) = Some (RString (DSession s) ex) ->
  holds_string w (analyticsKey (To rq) (clock o 2)) = false ->
  holds_string w (analyticsKey (To rq) (clock o 3)) = false ->
  let w' := snd (call_ended o rq w) in
  redis w' !! sessionKey (To rq) (CallSid rq) = None /\
  exists a d,
    redis w' !! logKey (To rq) (CallSid rq) = Some (RString (DSession a) None) /\
    messages a = messages s /\ intent a = intent s /\ resolvedBy a = resolvedBy s /\
    startTime a = startTime s /\ callSid a = callSid s /\ tenantId a = tenantId s /\
    from a = from s /\
    endedAt a = Some (Js.toISOString (clock o 1)) /\
    durationSec a = Some d /\
    1000 * d <= clock o 0 - startTime s < 1000 * d + 1000.
Proof.
  intros Hk Htot Hout. cbv zeta. split.
  - apply (ended_session_gone o rq w s ex Hk Htot Hout).
  - exists (archived o s), ((clock o 0 - startTime s) / 1000).
    split; [apply (ended_logged o rq w s ex Hk Htot Hout)|].
    repeat (split; [done|]).
    pose proof (Z.div_mod (clock o 0 - startTime s) 1000 ltac:(lia)) as Hdm.
    pose proof (Z.mod_pos_bound (clock o 0 - startTime s) 1000 ltac:(lia)) as Hb.
    lia.
Qed.

Lemma call_log_is_a_snapshot_witness :
  let w' := snd (call_ended More.hang_up (Scenario.request None) Scenario.transferred) in
  redis w' !! Scenario.key = None /\
  exists a d,
    redis w' !! logKey (Some "+15550001") (Some "CA1") = Some (RString (DSession a) None) /\
    messages a = messages (Scenario.session_in Scenario.transferred) /\
    resolvedBy a = "HUMAN" /\
    endedAt a = Some "2026-11-02T00:01:30.501Z" /\
    durationSec a = Some d /\ 1000 * d <= 90500 < 1000 * d + 1000.
Proof.
  intros w'.
  pose proof (call_log_is_a_snapshot More.hang_up (Scenario.request None)
                Scenario.transferred (Scenario.session_in Scenario.transferred)
                (Some 3600)) as H.
  destruct H as (H1 & a & d & H2 & H3 & _ & H4 & _ & _ & _ & _ & H5 & H6 & H7);
    [vm_compute; reflexivity..|].
  split; [exact H1|]. exists a, d.
  split; [exact H2|]. split; [exact H3|]. split; [exact H4|].
  split; [exact H5|]. split; [exact H6|exact H7].
Defined.

(** X10: finalization is not atomic.  When the daily analytics key of the
    tenant holds a string value, the handler rejects with the store's
    WRONGTYPE error after the log has been written: the live session is
    still stored, no counter has changed, and the call is not deleted. *)
Theorem finalization_stops_at_a_bad_counter o rq w s ex :
  redis w !! sessionKey (To rq) (CallSid rq) = Some (RString (DSession s) ex) ->
  holds_string w (analyticsKey (To rq) (clock o 2)) = true ->
  call_ended o rq w =
    (Rejected WRONGTYPE,
     with_redis <[logKey (To rq) (CallSid rq) := RString (DSession (archived o s)) None]> w) /\
  redis (snd (call_ended o rq w)) !! sessionKey (To rq) (CallSid rq) =
    Some (RString (DSession s) ex) /\
  forall k f, counter (snd (call_ended o rq w)) k f =
              if bool_decide (k = logKey (To rq) (CallSid rq)) then 0 else counter w k f.
Proof.
  intros Hk Hbad.
  assert (E : call_ended o rq w =
    (Rejected WRONGTYPE,
     with_redis <[logKey (To rq) (CallSid rq) := RString (DSession (archived o s)) None]> w)).
  { unfold call_ended, bind; cbv zeta. rewrite (redis_get_string _ _ _ _ Hk).
    unfold redis_set, redis_hincrby at 1. cbn [redis with_redis].
    rewrite lookup_insert_ne by (intros H; symmetry in H; revert H; apply analyticsKey_logKey).
    unfold holds_string in Hbad.
    by destruct (redis w !! analyticsKey (To rq) (clock o 2)) as [[d2 ex2|h2]|]. }
  rewrite E. cbn [snd]. split; [done|]. split.
  - cbn. rewrite lookup_insert_ne; [done|].
    intros H; symmetry in H; revert H. apply sessionKey_logKey.
  - intros k f. apply counter_insert_string.
Qed.

Lemma finalization_stops_at_a_bad_counter_witness :
  fst (call_ended More.hang_up (Scenario.request None) More.blocked) = Rejected WRONGTYPE /\
  redis (snd (call_ended More.hang_up (Scenario.request None) More.blocked))
    !! Scenario.key = redis More.blocked !! Scenario.key.
Proof.
  pose proof (finalization_stops_at_a_bad_counter More.hang_up (Scenario.request None)
                More.blocked (Scenario.session_in More.blocked) (Some 3600)) as H.
  destruct H as (H1 & H2 & _); [vm_compute; reflexivity..|].
  split.
  - rewrite H1. reflexivity.
  - etransitivity; [exact H2|]. vm_compute. reflexivity.
Defined.

(** ** The daily analytics key *)

Lemma append_cons c (a b : string) : String c a +:+ b = String c (a +:+ b).
Proof. done. Qed.

Lemma append_assoc (a b c : string) : (a +:+ b) +:+ c = a +:+ b +:+ c.
Proof. induction a as [|x a IH]; [done|]. by rewrite !append_cons, IH. Qed.

Lemma slice0_append n (a b : string) :
  (n <= String.length a)%nat -> Js.slice0 n (a +:+ b) = Js.slice0 n a.
Proof.
  revert a. induction n as [|n IH]; intros [|c a] H; cbn in H; try done; try lia.
  rewrite append_cons. cbn [Js.slice0]. rewrite IH; [done|lia].
Qed.

Lemma length_zeros w : String.length (Js.zeros w) = w.
Proof.
  induction w as [|w IH]; [done|].
  change (Js.zeros (S w)) with (String "0" (Js.zeros w)). cbn. by rewrite IH.
Qed.

Lemma length_pad w n : (w <= String.length (Js.pad w n))%nat.
Proof. unfold Js.pad. rewrite length_append, length_zeros. lia. Qed.

Lemma length_year_text y : (4 <= String.length (Js.year_text y))%nat.
Proof.
  unfold Js.year_text. pose proof (length_pad 4 y). pose proof (length_pad 6 y).
  pose proof (length_pad 6 (- y)).
  destruct (_ && _); [done|].
  destruct (y <? 0); rewrite length_append; cbn [String.length]; lia.
Qed.

(** X11: the daily analytics key depends on the clock through the UTC day
    only: two finalizations of the same tenant on the same UTC day count
    under the same key, whatever the time of day. *)
Theorem same_day_same_analytics_key (tid : option string) (now1 now2 : Z) :
  now1 / 86400000 = now2 / 86400000 ->
  analyticsKey tid now1 = analyticsKey tid now2.
Proof.
  intros Hday. unfold analyticsKey. do 3 f_equal.
  unfold Js.toISOString. rewrite Hday.
  destruct (Js.civil (now2 / 86400000)) as [[y m] d].
  set (date := Js.year_text y +:+ "-" +:+ Js.pad 2 m +:+ "-" +:+ Js.pad 2 d).
  assert (Hlen : (10 <= String.length date)%nat).
  { unfold date. rewrite !length_append. simpl.
    pose proof (length_year_text y). pose proof (length_pad 2 m).
    pose proof (length_pad 2 d). lia. }
  assert (Hsplit : forall rest,
            Js.year_text y +:+ "-" +:+ Js.pad 2 m +:+ "-" +:+ Js.pad 2 d +:+ rest =
            date +:+ rest).
  { intros rest. unfold date. by rewrite !append_assoc. }
  by rewrite !Hsplit, !slice0_append.
Qed.

Lemma same_day_same_analytics_key_witness :
  analyticsKey (Some "+15550001") Scenario.t0 =
  analyticsKey (Some "+15550001") (Scenario.t0 + 86399999).
Proof.
  apply (same_day_same_analytics_key (Some "+15550001") Scenario.t0
           (Scenario.t0 + 86399999)).
  reflexivity.
Defined.

(** One millisecond later the day, and with it the key, has changed. *)
Example next_day_next_analytics_key :
  analyticsKey (Some "+15550001") Scenario.t0 = "tenant:+15550001:analytics:daily:2026-11-02" /\
  analyticsKey (Some "+15550001") (Scenario.t0 + 86400000) =
    "tenant:+15550001:analytics:daily:2026-11-03".
Proof. vm_compute. done. Qed.

(** ** Keywords *)

Lemma toLowerCase_app (a b : string) :
  Js.toLowerCase (a +:+ b) = Js.toLowerCase a +:+ Js.toLowerCase b.
Proof.
  induction a as [|c a IH]; [done|].
  rewrite append_cons. cbn [Js.toLowerCase]. by rewrite append_cons, IH.
Qed.

Lemma startsWith_app (k s : string) : Js.startsWith (k +:+ s) k = true.
Proof.
  induction k as [|c k IH]; [apply startsWith_empty|].
  rewrite append_cons. cbn [Js.startsWith]. by destruct (ascii_dec c c).
Qed.

Lemma includes_prefix (k s : string) : Js.includes (k +:+ s) k = true.
Proof.
  destruct (k +:+ s) as [|c r] eqn:E.
  - destruct k; [done|discriminate E].
  - rewrite includes_cons, <- E, startsWith_app. done.
Qed.

(** X12: the transfer test is a case-insensitive substring match.  For a
    tenant with transfer enabled, an utterance that contains a keyword
    anywhere, in any mix of upper and lower case, asks for a human; with
    transfer disabled no utterance does. *)
Theorem keyword_match_ignores_case (tenant : Tenant) (a K b k : string) :
  In k keywords ->
  Js.toLowerCase K = k ->
  wants_human tenant (Js.toLowerCase (a +:+ K +:+ b)) = enableHumanTransfer tenant.
Proof.
  intros Hin HK. unfold wants_human.
  destruct (enableHumanTransfer tenant); [|done]. cbn [andb].
  apply existsb_exists. exists k. split; [done|].
  rewrite !toLowerCase_app, HK.
  apply includes_app_r, includes_prefix.
Qed.

Lemma keyword_match_ignores_case_witness :
  wants_human (default_tenant Scenario.env)
    (Js.toLowerCase ("Could I speak to an " +:+ "OpErAtOr" +:+ ", please?")) = true.
Proof.
  apply (keyword_match_ignores_case (default_tenant Scenario.env)
           "Could I speak to an " "OpErAtOr" ", please?" "operator").
  - right. right. right. left. reflexivity.
  - reflexivity.
Defined.

(** The match is on substrings, not on words. *)
Example keyword_inside_a_word :
  wants_human (default_tenant Scenario.env)
    (Js.toLowerCase "It is a personal matter") = true.
Proof. reflexivity. Qed.

(** ** Silence *)

Lemma nobody_wanted tenant : wants_human tenant (Js.toLowerCase "") = false.
Proof. unfold wants_human. by destruct (enableHumanTransfer tenant). Qed.

(** X13: an empty speech result is a turn like any other.  When the
    request has no [SpeechResult], or an empty one, the utterance is the
    empty string: it never asks for a human, it is put to the language
    model as an empty user turn, and with the reply it is appended to the
    history; [resolvedBy] is unchanged. *)
Theorem silent_turn_is_a_turn env o rq w s ex tenant reply :
  SpeechResult rq = None \/ SpeechResult rq = Some "" ->
  redis w !! sessionKey (To rq) (CallSid rq) = Some (RString (DSession s) ex) ->
  over_turns env s = false ->
  over_time env (clock o 0) s = false ->
  getTenantConfig env (To rq) w = (Done tenant, w) ->
  Js.truthy (intent s) = true \/ chat_intent o "" <> None ->
  chat_reply o (messages s ++ [ {| role := user; content := "" |} ])%list = Some reply ->
  has_dial (fst (process_speech env o rq w)) = false /\
  In (ChatReply (messages s ++ [ {| role := user; content := "" |} ])%list)
     (calls (snd (process_speech env o rq w))) /\
  exists s',
    redis (snd (process_speech env o rq w)) !! sessionKey (To rq) (CallSid rq) =
      Some (RString (DSession s') (Some 3600)) /\
    messages s' = (messages s ++ [ {| role := user; content := "" |};
                                   {| role := assistant; content := reply |} ])%list /\
    resolvedBy s' = resolvedBy s.
Proof.
  intros Hsil Hk Ht Hd Hc Hcls Hrep.
  assert (Hu : Js.or_else (SpeechResult rq) "" = "") by (by destruct Hsil as [-> | ->]).
  assert (Hh : wants_human tenant (Js.toLowerCase (Js.or_else (SpeechResult rq) "")) = false)
    by (rewrite Hu; apply nobody_wanted).
  destruct (detect_intent o (Js.or_else (SpeechResult rq) "")
              (push {| role := user; content := Js.or_else (SpeechResult rq) "" |} s) w)
    as [[s1|e] w1] eqn:Hi.
  2: { exfalso. destruct (detect_intent_frame _ _ _ _ _ _ Hi) as (_ & _ & Hw & _ & He).
       destruct (He _ eq_refl) as [_ Hnone]. rewrite Hu in Hnone.
       destruct Hcls as [Htr|Hsome]; [|done].
       revert Hi. unfold detect_intent. cbn [intent push]. by rewrite Htr. }
  destruct (detect_intent_frame _ _ _ _ _ _ Hi) as (Hr & _ & Hw & Hs1 & _).
  destruct (Hs1 _ eq_refl) as (Hm & _ & Hres & _).
  assert (Hm' : messages s1 = (messages s ++ [ {| role := user; content := "" |} ])%list)
    by (rewrite Hm, Hu; done).
  rewrite <- Hm' in Hrep.
  assert (Hlog : In (ChatReply (messages s1)) (calls (log_call (ChatReply (messages s1)) w1))).
  { cbn. apply in_or_app. right. by left. }
  destruct (tts o reply) as [fetched|] eqn:Htts;
    [destruct (fs_accepts o (reply_file o rq)) eqn:Hfs|].
  - rewrite (speech_reply_ok env o rq w s ex tenant Hk Ht Hd Hc _ _ _ _ Hh Hi Hrep Htts Hfs).
    cbn [fst snd]. split; [done|]. split.
    + rewrite <- Hm'. cbn. apply in_or_app. left. exact Hlog.
    + exists (push {| role := assistant; content := reply |} s1). cbn.
      rewrite lookup_insert_eq, Hm', <- app_assoc, Hres. done.
  - rewrite (speech_write_fails env o rq w s ex tenant Hk Ht Hd Hc _ _ _ _ Hh Hi Hrep Htts Hfs).
    cbn [fst snd]. split; [done|]. split.
    + rewrite <- Hm'. cbn. apply in_or_app. left. exact Hlog.
    + exists (push {| role := assistant; content := reply |} s1). cbn.
      rewrite lookup_insert_eq, Hm', <- app_assoc, Hres. done.
  - rewrite (speech_tts_fails env o rq w s ex tenant Hk Ht Hd Hc _ _ _ Hh Hi Hrep Htts).
    cbn [fst snd]. split; [done|]. split.
    + rewrite <- Hm'. cbn. apply in_or_app. left. exact Hlog.
    + exists (push {| role := assistant; content := reply |} s1). cbn.
      rewrite lookup_insert_eq, Hm', <- app_assoc, Hres. done.
Qed.

Lemma silent_turn_is_a_turn_witness :
  let o := Scenario.outside (Scenario.t0 + 5000) "unknown" in
  has_dial (fst (process_speech Scenario.env o More.silence Scenario.started)) = false /\
  exists s',
    redis (snd (process_speech Scenario.env o More.silence Scenario.started))
      !! Scenario.key = Some (RString (DSession s') (Some 3600)) /\
    messages s' =
      (messages (Scenario.session_in Scenario.started) ++
       [ {| role := user; content := "" |};
         {| role := assistant; content := "We open at 10 AM." |} ])%list /\
    resolvedBy s' = "AI".
Proof.
  intros o.
  pose proof (silent_turn_is_a_turn Scenario.env o More.silence Scenario.started
                (Scenario.session_in Scenario.started) (Some 3600)
                (default_tenant Scenario.env) "We open at 10 AM.") as H.
  destruct H as (H1 & _ & H2).
  - right. reflexivity.
  - vm_compute. reflexivity.
  - vm_compute. reflexivity.
  - vm_compute. reflexivity.
  - vm_compute. reflexivity.
  - right. vm_compute. congruence.
  - reflexivity.
  - split; [exact H1|exact H2].
Defined.

(** ** Unknown tenants *)

(** X15: a tenant without stored configuration gets the defaults, in which
    transfer is enabled and the human agent is [HUMAN_AGENT_NUMBER] of the
    process environment: a transfer request dials that number, and the
    text "undefined" when the variable is not set. *)
Theorem unknown_tenant_dials_the_default_agent env o rq w s ex :
  redis w !! tenantKey (To rq) = None ->
  redis w !! sessionKey (To rq) (CallSid rq) = Some (RString (DSession s) ex) ->
  over_turns env s = false ->
  over_time env (clock o 0) s = false ->
  existsb (fun k => Js.includes (Js.toLowerCase (Js.or_else (SpeechResult rq) "")) k)
          keywords = true ->
  fst (process_speech env o rq w) =
    Done (twiml [Play hold_text; Dial (Js.show (HUMAN_AGENT_NUMBER env))]).
Proof.
  intros Hcfg Hk Ht Hd Hkw.
  pose proof (getTenantConfig_default env (To rq) w Hcfg) as Hc.
  assert (Hh : wants_human (default_tenant env)
                 (Js.toLowerCase (Js.or_else (SpeechResult rq) "")) = true)
    by (unfold wants_human; by rewrite Hkw).
  by rewrite (speech_transfer env o rq w s ex _ Hk Ht Hd Hc Hh).
Qed.

Lemma unknown_tenant_dials_the_default_agent_witness :
  fst (process_speech More.bare_env (Scenario.outside (Scenario.t0 + 5000) "info")
         (Scenario.request (Some "A real person, please")) Scenario.started) =
  Done (twiml [Play hold_text; Dial "undefined"]).
Proof.
  apply (unknown_tenant_dials_the_default_agent More.bare_env
           (Scenario.outside (Scenario.t0 + 5000) "info")
           (Scenario.request (Some "A real person, please")) Scenario.started
           (Scenario.session_in Scenario.started) (Some 3600));
    vm_compute; reflexivity.
Defined.

(** ** Call initiation, in full *)

Lemma incoming_call_eq env o rq w tenant :
  getTenantConfig env (To rq) w = (Done tenant, w) ->
  incoming_call env o rq w =
    let file := welcome_file rq in
    let w1 :=
      log_call (Speech (welcome_text tenant))
        (with_redis <[sessionKey (To rq) (CallSid rq) :=
                        RString (DSession (new_session rq (clock o 0) tenant)) (Some 3600)]>
           w) in
    match tts o (welcome_text tenant) with
    | Some fetched =>
        if fs_accepts o file
        then (Done (play_then_gather rq file), with_audio <[file := body fetched]> w1)
        else (Rejected FsError, w1)
    | None => (Rejected ProviderError, w1)
    end.
Proof.
  intros Hc. unfold incoming_call, bind. rewrite Hc.
  unfold redis_set, generateSpeech, bind, call_provider, writeFileSync.
  cbv zeta. fold (welcome_file rq).
  destruct (tts o (welcome_text tenant)); [|done].
  by destruct (fs_accepts o (welcome_file rq)).
Qed.

Lemma tenantKey_sessionKey tid sid : tenantKey tid <> sessionKey tid sid.
Proof. key_neq. Qed.

Lemma getTenantConfig_agrees env tid w w' tenant :
  redis w' !! tenantKey tid = redis w !! tenantKey tid ->
  getTenantConfig env tid w = (Done tenant, w) ->
  getTenantConfig env tid w' = (Done tenant, w').
Proof.
  unfold getTenantConfig, bind, redis_get. intros ->.
  destruct (redis w !! tenantKey tid) as [[d ex|h]|]; by intros [= <-].
Qed.

Lemma includes_slash_app (a b : string) :
  Js.includes (a +:+ b) "/" = Js.includes a "/" || Js.includes b "/".
Proof.
  induction a as [|c a IH]; [done|].
  rewrite append_cons, !includes_cons, IH. cbn [Js.startsWith].
  destruct (ascii_dec "/" c); [|done]. by rewrite !startsWith_empty.
Qed.

Lemma basename_of_file (dir name : string) :
  slash_free name = true -> Js.basename (dir +:+ "/" +:+ name) = name.
Proof.
  unfold slash_free. intros Hn%negb_true_iff.
  induction dir as [|c dir IH].
  - change ("" +:+ "/" +:+ name) with (String "/" name). cbn [Js.basename].
    rewrite Hn. by destruct (ascii_dec "/" "/").
  - rewrite append_cons. cbn [Js.basename].
    rewrite includes_slash_app, (includes_prefix "/" name), orb_true_r. exact IH.
Qed.

(** X14: the welcome that is played is the one that was received.  For a
    call identifier without slash, when the speech request resolves, the
    initiation handler writes the body it received to
    ./audio/<CallSid>-welcome.mp3 and answers with a response that plays
    <protocol>://<host>/audio/<CallSid>-welcome.mp3 and then gathers
    speech for /process-speech; when the file system refuses the file, the
    handler rejects instead and no file is written.  The speech endpoint is
    asked once, for the welcome text. *)
Theorem welcome_audio_is_played env o rq w tenant sid fetched :
  CallSid rq = Some sid ->
  slash_free sid = true ->
  getTenantConfig env (To rq) w = (Done tenant, w) ->
  tts o (welcome_text tenant) = Some fetched ->
  let file := "./audio/" +:+ sid +:+ "-welcome.mp3" in
  (if fs_accepts o file then
     fst (incoming_call env o rq w) =
       Done (twiml [Play (protocol rq +:+ "://" +:+ Js.show (host rq) +:+ "/audio/" +:+
                          sid +:+ "-welcome.mp3");
                    Gather "speech" "/process-speech" "POST" "5"]) /\
     audio (snd (incoming_call env o rq w)) !! file = Some (body fetched)
   else
     fst (incoming_call env o rq w) = Rejected FsError /\
     audio (snd (incoming_call env o rq w)) = audio w) /\
  calls (snd (incoming_call env o rq w)) = (calls w ++ [Speech (welcome_text tenant)])%list.
Proof.
  intros Hsid Hfree Hc Htts file.
  rewrite (incoming_call_eq env o rq w tenant Hc). cbv zeta.
  rewrite Htts. unfold welcome_file. rewrite Hsid. cbn [Js.show].
  change (AUDIO_DIR +:+ "/" +:+ sid +:+ "-welcome.mp3") with file.
  destruct (fs_accepts o file); [|done].
  cbn [fst snd]. split; [|done]. split.
  - unfold play_then_gather, file.
    change ("./audio/" +:+ sid +:+ "-welcome.mp3")
      with ("./audio" +:+ "/" +:+ (sid +:+ "-welcome.mp3")).
    rewrite basename_of_file; [done|].
    unfold slash_free in *. rewrite includes_slash_app.
    apply negb_true_iff in Hfree. by rewrite Hfree.
  - cbn. apply lookup_insert_eq.
Qed.

Lemma welcome_audio_is_played_witness :
  let result :=
    incoming_call Scenario.env (Scenario.outside Scenario.t0 "info")
      (Scenario.request None) Scenario.empty in
  fst result =
    Done (twiml [Play "https://callflow.example/audio/CA1-welcome.mp3";
                 Gather "speech" "/process-speech" "POST" "5"]) /\
  audio (snd result) !! "./audio/CA1-welcome.mp3" =
    Some "mp3 of: Hello. You have reached CallFlow Client. How can I help you today?".
Proof.
  intros result.
  pose proof (welcome_audio_is_played Scenario.env (Scenario.outside Scenario.t0 "info")
                (Scenario.request None) Scenario.empty (default_tenant Scenario.env)
                "CA1"
                {| ok := true;
                   body := "mp3 of: Hello. You have reached CallFlow Client. How can I help you today?" |})
    as H.
  destruct H as (H & _); [vm_compute; reflexivity..|].
  exact H.
Defined.

(** On a disk that takes no file the same event is rejected, the session
    being stored all the same. *)
Example welcome_on_a_full_disk :
  let result :=
    incoming_call Scenario.env (More.disk_full Scenario.t0) (Scenario.request None)
      Scenario.empty in
  fst result = Rejected FsError /\
  (audio (snd result) = ∅) /\
  redis (snd result) = redis Scenario.started.
Proof. vm_compute. done. Qed.

(** X16: a retried initiation event starts the session afresh.  When the
    same initiation event is served a second time, at whatever time and
    with whatever answers from outside, the last serving wins: the store
    is what the second serving alone would have left, the session holds
    the start time of the second serving and a history of the system turn
    only, and no other key has changed.  The store is as the first serving
    left it exactly when both servings read the same clock value; the
    speech endpoint is asked once per serving, and a welcome file written
    by the second serving replaces that of the first. *)
Theorem initiation_retry_overwrites env o1 o2 rq w tenant :
  getTenantConfig env (To rq) w = (Done tenant, w) ->
  let key := sessionKey (To rq) (CallSid rq) in
  let w1 := snd (incoming_call env o1 rq w) in
  let w2 := snd (incoming_call env o2 rq w1) in
  redis w2 = redis (snd (incoming_call env o2 rq w)) /\
  redis w2 !! key =
    Some (RString (DSession (new_session rq (clock o2 0) tenant)) (Some 3600)) /\
  (forall k, k <> key -> redis w2 !! k = redis w !! k) /\
  (redis w2 = redis w1 <-> clock o2 0 = clock o1 0) /\
  calls w2 = (calls w ++ [Speech (welcome_text tenant); Speech (welcome_text tenant)])%list /\
  (forall fetched,
     tts o2 (welcome_text tenant) = Some fetched ->
     fs_accepts o2 (welcome_file rq) = true ->
     audio w2 = <[welcome_file rq := body fetched]> (audio w)).
Proof.
  intros Hc key w1 w2.
  pose proof (incoming_stored env o1 rq w tenant Hc) as [Hr1 _].
  pose proof (incoming_stored env o2 rq w tenant Hc) as [Hr2' _].
  assert (Hc1 : getTenantConfig env (To rq) w1 = (Done tenant, w1)).
  { apply (getTenantConfig_agrees env (To rq) w); [|done].
    unfold w1. rewrite Hr1.
    by rewrite lookup_insert_ne by (intros H; symmetry in H; revert H;
                                    apply tenantKey_sessionKey). }
  pose proof (incoming_stored env o2 rq w1 tenant Hc1) as [Hr2 _].
  fold w1 in Hr1. fold w2 in Hr2. rewrite Hr1 in Hr2.
  rewrite insert_insert_eq in Hr2. fold key in Hr1, Hr2, Hr2'.
  split; [by rewrite Hr2, Hr2'|].
  split; [rewrite Hr2; apply lookup_insert_eq|].
  split; [intros k Hne; rewrite Hr2; by apply lookup_insert_ne|].
  split; [split|split].
  - intros Heq. rewrite Hr1, Hr2 in Heq.
    assert (H : (<[key := RString (DSession (new_session rq (clock o2 0) tenant)) (Some 3600)]>
                   (redis w)) !! key =
                (<[key := RString (DSession (new_session rq (clock o1 0) tenant)) (Some 3600)]>
                   (redis w)) !! key) by (by rewrite Heq).
    rewrite !lookup_insert_eq in H. by injection H.
  - intros Heq. by rewrite Hr1, Hr2, Heq.
  - unfold w2. rewrite (incoming_call_eq env o2 rq w1 tenant Hc1).
    unfold w1. rewrite (incoming_call_eq env o1 rq w tenant Hc). cbv zeta.
    destruct (tts o1 (welcome_text tenant)) as [f1|];
      destruct (tts o2 (welcome_text tenant)) as [f2|];
      destruct (fs_accepts o1 (welcome_file rq));
      destruct (fs_accepts o2 (welcome_file rq)); cbn; by rewrite <- app_assoc.
  - intros fetched Htts Hfs.
    unfold w2. rewrite (incoming_call_eq env o2 rq w1 tenant Hc1).
    unfold w1. rewrite (incoming_call_eq env o1 rq w tenant Hc). cbv zeta.
    rewrite Htts, Hfs.
    destruct (tts o1 (welcome_text tenant)) as [f1|];
      [destruct (fs_accepts o1 (welcome_file rq))|]; cbn; by rewrite ?insert_insert_eq.
Qed.

Lemma initiation_retry_overwrites_witness :
  let o1 := Scenario.outside Scenario.t0 "info" in
  let o2 := Scenario.outside (Scenario.t0 + 1000) "info" in
  let rq := Scenario.request None in
  let w1 := snd (incoming_call Scenario.env o1 rq Scenario.empty) in
  let w2 := snd (incoming_call Scenario.env o2 rq w1) in
  redis w2 !! Scenario.key =
    Some (RString (DSession (new_session rq (Scenario.t0 + 1000)
                               (default_tenant Scenario.env))) (Some 3600)) /\
  redis w2 <> redis w1.
Proof.
  intros o1 o2 rq w1 w2.
  pose proof (initiation_retry_overwrites Scenario.env o1 o2 rq Scenario.empty
                (default_tenant Scenario.env)) as H.
  destruct H as (_ & H1 & _ & H2 & _); [vm_compute; reflexivity|].
  split; [exact H1|].
  intros Heq. apply H2 in Heq. vm_compute in Heq. discriminate Heq.
Defined.

(** X17: at initiation the session is stored before the welcome is
    synthesized, and nothing checks what synthesis returned.  The session
    is in the store and the speech endpoint has been asked, however the
    event ends.  When the speech request rejects the handler rejects and no
    audio file is written; when it resolves, the body received is written
    as the welcome file and played, whatever the status of the answer,
    unless the file cannot be written, in which case the handler rejects
    and no audio file is written. *)
Theorem initiation_stores_before_synthesis env o rq w tenant :
  getTenantConfig env (To rq) w = (Done tenant, w) ->
  let result := incoming_call env o rq w in
  redis (snd result) =
    <[sessionKey (To rq) (CallSid rq) :=
        RString (DSession (new_session rq (clock o 0) tenant)) (Some 3600)]> (redis w) /\
  calls (snd result) = (calls w ++ [Speech (welcome_text tenant)])%list /\
  match tts o (welcome_text tenant) with
  | None => fst result = Rejected ProviderError /\ audio (snd result) = audio w
  | Some fetched =>
      if fs_accepts o (welcome_file rq) then
        fst result = Done (play_then_gather rq (welcome_file rq)) /\
        audio (snd result) = <[welcome_file rq := body fetched]> (audio w)
      else
        fst result = Rejected FsError /\ audio (snd result) = audio w
  end.
Proof.
  intros Hc result. subst result.
  rewrite (incoming_call_eq env o rq w tenant Hc). cbv zeta.
  destruct (tts o (welcome_text tenant)) as [fetched|]; [|done].
  by destruct (fs_accepts o (welcome_file rq)).
Qed.

Lemma initiation_stores_before_synthesis_witness :
  let rq := Scenario.request None in
  let unreachable := incoming_call Scenario.env (Scenario.tts_down Scenario.t0) rq Scenario.empty in
  let refused := incoming_call Scenario.env (More.tts_refuses Scenario.t0) rq Scenario.empty in
  let unwritable :=
    incoming_call Scenario.env (Scenario.outside Scenario.t0 "info") More.room7
      Scenario.empty in
  (fst unreachable = Rejected ProviderError /\
   redis (snd unreachable) !! Scenario.key = redis Scenario.started !! Scenario.key /\
   audio (snd unreachable) = ∅) /\
  (fst refused = Done (play_then_gather rq "./audio/CA1-welcome.mp3") /\
   audio (snd refused) !! "./audio/CA1-welcome.mp3" = Some "429 quota exceeded") /\
  (fst unwritable = Rejected FsError /\
   redis (snd unwritable) !! "tenant:undefined:call:session:room/7" =
     Some (RString (DSession (new_session More.room7 Scenario.t0
                                (default_tenant Scenario.env))) (Some 3600)) /\
   audio (snd unwritable) = ∅).
Proof.
  intros rq unreachable refused unwritable. split; [|split].
  - pose proof (initiation_stores_before_synthesis Scenario.env
                  (Scenario.tts_down Scenario.t0) rq Scenario.empty
                  (default_tenant Scenario.env)) as H.
    destruct H as (H1 & _ & H2 & H3); [vm_compute; reflexivity|].
    split; [exact H2|]. split; [|exact H3].
    fold unreachable in H1. rewrite H1. vm_compute. reflexivity.
  - pose proof (initiation_stores_before_synthesis Scenario.env
                  (More.tts_refuses Scenario.t0) rq Scenario.empty
                  (default_tenant Scenario.env)) as H.
    destruct H as (_ & _ & H2 & H3); [vm_compute; reflexivity|].
    split; [exact H2|]. fold refused in H3. rewrite H3. vm_compute. reflexivity.
  - pose proof (initiation_stores_before_synthesis Scenario.env
                  (Scenario.outside Scenario.t0 "info") More.room7 Scenario.empty
                  (default_tenant Scenario.env)) as H.
    destruct H as (H1 & _ & H2 & H3); [vm_compute; reflexivity|].
    split; [exact H2|]. split; [|exact H3].
    fold unwritable in H1. rewrite H1. vm_compute. reflexivity.
Defined.

(** ** What the providers are asked *)

(** X18: in a turn that is answered, the providers are called in this
    order: the classifier with the utterance, only if the intent is still
    unset; the reply generation with the whole history ending with the new
    user turn; speech synthesis with exactly the reply.  Nothing else is
    asked. *)
Theorem providers_are_asked_in_order env o rq w s ex tenant reply :
  redis w !! sessionKey (To rq) (CallSid rq) = Some (RString (DSession s) ex) ->
  over_turns env s = false ->
  over_time env (clock o 0) s = false ->
  getTenantConfig env (To rq) w = (Done tenant, w) ->
  wants_human tenant (Js.toLowerCase (Js.or_else (SpeechResult rq) "")) = false ->
  Js.truthy (intent s) = true \/ chat_intent o (Js.or_else (SpeechResult rq) "") <> None ->
  let utter := Js.or_else (SpeechResult rq) "" in
  let history := (messages s ++ [ {| role := user; content := utter |} ])%list in
  chat_reply o history = Some reply ->
  calls (snd (process_speech env o rq w)) =
    (calls w ++
     (if Js.truthy (intent s) then [] else [ChatIntent utter]) ++
     [ChatReply history; Speech reply])%list.
Proof.
  intros Hk Ht Hd Hc Hh Hcls utter history Hrep.
  destruct (detect_intent o utter (push {| role := user; content := utter |} s) w)
    as [[s1|e] w1] eqn:Hi.
  2: { exfalso. destruct (detect_intent_frame _ _ _ _ _ _ Hi) as (_ & _ & _ & _ & He).
       destruct (He _ eq_refl) as [_ Hnone].
       destruct Hcls as [Htr|Hsome]; [|done].
       revert Hi. unfold detect_intent. cbn [intent push]. by rewrite Htr. }
  assert (Hw1 : calls w1 =
                (calls w ++ if Js.truthy (intent s) then [] else [ChatIntent utter])%list /\
                messages s1 = history).
  { revert Hi. unfold detect_intent, bind, call_provider. cbn [intent push].
    destruct (Js.truthy (intent s)).
    - intros [= <- <-]. by rewrite app_nil_r.
    - destruct (chat_intent o utter); by intros [= <- <-]. }
  destruct Hw1 as [Hcalls Hm]. rewrite <- Hm in Hrep.
  destruct (tts o reply) as [fetched|] eqn:Htts;
    [destruct (fs_accepts o (reply_file o rq)) eqn:Hfs|].
  - rewrite (speech_reply_ok env o rq w s ex tenant Hk Ht Hd Hc _ _ _ _ Hh Hi Hrep Htts Hfs).
    cbn. rewrite Hcalls, Hm, <- !app_assoc. done.
  - rewrite (speech_write_fails env o rq w s ex tenant Hk Ht Hd Hc _ _ _ _ Hh Hi Hrep Htts Hfs).
    cbn. rewrite Hcalls, Hm, <- !app_assoc. done.
  - rewrite (speech_tts_fails env o rq w s ex tenant Hk Ht Hd Hc _ _ _ Hh Hi Hrep Htts).
    cbn. rewrite Hcalls, Hm, <- !app_assoc. done.
Qed.

Lemma providers_are_asked_in_order_witness :
  let o := Scenario.outside (Scenario.t0 + 5000) " info " in
  let rq := Scenario.request (Some "When do you open?") in
  calls (snd (process_speech Scenario.env o rq Scenario.started)) =
    (calls Scenario.started ++
     [ChatIntent "When do you open?";
      ChatReply (messages (Scenario.session_in Scenario.started) ++
                 [ {| role := user; content := "When do you open?" |} ]);
      Speech "We open at 10 AM."])%list.
Proof.
  intros o rq.
  apply (providers_are_asked_in_order Scenario.env o rq Scenario.started
           (Scenario.session_in Scenario.started) (Some 3600)
           (default_tenant Scenario.env) "We open at 10 AM.").
  - vm_compute. reflexivity.
  - vm_compute. reflexivity.
  - vm_compute. reflexivity.
  - vm_compute. reflexivity.
  - vm_compute. reflexivity.
  - right. vm_compute. congruence.
  - reflexivity.
Defined.

(** ** From transfer to analytics *)

(** X19: a call that was transferred is counted as resolved by a human.
    After a speech event has transferred the call, the termination event
    archives the session with [resolvedBy = "HUMAN"] and the history ending
    with the caller's request, adds one to the tenant's daily
    [resolved_HUMAN] and [total_calls] counters and deletes the live
    session. *)
Theorem transferred_call_is_counted_as_human env o o' rq w s ex tenant :
  redis w !! sessionKey (To rq) (CallSid rq) = Some (RString (DSession s) ex) ->
  over_turns env s = false ->
  over_time env (clock o 0) s = false ->
  getTenantConfig env (To rq) w = (Done tenant, w) ->
  wants_human tenant (Js.toLowerCase (Js.or_else (SpeechResult rq) "")) = true ->
  holds_string w (analyticsKey (To rq) (clock o' 2)) = false ->
  holds_string w (analyticsKey (To rq) (clock o' 3)) = false ->
  let w1 := snd (process_speech env o rq w) in
  let w2 := snd (call_ended o' rq w1) in
  let daily := analyticsKey (To rq) (clock o' 3) in
  fst (call_ended o' rq w1) = Done (sendStatus 200) /\
  redis w2 !! sessionKey (To rq) (CallSid rq) = None /\
  counter w2 daily "resolved_HUMAN" = counter w daily "resolved_HUMAN" + 1 /\
  counter w2 (analyticsKey (To rq) (clock o' 2)) "total_calls" =
    counter w (analyticsKey (To rq) (clock o' 2)) "total_calls" + 1 /\
  exists a,
    redis w2 !! logKey (To rq) (CallSid rq) = Some (RString (DSession a) None) /\
    resolvedBy a = "HUMAN" /\
    messages a =
      (messages s ++ [ {| role := user; content := Js.or_else (SpeechResult rq) "" |} ])%list.
Proof.
  intros Hk Ht Hd Hc Hh Htot Hout w1 w2 daily.
  set (s1 := set_resolvedBy "HUMAN"
               (push {| role := user; content := Js.or_else (SpeechResult rq) "" |} s)).
  assert (Hw1 : w1 = with_redis <[sessionKey (To rq) (CallSid rq) :=
                                    RString (DSession s1) (Some 3600)]> w).
  { unfold w1. by rewrite (speech_transfer env o rq w s ex tenant Hk Ht Hd Hc Hh). }
  assert (Hk1 : redis w1 !! sessionKey (To rq) (CallSid rq) =
                Some (RString (DSession s1) (Some 3600))).
  { rewrite Hw1. cbn. apply lookup_insert_eq. }
  assert (Htot1 : holds_string w1 (analyticsKey (To rq) (clock o' 2)) = false).
  { rewrite Hw1, holds_string_insert_ne; [done|]. apply analyticsKey_sessionKey. }
  assert (Hout1 : holds_string w1 (analyticsKey (To rq) (clock o' 3)) = false).
  { rewrite Hw1, holds_string_insert_ne; [done|]. apply analyticsKey_sessionKey. }
  assert (Hcount : forall k f, k <> sessionKey (To rq) (CallSid rq) ->
                     counter w1 k f = counter w k f).
  { intros k f Hne. rewrite Hw1, counter_insert_string. by rewrite bool_decide_eq_false_2. }
  split; [by rewrite (ended_session o' rq w1 s1 _ Hk1 Htot1 Hout1)|].
  split; [apply (ended_session_gone o' rq w1 s1 _ Hk1 Htot1 Hout1)|].
  unfold w2. rewrite !(ended_counters o' rq w1 s1 _ Hk1 Htot1 Hout1).
  rewrite !Hcount by apply analyticsKey_sessionKey.
  split; [|split].
  - rewrite (bool_decide_eq_false_2 (_ = logKey _ _)) by apply analyticsKey_logKey.
    rewrite (bool_decide_eq_false_2 (_ /\ _ = "total_calls")) by (by intros [_ ?]).
    rewrite bool_decide_eq_true_2 by done. lia.
  - rewrite (bool_decide_eq_false_2 (_ = logKey _ _)) by apply analyticsKey_logKey.
    rewrite bool_decide_eq_true_2 by done.
    rewrite bool_decide_eq_false_2; [lia|]. by intros [_ ?].
  - exists (archived o' s1). split; [|done].
    apply (ended_logged o' rq w1 s1 _ Hk1 Htot1 Hout1).
Qed.

Lemma transferred_call_is_counted_as_human_witness :
  let o := Scenario.outside (Scenario.t0 + 5000) "info" in
  let rq := Scenario.request (Some "I want to talk to a human") in
  let w2 := snd (call_ended More.hang_up rq (snd (process_speech Scenario.env o rq
                                                    Scenario.started))) in
  redis w2 !! Scenario.key = None /\
  counter w2 Scenario.day "resolved_HUMAN" = counter Scenario.started Scenario.day "resolved_HUMAN" + 1.
Proof.
  intros o rq w2.
  pose proof (transferred_call_is_counted_as_human Scenario.env o More.hang_up rq
                Scenario.started (Scenario.session_in Scenario.started) (Some 3600)
                (default_tenant Scenario.env)) as H.
  destruct H as (_ & H1 & H2 & _); [vm_compute; reflexivity..|].
  split; [exact H1|exact H2].
Defined.
